(** * Figma-to-code synthesis engine: a shallow embedding and its properties

    The development embeds the generator classes of the repository
    (services/advanced-code-generator.ts, utils/code-generator.ts), the
    stylesheet function of the code-generation hook and the mock stylesheet
    function of server/routes.ts, and proves properties of the walker, the
    assembler and the heuristic analyzers.  It goes on to the analysis, the
    quality assessment and the phase reducer of the hook, the document
    parser (services/figma-parser.ts), the URL and key checks
    (utils/helpers.ts, services/figma-api.ts) and the extraction of design
    tokens.

    Modelling conventions.
    - JavaScript numbers are exact rationals ([Q]), without NaN and the
      infinities; [Math.round] is [floor (x + 1/2)].  Number-to-string
      conversion is defined on integers of magnitude below 2^53 (plain
      decimal digits); on every other value it is delegated to a parameter
      of class [NumberFormat].
    - Strings are byte strings and names are taken to be ASCII:
      [toLowerCase] and [toUpperCase] act on the ASCII letters, and the
      regular expressions of the source are written out as the character
      filters they denote on such strings.
    - Optional fields are [option]s; an object used as an ordered table
      ([Object.entries]) is an association list in enumeration order.
    - [Date.now] reads a clock that is part of the threaded state; a thrown
      exception is the [Throw] outcome of the state-and-error monad [M]. *)

From Stdlib Require Import QArith Qround ZArith Ascii String List Lia Bool.
From Stdlib Require Import DecimalString.
From stdpp Require Import base option list gmap strings.

Local Open Scope Z_scope.

(** ** JavaScript strings *)

Module JS.

Definition dq : string := String "034"%char EmptyString.
Definition nl : string := String "010"%char EmptyString.
Definition bq : string := String "096"%char EmptyString.

Definition code (c : ascii) : nat := nat_of_ascii c.

Definition inRange (lo hi : nat) (c : ascii) : bool :=
  (Nat.leb lo (code c)) && (Nat.leb (code c) hi).

Definition isUpper : ascii -> bool := inRange 65 90.
Definition isLower : ascii -> bool := inRange 97 122.
Definition isDigit : ascii -> bool := inRange 48 57.
Definition isAlnum (c : ascii) : bool := isUpper c || isLower c || isDigit c.

(** The ASCII members of the class [\s]: tab, line feed, vertical tab, form
    feed, carriage return and space. *)
Definition isSpace (c : ascii) : bool := inRange 9 13 c || Nat.eqb (code c) 32.

Definition lowerChar (c : ascii) : ascii :=
  if isUpper c then ascii_of_nat (code c + 32) else c.
Definition upperChar (c : ascii) : ascii :=
  if isLower c then ascii_of_nat (code c - 32) else c.

Fixpoint mapChars (f : ascii -> ascii) (s : string) : string :=
  match s with
  | EmptyString => EmptyString
  | String c s' => String (f c) (mapChars f s')
  end.

Fixpoint filterChars (p : ascii -> bool) (s : string) : string :=
  match s with
  | EmptyString => EmptyString
  | String c s' => if p c then String c (filterChars p s') else filterChars p s'
  end.

Definition toLowerCase : string -> string := mapChars lowerChar.
Definition toUpperCase : string -> string := mapChars upperChar.

Fixpoint startsWith (p s : string) : bool :=
  match p, s with
  | EmptyString, _ => true
  | String _ _, EmptyString => false
  | String a p', String c s' => if Ascii.eqb a c then startsWith p' s' else false
  end.

(** [s.includes(sub)] *)
Fixpoint includes (s sub : string) : bool :=
  startsWith sub s ||
  match s with
  | EmptyString => false
  | String _ s' => includes s' sub
  end.

(** [s.repeat(n)] *)
Fixpoint repeat (s : string) (n : nat) : string :=
  match n with
  | O => EmptyString
  | S n' => s +:+ repeat s n'
  end.

(** [l.join(sep)] *)
Fixpoint join (sep : string) (l : list string) : string :=
  match l with
  | [] => EmptyString
  | [s] => s
  | s :: l' => s +:+ sep +:+ join sep l'
  end.

(** Truthiness of a string and of an optional string. *)
Definition nonEmpty (s : string) : bool :=
  match s with EmptyString => false | _ => true end.
Definition truthyStr (o : option string) : bool :=
  match o with Some s => nonEmpty s | None => false end.

(** ** JavaScript numbers *)

Definition number : Type := Q.

(** Truthiness of a number: every value but zero. *)
Definition truthyNum (x : number) : bool := negb (Qeq_bool x 0).
Definition truthyOpt (o : option number) : bool :=
  match o with Some x => truthyNum x | None => false end.

(** [o || 0] *)
Definition orZero (o : option number) : number :=
  match o with Some x => if truthyNum x then x else 0%Q | None => 0%Q end.

Definition ltb (x y : number) : bool := negb (Qle_bool y x).
Definition leb (x y : number) : bool := Qle_bool x y.
Definition gtb (x y : number) : bool := ltb y x.
Arguments ltb (x y)%_Q_scope.
Arguments leb (x y)%_Q_scope.
Arguments gtb (x y)%_Q_scope.

(** [Math.round]: the nearest integer, ties towards plus infinity. *)
Definition Math_round (x : number) : Z := Qfloor (x + (1 # 2))%Q.

Definition showZ (z : Z) : string := NilZero.string_of_int (Z.to_int z).

(** The conversion of a number that is not an integer of magnitude below
    2^53 (a fraction, or an integer beyond the exactly printed range). *)
Class NumberFormat := formatOther : number -> string.

Definition isPlainInteger (x : number) : bool :=
  Qeq_bool (inject_Z (Qfloor x)) x && Z.ltb (Z.abs (Qfloor x)) (2 ^ 53).

(** [String(x)], as in a template literal. *)
Definition Number_toString `{NumberFormat} (x : number) : string :=
  if isPlainInteger x then showZ (Qfloor x) else formatOther x.

(** A template hole holding an optional number: [undefined] prints as such. *)
Definition showOpt `{NumberFormat} (o : option number) : string :=
  match o with Some x => Number_toString x | None => "undefined" end.

(** A template hole holding an optional string. *)
Definition showOptStr (o : option string) : string :=
  match o with Some s => s | None => "undefined" end.

End JS.

Import JS.

(** A format used where a closed example needs one; the examples print
    integers only, so it is never consulted there. *)
Definition exampleFormat : NumberFormat := fun _ => "NaN".

(** ** The design-file document (types/figma) *)

Record Color := mkColor {
  r : number;
  g : number;
  b : number;
  a : option number
}.

Arguments mkColor (r g b)%_Q_scope a.

Record Paint := mkPaint {
  paint_type : string;
  paint_color : option Color;
  paint_opacity : option number
}.

Record TypeStyle := mkTypeStyle {
  fontFamily : string;
  fontSize : number;
  fontWeight : option number;
  lineHeightPx : option number;
  letterSpacing : option number;
  textAlignHorizontal : option string;
  style_fills : option (list Paint)
}.

Record Offset := mkOffset { offset_x : number; offset_y : number }.

Record Effect := mkEffect {
  effect_type : string;
  visible : option bool;
  radius : option number;
  effect_color : option Color;
  offset : option Offset
}.

Record Constraints := mkConstraints {
  horizontal : string;
  vertical : string
}.

Record AbsoluteBoundingBox := mkBox {
  box_x : number;
  box_y : number;
  width : number;
  height : number
}.

Inductive NodeType :=
  | DOCUMENT | CANVAS | FRAME | GROUP | VECTOR | BOOLEAN_OPERATION | STAR
  | LINE | ELLIPSE | REGULAR_POLYGON | RECTANGLE | TEXT | SLICE | COMPONENT
  | COMPONENT_SET | INSTANCE.

Inductive LayoutMode := NONE | HORIZONTAL | VERTICAL.

#[global] Instance NodeType_eq_dec : EqDecision NodeType.
Proof. solve_decision. Defined.
#[global] Instance LayoutMode_eq_dec : EqDecision LayoutMode.
Proof. solve_decision. Defined.

(** The fields of a node other than its children.  [componentId] and
    [componentSetId] are read by no function of the engine and are left
    out. *)
Record NodeAttrs := mkAttrs {
  node_id : string;
  node_name : string;
  node_type : NodeType;
  absoluteBoundingBox : option AbsoluteBoundingBox;
  constraints : option Constraints;
  layoutMode : option LayoutMode;
  itemSpacing : option number;
  paddingLeft : option number;
  paddingRight : option number;
  paddingTop : option number;
  paddingBottom : option number;
  fills : option (list Paint);
  strokes : option (list Paint);
  strokeWeight : option number;
  cornerRadius : option number;
  backgroundColor : option Color;
  opacity : option number;
  effects : option (list Effect);
  characters : option string;
  style : option TypeStyle
}.

#[warnings="-register-all"]
Inductive FigmaNode :=
  | Node (attrs : NodeAttrs) (children : option (list FigmaNode)).

Definition attrs (n : FigmaNode) : NodeAttrs :=
  match n with Node at_ _ => at_ end.
Definition children (n : FigmaNode) : option (list FigmaNode) :=
  match n with Node _ cs => cs end.
Coercion attrs : FigmaNode >-> NodeAttrs.

(** [node.children] as a list, [undefined] read as no child (every reader
    of the field guards it with [node.children && ...] or [?.]). *)
Definition childList (n : FigmaNode) : list FigmaNode :=
  match children n with Some cs => cs | None => [] end.

Record FigmaComponent := mkComponent {
  key : string;
  component_name : string
}.

(** [components] is a [Record<string, FigmaComponent>]: its entries in
    [Object.entries] order, as (map key, component) pairs. *)
Record FigmaApiResponse := mkResponse {
  document : FigmaNode;
  components : option (list (string * FigmaComponent));
  file_name : option string
}.

(** Induction over nodes, with the hypothesis for every child. *)
Section FigmaNode_induction.
Variable P : FigmaNode -> Prop.
Hypothesis step : forall at_ cs,
  Forall P (match cs with Some l => l | None => [] end) -> P (Node at_ cs).

Fixpoint FigmaNode_ind' (n : FigmaNode) : P n :=
  match n with
  | Node at_ cs =>
      step at_ cs
        (match cs as o
               return Forall P (match o with Some l => l | None => [] end)
         with
         | Some l =>
             (fix all (l : list FigmaNode) : Forall P l :=
                match l with
                | [] => @List.Forall_nil _ P
                | c :: l' =>
                    @List.Forall_cons _ P c l' (FigmaNode_ind' c) (all l')
                end) l
         | None => @List.Forall_nil _ P
         end)
  end.
End FigmaNode_induction.

(** Pre-order enumeration of a subtree. *)
Fixpoint preorder (n : FigmaNode) : list FigmaNode :=
  n :: match children n with
       | Some cs =>
           (fix go (l : list FigmaNode) : list FigmaNode :=
              match l with
              | [] => []
              | c :: l' => preorder c ++ go l'
              end) cs
       | None => []
       end.

(** ** Generated components *)

Inductive IssueType := issue_error | issue_warning | issue_info.

Record AccessibilityIssue := mkIssue {
  issue_type : IssueType;
  message : string;
  element : string;
  fix_ : string
}.

Inductive WcagLevel := WCAG_AA | WCAG_A | WCAG_NonCompliant.

Record AccessibilityReport := mkReport {
  score : Z;
  issues : list AccessibilityIssue;
  suggestions : list string;
  wcagCompliance : WcagLevel
}.

Record ResponsiveBreakpoints := mkBreakpoints {
  mobile : string;
  tablet : string;
  desktop : string;
  hasResponsiveDesign : bool
}.

Inductive ComponentType :=
  | ct_button | ct_card | ct_text | ct_input | ct_layout | ct_complex.

Inductive Complexity := simple | medium | complex.

Record ComponentMetadata := mkMetadata {
  figmaNodeId : string;
  componentType : ComponentType;
  complexity : Complexity;
  estimatedAccuracy : Z;
  generationTime : Z;
  dependencies : list string
}.

Record GeneratedComponent := mkGenerated {
  gc_id : string;
  gc_name : string;
  jsx : string;
  css : string;
  typescript : option string;
  accessibility : AccessibilityReport;
  responsive : ResponsiveBreakpoints;
  metadata : ComponentMetadata
}.

Inductive Framework := react | vue | html.
Inductive Styling := tailwind | css_modules | styled_components | plain_css.

(** ** State, clock and exceptions *)

Inductive JSError :=
  | ReferenceError (what : string)
  | TypeError (what : string)
  | ZodError.

Inductive Result (A : Type) :=
  | Ok (v : A)
  | Throw (e : JSError).
Arguments Ok {A} v.
Arguments Throw {A} e.

(** The wall clock: [readings k] is what the k-th call of [Date.now]
    returns; [ticks] counts the calls made so far. *)
Record Clock := mkClock {
  readings : nat -> Z;
  ticks : nat
}.

Definition M (S A : Type) : Type := S -> Result A * S.

Definition ret {S A} (v : A) : M S A := fun s => (Ok v, s).
Definition throw {S A} (e : JSError) : M S A := fun s => (Throw e, s).
Definition bind {S A B} (m : M S A) (k : A -> M S B) : M S B :=
  fun s => match m s with
           | (Ok v, s') => k v s'
           | (Throw e, s') => (Throw e, s')
           end.

Notation "x <- m ;; k" := (bind m (fun x => k))
  (at level 100, m at next level, right associativity).

(** [l.forEach(x => body)] over a mutable accumulator. *)
Fixpoint forEachM {S A B} (body : B -> A -> M S B) (l : list A) (acc : B)
  : M S B :=
  match l with
  | [] => ret acc
  | x :: l' => acc' <- body acc x ;; forEachM body l' acc'
  end.

(** The monadic map: the actions of [f] run left to right. *)
Fixpoint mapM {S A B} (f : A -> M S B) (l : list A) : M S (list B) :=
  match l with
  | [] => ret []
  | x :: l' => y <- f x ;; ys <- mapM f l' ;; ret (y :: ys)
  end.

(** [Date.now()] *)
Definition Date_now : M Clock Z :=
  fun c => (Ok (readings c (ticks c)), mkClock (readings c) (S (ticks c))).

(** ** Style records

    A [Record<string, any>] filled by assignments: the entries stay in the
    order in which their keys were first assigned, and assigning to a key
    that is present replaces its value in place. *)

Inductive StyleValue :=
  | SVstr (s : string)
  | SVnum (x : number).

Definition Styles : Type := list (string * StyleValue).

Fixpoint styleSet (k : string) (v : StyleValue) (st : Styles) : Styles :=
  match st with
  | [] => [(k, v)]
  | (k', v') :: st' =>
      if String.eqb k' k then (k, v) :: st' else (k', v') :: styleSet k v st'
  end.

Fixpoint styleGet (k : string) (st : Styles) : option StyleValue :=
  match st with
  | [] => None
  | (k', v') :: st' => if String.eqb k' k then Some v' else styleGet k st'
  end.

Definition showValue `{NumberFormat} (v : StyleValue) : string :=
  match v with
  | SVstr s => s
  | SVnum x => Number_toString x
  end.

(** ** Expressions the two generator classes share word for word *)

(** A property of a generated component: name, type, optional. *)
Record Prop_ := mkProp {
  prop_name : string;
  prop_type : string;
  prop_optional : bool
}.

(** [node.type === 'TEXT'] *)
Definition isTEXT (node : FigmaNode) : bool :=
  bool_decide (node_type node = TEXT).

(** [score >= 80 ? 'AA' : score >= 60 ? 'A' : 'Non-compliant'] *)
Definition wcagOf (score : Z) : WcagLevel :=
  if 80 <=? score then WCAG_AA
  else if 60 <=? score then WCAG_A
  else WCAG_NonCompliant.

(** [node.constraints?.horizontal !== 'LEFT' ||
     node.constraints?.vertical !== 'TOP']: on a node without constraints
    both sides compare [undefined] with a string. *)
Definition hasConstraints (node : FigmaNode) : bool :=
  match constraints node with
  | Some c => negb (String.eqb (horizontal c) "LEFT") ||
              negb (String.eqb (vertical c) "TOP")
  | None => true
  end.

Definition hasFlexLayout (node : FigmaNode) : bool :=
  bool_decide (layoutMode node = Some HORIZONTAL) ||
  bool_decide (layoutMode node = Some VERTICAL).

(** The text of an integer that [Math.round] returned. *)
Definition showRounded `{NumberFormat} (z : Z) : string :=
  Number_toString (inject_Z z).

(** ** services/advanced-code-generator.ts: class AdvancedCodeGenerator *)

Module AdvancedCodeGenerator.

Record CodeGenerationOptions := mkOptions {
  opt_framework : Framework;
  opt_styling : Styling;
  opt_typescript : bool;
  opt_accessibility : bool;
  opt_responsive : bool;
  opt_optimizeImages : bool
}.

Record CustomCodeInputs := mkCustom {
  custom_jsx : string;
  custom_css : string;
  cssAdvanced : string
}.

(** The value a freshly constructed generator holds. *)
Definition noCustomCode : CustomCodeInputs :=
  mkCustom EmptyString EmptyString EmptyString.

Record Generator := mkGenerator {
  figmaData : FigmaApiResponse;
  options : CodeGenerationOptions;
  customCode : CustomCodeInputs
}.

Definition new (data : FigmaApiResponse) (opts : CodeGenerationOptions)
  : Generator := mkGenerator data opts noCustomCode.

Definition setCustomCode (this : Generator) (cc : CustomCodeInputs)
  : Generator := mkGenerator (figmaData this) (options this) cc.

Section Methods.

Context {NF : NumberFormat}.
Variable this : Generator.

(** [name.replace(/[^a-zA-Z0-9]/g, '').replace(/^[0-9]/, 'Component$&')
         .replace(/^./, str => str.toUpperCase()) || 'Component'] *)
Definition sanitizeComponentName (name : string) : string :=
  let s1 := filterChars isAlnum name in
  let s2 := match s1 with
            | String c _ => if isDigit c then "Component" +:+ s1 else s1
            | EmptyString => s1
            end in
  let s3 := match s2 with
            | String c rest => String (upperChar c) rest
            | EmptyString => s2
            end in
  if nonEmpty s3 then s3 else "Component".

Definition colorToCSS (color : Color) (opacity : option number) : string :=
  let alpha := match opacity with
               | Some o => o
               | None => match a color with Some al => al | None => 1%Q end
               end in
  "rgba(" +:+ showRounded (Math_round (r color * 255)%Q) +:+ ", "
          +:+ showRounded (Math_round (g color * 255)%Q) +:+ ", "
          +:+ showRounded (Math_round (b color * 255)%Q) +:+ ", "
          +:+ Number_toString alpha +:+ ")".

Definition colorToTailwind (color : Color) : string :=
  let '(cr, cg, cb) := (r color, g color, b color) in
  if gtb cr (9 # 10) && gtb cg (9 # 10) && gtb cb (9 # 10) then "bg-white"
  else if ltb cr (1 # 10) && ltb cg (1 # 10) && ltb cb (1 # 10) then "bg-black"
  else if gtb cr (8 # 10) && ltb cg (3 # 10) && ltb cb (3 # 10) then "bg-red-500"
  else if ltb cr (3 # 10) && gtb cg (8 # 10) && ltb cb (3 # 10) then "bg-green-500"
  else if ltb cr (3 # 10) && ltb cg (3 # 10) && gtb cb (8 # 10) then "bg-blue-500"
  else "bg-gray-500".

Definition pxToTailwindSpacing (px : number) : string :=
  let spacing := Math_round (px / 4)%Q in
  if spacing <=? 0 then "0"
  else if spacing <=? 96 then showRounded spacing
  else "[" +:+ Number_toString px +:+ "px]".

Definition borderRadiusToTailwind (radius : number) : string :=
  if leb radius 2 then "rounded-sm"
  else if leb radius 4 then "rounded"
  else if leb radius 6 then "rounded-md"
  else if leb radius 8 then "rounded-lg"
  else if leb radius 12 then "rounded-xl"
  else if leb radius 16 then "rounded-2xl"
  else "rounded-[" +:+ Number_toString radius +:+ "px]".

Definition fontSizeToTailwind (size : number) : string :=
  if leb size 12 then "text-xs"
  else if leb size 14 then "text-sm"
  else if leb size 16 then "text-base"
  else if leb size 18 then "text-lg"
  else if leb size 20 then "text-xl"
  else if leb size 24 then "text-2xl"
  else if leb size 30 then "text-3xl"
  else "text-[" +:+ Number_toString size +:+ "px]".

(** [node.fills?.some(fill => fill.type === 'IMAGE') || false] *)
Definition isImage (node : FigmaNode) : bool :=
  match fills node with
  | Some fs => existsb (fun fill => String.eqb (paint_type fill) "IMAGE") fs
  | None => false
  end.

Definition isInteractiveElement (node : FigmaNode) : bool :=
  let name := toLowerCase (node_name node) in
  includes name "button" || includes name "link" ||
  includes name "input" || includes name "click".

Definition isHeading (node : FigmaNode) : bool :=
  if negb (isTEXT node) then false
  else
    let name := toLowerCase (node_name node) in
    includes name "title" || includes name "heading" ||
    includes name "header" ||
    match style node with
    | Some st => truthyNum (fontSize st) && gtb (fontSize st) 20
    | None => false
    end.

(** The placeholder of the source: a constant. *)
Definition calculateContrastRatio (node : FigmaNode) : number := (45 # 10)%Q.

Definition getHtmlTag (node : FigmaNode) : string :=
  match node_type node with
  | TEXT => if isHeading node then "h2" else "span"
  | FRAME => "div"
  | RECTANGLE => if isImage node then "img" else "div"
  | COMPONENT | INSTANCE => "div"
  | _ => "div"
  end.

Definition gradientToCSS (fill : Paint) : string :=
  "linear-gradient(90deg, #000 0%, #fff 100%)".

Definition effectToCSS (effect : Effect) : string :=
  if String.eqb (effect_type effect) "DROP_SHADOW" then
    let x := orZero (offset_x <$> offset effect) in
    let y := orZero (offset_y <$> offset effect) in
    let blur := orZero (radius effect) in
    let colorCSS := match effect_color effect with
                    | Some c => colorToCSS c None
                    | None => "rgba(0,0,0,0.25)"
                    end in
    Number_toString x +:+ "px " +:+ Number_toString y +:+ "px "
      +:+ Number_toString blur +:+ "px " +:+ colorCSS
  else EmptyString.

Definition px (x : number) : StyleValue := SVstr (Number_toString x +:+ "px").

Definition firstOf {X} (o : option (list X)) : option X :=
  match o with
  | Some (x :: _) => Some x
  | _ => None
  end.

Definition extractAllStyles (node : FigmaNode) : Styles :=
  let styles : Styles := [] in
  (* layout and position *)
  let styles :=
    match absoluteBoundingBox node with
    | Some box =>
        styleSet "height" (px (height box)) (styleSet "width" (px (width box)) styles)
    | None => styles
    end in
  (* flexbox layout: any layout mode, NONE included, is a truthy string *)
  let styles :=
    match layoutMode node with
    | Some mode =>
        let styles := styleSet "display" (SVstr "flex") styles in
        let styles :=
          styleSet "flexDirection"
            (SVstr (if bool_decide (mode = HORIZONTAL) then "row" else "column"))
            styles in
        match itemSpacing node with
        | Some sp => if truthyNum sp then styleSet "gap" (px sp) styles else styles
        | None => styles
        end
    | None => styles
    end in
  (* padding *)
  let styles :=
    if truthyOpt (paddingLeft node) || truthyOpt (paddingRight node) ||
       truthyOpt (paddingTop node) || truthyOpt (paddingBottom node)
    then
      styleSet "padding"
        (SVstr (Number_toString (orZero (paddingTop node)) +:+ "px "
                +:+ Number_toString (orZero (paddingRight node)) +:+ "px "
                +:+ Number_toString (orZero (paddingBottom node)) +:+ "px "
                +:+ Number_toString (orZero (paddingLeft node)) +:+ "px"))
        styles
    else styles in
  (* background colour *)
  let styles :=
    match backgroundColor node with
    | Some c => styleSet "backgroundColor" (SVstr (colorToCSS c None)) styles
    | None => styles
    end in
  (* fills *)
  let styles :=
    match firstOf (fills node) with
    | Some fill =>
        match String.eqb (paint_type fill) "SOLID", paint_color fill with
        | true, Some c =>
            styleSet "backgroundColor"
              (SVstr (colorToCSS c (paint_opacity fill))) styles
        | _, _ =>
            if String.eqb (paint_type fill) "GRADIENT_LINEAR"
            then styleSet "background" (SVstr (gradientToCSS fill)) styles
            else styles
        end
    | None => styles
    end in
  (* border radius *)
  let styles :=
    match cornerRadius node with
    | Some cr => if truthyNum cr then styleSet "borderRadius" (px cr) styles else styles
    | None => styles
    end in
  (* strokes *)
  let styles :=
    match firstOf (strokes node), strokeWeight node with
    | Some stroke, Some sw =>
        if truthyNum sw then
          match paint_color stroke with
          | Some c =>
              styleSet "border"
                (SVstr (Number_toString sw +:+ "px solid "
                        +:+ colorToCSS c (paint_opacity stroke))) styles
          | None => styles
          end
        else styles
    | _, _ => styles
    end in
  (* text styles *)
  let styles :=
    match isTEXT node, style node with
    | true, Some st =>
        let styles :=
          styleSet "fontFamily"
            (SVstr (dq +:+ fontFamily st +:+ dq +:+ ", sans-serif")) styles in
        let styles := styleSet "fontSize" (px (fontSize st)) styles in
        let styles :=
          styleSet "lineHeight" (SVstr (showOpt (lineHeightPx st) +:+ "px")) styles in
        let styles :=
          styleSet "letterSpacing"
            (SVstr (showOpt (letterSpacing st) +:+ "px")) styles in
        match firstOf (style_fills st) with
        | Some textFill =>
            match paint_color textFill with
            | Some c =>
                styleSet "color"
                  (SVstr (colorToCSS c (paint_opacity textFill))) styles
            | None => styles
            end
        | None => styles
        end
    | _, _ => styles
    end in
  (* opacity *)
  let styles :=
    match opacity node with
    | Some o => if negb (Qeq_bool o 1) then styleSet "opacity" (SVnum o) styles
                else styles
    | None => styles
    end in
  (* effects *)
  let styles :=
    match effects node with
    | Some ((_ :: _) as es) =>
        let shadows :=
          map effectToCSS
            (List.filter
               (fun e => String.eqb (effect_type e) "DROP_SHADOW" &&
                         negb (bool_decide (visible e = Some false))) es) in
        match shadows with
        | [] => styles
        | _ => styleSet "boxShadow" (SVstr (join ", " shadows)) styles
        end
    | _ => styles
    end in
  styles.

Definition optClass (o : option number) (f : number -> string) : list string :=
  match o with
  | Some x => if truthyNum x then [f x] else []
  | None => []
  end.

Definition generateTailwindClasses (node : FigmaNode) : string :=
  let classes : list string :=
    (* layout *)
    match layoutMode node with
    | Some HORIZONTAL => ["flex"; "flex-row"]
    | Some VERTICAL => ["flex"; "flex-col"]
    | _ => []
    end
    (* spacing *)
    ++ optClass (itemSpacing node) (fun x => "gap-" +:+ pxToTailwindSpacing x)
    (* padding *)
    ++ optClass (paddingLeft node) (fun x => "pl-" +:+ pxToTailwindSpacing x)
    ++ optClass (paddingRight node) (fun x => "pr-" +:+ pxToTailwindSpacing x)
    ++ optClass (paddingTop node) (fun x => "pt-" +:+ pxToTailwindSpacing x)
    ++ optClass (paddingBottom node) (fun x => "pb-" +:+ pxToTailwindSpacing x)
    (* size *)
    ++ match absoluteBoundingBox node with
       | Some box =>
           ["w-[" +:+ Number_toString (width box) +:+ "px]";
            "h-[" +:+ Number_toString (height box) +:+ "px]"]
       | None => []
       end
    (* background colour *)
    ++ match backgroundColor node with
       | Some c => [colorToTailwind c]
       | None => []
       end
    (* border radius *)
    ++ optClass (cornerRadius node) borderRadiusToTailwind
    (* text styles *)
    ++ match isTEXT node, style node with
       | true, Some st =>
           if truthyNum (fontSize st) then [fontSizeToTailwind (fontSize st)]
           else []
       | _, _ => []
       end in
  join " " classes.

(** [s.replace(/\s+/g, '-')]: every maximal run of white space becomes one
    hyphen. *)
Fixpoint dashSpaces (s : string) : string :=
  match s with
  | EmptyString => EmptyString
  | String c s' =>
      if isSpace c then
        match s' with
        | String c' _ => if isSpace c' then dashSpaces s'
                         else String "-" (dashSpaces s')
        | EmptyString => "-"
        end
      else String c (dashSpaces s')
  end.

Definition isClassChar (c : ascii) : bool :=
  isLower c || isDigit c || Ascii.eqb c "-".

Definition generateClassName (node : FigmaNode) : string :=
  match opt_styling (options this) with
  | tailwind => generateTailwindClasses node
  | _ => filterChars isClassChar (dashSpaces (toLowerCase (node_name node)))
  end.

Definition generateInlineStyles (node : FigmaNode) : string :=
  match opt_styling (options this) with
  | tailwind => EmptyString
  | _ =>
      let styleEntries :=
        join ", "
          (map (fun '(k, v) => k +:+ ": " +:+ dq +:+ showValue v +:+ dq)
               (extractAllStyles node)) in
      if nonEmpty styleEntries then "{{ " +:+ styleEntries +:+ " }}"
      else EmptyString
  end.

Definition generateAttributes (node : FigmaNode) : string :=
  let attributes := if isImage node then ["src={src}"; "alt={alt}"] else [] in
  match attributes with
  | [] => EmptyString
  | _ => " " +:+ join " " attributes
  end.

(** The opening of an element, shared by the three shapes of
    [generateJSXElement]: indent, tag, class, style and attributes. *)
Definition openTag (indent tag className styles attributes : string) : string :=
  indent +:+ "<" +:+ tag
    +:+ (if nonEmpty className
         then " className=" +:+ dq +:+ className +:+ dq else EmptyString)
    +:+ (if nonEmpty styles
         then " style={" +:+ styles +:+ "}" else EmptyString)
    +:+ attributes.

Definition generateJSXElement (node : FigmaNode)
    (className styles children_ : string) (depth : nat) : string :=
  let indent := JS.repeat "  " depth in
  let tag := getHtmlTag node in
  let attributes := generateAttributes node in
  if isTEXT node && truthyStr (characters node) then
    openTag indent tag className styles attributes +:+ ">" +:+ nl
      +:+ indent +:+ "  {"
      +:+ (match characters node with
           | Some cs => if nonEmpty cs then dq +:+ cs +:+ dq else "children"
           | None => "children"
           end)
      +:+ "}" +:+ nl
      +:+ indent +:+ "</" +:+ tag +:+ ">"
  else if nonEmpty children_ then
    openTag indent tag className styles attributes +:+ ">" +:+ nl
      +:+ children_ +:+ nl
      +:+ indent +:+ "</" +:+ tag +:+ ">"
  else
    openTag indent tag className styles attributes +:+ " />".

Fixpoint generateChildren (node : FigmaNode) : string :=
  match children node with
  | Some cs =>
      join nl
        ((fix each (l : list FigmaNode) : list string :=
            match l with
            | [] => []
            | child :: l' =>
                generateJSXElement child (generateClassName child)
                  (generateInlineStyles child) (generateChildren child) 2
                :: each l'
            end) cs)
  | None => EmptyString
  end.

Definition extractProps (node : FigmaNode) : list Prop_ :=
  (if isTEXT node && truthyStr (characters node)
   then [mkProp "children" "React.ReactNode" true] else [])
  ++ (if isImage node
      then [mkProp "src" "string" false; mkProp "alt" "string" false] else [])
  ++ [mkProp "className" "string" true].

Definition generateImports (node : FigmaNode) : string :=
  join nl ["import React from " +:+ dq +:+ "react" +:+ dq +:+ ";"].

Definition propField (p : Prop_) : string :=
  prop_name p +:+ (if prop_optional p then "?" else EmptyString)
    +:+ ": " +:+ prop_type p +:+ ";".

Definition generatePropsInterface (props : list Prop_) (componentName : string)
  : string :=
  match props with
  | [] => EmptyString
  | _ =>
      "interface " +:+ componentName +:+ "Props {" +:+ nl
        +:+ "  " +:+ join (nl +:+ "  ") (map propField props) +:+ nl
        +:+ "}" +:+ nl +:+ nl
  end.

Definition generateHTML (node : FigmaNode) (className styles children_ : string)
  : string := "<!-- HTML implementation -->".

(** The last statement of [generateJSX] returns a variable [jsx] that no
    scope declares: reaching it (framework vue) throws. *)
Definition generateJSX (node : FigmaNode) (componentName : string)
  : Result string :=
  let props := extractProps node in
  let children_ := generateChildren node in
  let className := generateClassName node in
  let styles := generateInlineStyles node in
  match opt_framework (options this) with
  | react =>
      let imports := generateImports node in
      let propsInterface :=
        if opt_typescript (options this)
        then generatePropsInterface props componentName else EmptyString in
      let propNames := join ", " (map prop_name props) in
      let componentSignature :=
        if opt_typescript (options this)
        then "export const " +:+ componentName +:+ ": React.FC<" +:+ componentName
               +:+ "Props> = ({ " +:+ propNames +:+ " })"
        else "export const " +:+ componentName +:+ " = ({ " +:+ propNames +:+ " })" in
      let customJSXSection :=
        if nonEmpty (custom_jsx (customCode this))
        then nl +:+ "  // === EGYÉNI JSX KÓD ===" +:+ nl
               +:+ "  " +:+ custom_jsx (customCode this) +:+ nl
               +:+ "  // === EGYÉNI JSX KÓD VÉGE ===" +:+ nl
        else EmptyString in
      Ok (imports +:+ nl
            +:+ propsInterface +:+ nl
            +:+ componentSignature +:+ " => {" +:+ customJSXSection +:+ nl
            +:+ "  return (" +:+ nl
            +:+ "    " +:+ generateJSXElement node className styles children_ 1 +:+ nl
            +:+ "  );" +:+ nl
            +:+ "};" +:+ nl
            +:+ nl
            +:+ "export default " +:+ componentName +:+ ";")
  | html => Ok (generateHTML node className styles children_)
  | vue => Throw (ReferenceError "jsx is not defined")
  end.

(** [str.replace(/([a-z0-9]|(?=[A-Z]))([A-Z])/g, '$1-$2').toLowerCase()]:
    a hyphen goes before every capital letter. *)
Fixpoint hyphenate (s : string) : string :=
  match s with
  | EmptyString => EmptyString
  | String c s' =>
      if isUpper c then String "-" (String c (hyphenate s'))
      else String c (hyphenate s')
  end.

Definition camelToKebab (str : string) : string := toLowerCase (hyphenate str).

Definition convertToCSSRules (styles : Styles) (componentName : string) : string :=
  let cssRules :=
    join nl
      (map (fun '(property, value) =>
              "  " +:+ camelToKebab property +:+ ": " +:+ showValue value +:+ ";")
           styles) in
  "." +:+ toLowerCase componentName +:+ " {" +:+ nl +:+ cssRules +:+ nl +:+ "}".

Definition generateCSSModules (cssRules : string) : string := cssRules.

Definition generatePlainCSS (cssRules componentName : string) : string := cssRules.

(** The text after the first brace, when at least one character stands
    before it. *)
Fixpoint afterBrace (seen : bool) (s : string) : option string :=
  match s with
  | EmptyString => None
  | String c s' =>
      if Ascii.eqb c "{" then (if seen then Some s' else None)
      else afterBrace true s'
  end.

(** [s.replace(/^\.[^{]+\{/, '')] *)
Definition dropSelector (s : string) : string :=
  match s with
  | String c s' =>
      if Ascii.eqb c "." then
        match afterBrace false s' with Some rest => rest | None => s end
      else s
  | EmptyString => s
  end.

(** [s.replace(/\}$/, '')] *)
Fixpoint dropClosingBrace (s : string) : string :=
  match s with
  | EmptyString => EmptyString
  | String c EmptyString => if Ascii.eqb c "}" then EmptyString else s
  | String c s' => String c (dropClosingBrace s')
  end.

Definition generateStyledComponents (cssRules componentName : string) : string :=
  "import styled from 'styled-components';" +:+ nl
    +:+ nl
    +:+ "export const Styled" +:+ componentName +:+ " = styled.div" +:+ bq +:+ nl
    +:+ dropClosingBrace (dropSelector cssRules) +:+ nl
    +:+ bq +:+ ";".

Definition generateTailwindCSS (node : FigmaNode) : string :=
  let classes := generateTailwindClasses node in
  "/* Figma alapú Tailwind osztályok: " +:+ classes +:+ " */" +:+ nl
    +:+ nl
    +:+ "/* Komponens alapstílusok */" +:+ nl
    +:+ "." +:+ toLowerCase (sanitizeComponentName (node_name node)) +:+ " {" +:+ nl
    +:+ "  @apply " +:+ classes +:+ ";" +:+ nl
    +:+ "}".

Definition generateCSS (node : FigmaNode) (componentName : string) : string :=
  let baseCSS :=
    match opt_styling (options this) with
    | tailwind => generateTailwindCSS node
    | styling =>
        let styles := extractAllStyles node in
        let cssRules := convertToCSSRules styles componentName in
        match styling with
        | css_modules => generateCSSModules cssRules
        | styled_components => generateStyledComponents cssRules componentName
        | _ => generatePlainCSS cssRules componentName
        end
    end in
  let customCSSSection :=
    if nonEmpty (custom_css (customCode this))
    then nl +:+ nl
           +:+ "/* === EGYÉNI CSS STÍLUSOK === */" +:+ nl
           +:+ custom_css (customCode this) +:+ nl
           +:+ "/* === EGYÉNI CSS STÍLUSOK VÉGE === */"
    else EmptyString in
  let advancedCSSSection :=
    if nonEmpty (cssAdvanced (customCode this))
    then nl +:+ nl
           +:+ "/* === FEJLETT CSS++ FUNKCIÓK === */" +:+ nl
           +:+ cssAdvanced (customCode this) +:+ nl
           +:+ "/* === FEJLETT CSS++ FUNKCIÓK VÉGE === */"
    else EmptyString in
  baseCSS +:+ customCSSSection +:+ advancedCSSSection.

Definition hasCustomMarkupOrCss : bool :=
  nonEmpty (custom_jsx (customCode this)) || nonEmpty (custom_css (customCode this)).

Definition hasCustomCode : bool :=
  nonEmpty (custom_jsx (customCode this)) ||
  nonEmpty (custom_css (customCode this)) ||
  nonEmpty (cssAdvanced (customCode this)).

Definition analyzeAccessibility (node : FigmaNode) : AccessibilityReport :=
  let issues : list AccessibilityIssue := [] in
  let suggestions : list string := [] in
  let score := 100 in
  (* alt text of images *)
  let '(issues, score) :=
    if isImage node then
      (issues ++ [mkIssue issue_error "Kép hiányzó alt szöveg" (node_name node)
                          "Adj hozzá alt attribútumot leíró szöveggel"],
       score - 15)
    else (issues, score) in
  (* text contrast *)
  let '(issues, score) :=
    if isTEXT node then
      let contrastRatio := calculateContrastRatio node in
      if ltb contrastRatio (45 # 10) then
        (issues ++ [mkIssue issue_warning "Alacsony szöveg kontraszt"
                            (node_name node)
                            "Növeld a szöveg és háttér közötti kontrasztot"],
         score - 10)
      else (issues, score)
    else (issues, score) in
  (* interactive elements *)
  let suggestions :=
    if isInteractiveElement node then
      suggestions ++
        ["Biztosítsd a billentyűzetes navigáció támogatását";
         "Adj hozzá ARIA címkéket a képernyőolvasókhoz";
         "Használj megfelelő focus állapotokat"]
    else suggestions in
  (* heading hierarchy *)
  let suggestions :=
    if isHeading node then
      suggestions ++ ["Ellenőrizd a címsor hierarchiát (h1, h2, h3...)"]
    else suggestions in
  (* custom code *)
  let suggestions :=
    if hasCustomMarkupOrCss then
      suggestions ++
        ["Ellenőrizd az egyéni kód accessibility megfelelőségét";
         "Teszteld a komponenst képernyőolvasóval"]
    else suggestions in
  mkReport (Z.max 0 score) issues suggestions (wcagOf score).

Definition generateResponsiveCSS (node : FigmaNode) (breakpoint : string)
  : string := "/* " +:+ breakpoint +:+ " responsive styles */".

Definition analyzeResponsive (node : FigmaNode) : ResponsiveBreakpoints :=
  let hasResponsiveDesign := hasFlexLayout node || hasConstraints node in
  mkBreakpoints (generateResponsiveCSS node "mobile")
                (generateResponsiveCSS node "tablet")
                (generateResponsiveCSS node "desktop")
                hasResponsiveDesign.

Definition generateTypeScript (node : FigmaNode) (componentName : string)
  : string :=
  let props := extractProps node in
  "export interface " +:+ componentName +:+ "Props {" +:+ nl
    +:+ "  " +:+ join (nl +:+ "  ") (map propField props) +:+ nl
    +:+ "}" +:+ nl
    +:+ nl
    +:+ "export type " +:+ componentName +:+ "Ref = HTMLDivElement;".

Definition childCount (node : FigmaNode) : nat := length (childList node).

Definition detectComponentType (node : FigmaNode) : ComponentType :=
  let name := toLowerCase (node_name node) in
  if includes name "button" then ct_button
  else if includes name "card" then ct_card
  else if includes name "text" || isTEXT node then ct_text
  else if includes name "input" then ct_input
  else if Nat.ltb 3 (childCount node) then ct_layout
  else ct_complex.

Definition calculateComplexity (node : FigmaNode) : Complexity :=
  let complexity := 0 in
  let complexity :=
    match children node with
    | Some cs => complexity + Z.of_nat (length cs)
    | None => complexity
    end in
  let complexity :=
    match effects node with
    | Some (_ :: _) => complexity + 2
    | _ => complexity
    end in
  let complexity :=
    match fills node with
    | Some fs => if Nat.ltb 1 (length fs) then complexity + 1 else complexity
    | None => complexity
    end in
  (* custom code raises the complexity *)
  let complexity := if hasCustomCode then complexity + 1 else complexity in
  if complexity <=? 3 then simple
  else if complexity <=? 8 then medium
  else complex.

Definition isSimple (c : Complexity) : bool :=
  match c with simple => true | _ => false end.

Definition isButtonTextCard (t : ComponentType) : bool :=
  match t with ct_button | ct_text | ct_card => true | _ => false end.

Definition estimateAccuracy (node : FigmaNode) : Z :=
  let accuracy := 85 in
  let accuracy :=
    if isSimple (calculateComplexity node) then accuracy + 10 else accuracy in
  let accuracy :=
    if Nat.ltb 5 (childCount node) then accuracy - 5 else accuracy in
  let componentType := detectComponentType node in
  let accuracy :=
    if isButtonTextCard componentType then accuracy + 5 else accuracy in
  (* custom code improves the accuracy *)
  let accuracy := if hasCustomCode then accuracy + 5 else accuracy in
  Z.min 100 (Z.max 70 accuracy).

Definition extractDependencies (node : FigmaNode) : list string :=
  ["react"]
  ++ (if opt_typescript (options this) then ["@types/react"] else [])
  ++ (if isImage node then ["next/image"] else [])
  ++ (match opt_styling (options this) with
      | styled_components => ["styled-components"]
      | _ => []
      end).

Definition generateMetadata (node : FigmaNode) (generationTime : Z)
  : ComponentMetadata :=
  mkMetadata (node_id node) (detectComponentType node)
             (calculateComplexity node) (estimateAccuracy node)
             generationTime (extractDependencies node).

Definition liftResult {S X} (res : Result X) : M S X :=
  match res with Ok v => ret v | Throw e => throw e end.

Definition generateSingleComponent (node : FigmaNode) (componentName : string)
  : M Clock GeneratedComponent :=
  startTime <- Date_now ;;
  let sanitizedName := sanitizeComponentName componentName in
  jsx <- liftResult (generateJSX node sanitizedName) ;;
  let css := generateCSS node sanitizedName in
  let accessibility := analyzeAccessibility node in
  let responsive := analyzeResponsive node in
  endTime <- Date_now ;;
  let metadata := generateMetadata node (endTime - startTime) in
  ret (mkGenerated (node_id node) sanitizedName jsx css
         (if opt_typescript (options this)
          then Some (generateTypeScript node sanitizedName) else None)
         accessibility responsive metadata).

(** The inner [search] of [findNodeById]: the first node in pre-order whose
    id is [id]. *)
Fixpoint search (id : string) (node : FigmaNode) : option FigmaNode :=
  if String.eqb (node_id node) id then Some node
  else
    match children node with
    | Some cs =>
        (fix each (l : list FigmaNode) : option FigmaNode :=
           match l with
           | [] => None
           | child :: l' =>
               match search id child with
               | Some found => Some found
               | None => each l'
               end
           end) cs
    | None => None
    end.

Definition findNodeById (id : string) : option FigmaNode :=
  search id (document (figmaData this)).

Definition isMainFrame (node : FigmaNode) : bool :=
  bool_decide (node_type node = FRAME) &&
  match children node with
  | Some (_ :: _) => true
  | _ => false
  end.

(** The inner [traverse] of [findMainFrames], over the array [frames] it
    pushes to. *)
Fixpoint traverse (currentNode : FigmaNode) (frames : list FigmaNode)
  : list FigmaNode :=
  let frames :=
    if isMainFrame currentNode then frames ++ [currentNode] else frames in
  match children currentNode with
  | Some cs =>
      (fix each (l : list FigmaNode) (frames : list FigmaNode)
         : list FigmaNode :=
         match l with
         | [] => frames
         | child :: l' => each l' (traverse child frames)
         end) cs frames
  | None => frames
  end.

Definition findMainFrames (node : FigmaNode) : list FigmaNode :=
  traverse node [].

(** [Object.entries(this.figmaData.components || {})] *)
Definition componentEntries : list (string * FigmaComponent) :=
  match components (figmaData this) with
  | Some table => table
  | None => []
  end.

Definition generateComponents : M Clock (list GeneratedComponent) :=
  components <-
    forEachM
      (fun components '(_, component) =>
         match findNodeById (key component) with
         | Some node =>
             generatedComponent <-
               generateSingleComponent node (component_name component) ;;
             ret (components ++ [generatedComponent])
         | None => ret components
         end)
      componentEntries [] ;;
  (* without components, the main frames are generated *)
  if Nat.eqb (length components) 0 then
    forEachM
      (fun components frame =>
         generatedComponent <-
           generateSingleComponent frame (node_name frame) ;;
         ret (components ++ [generatedComponent]))
      (findMainFrames (document (figmaData this))) components
  else ret components.

End Methods.

End AdvancedCodeGenerator.

(** ** utils/code-generator.ts: class CodeGenerator *)

Module CodeGenerator.

Record Config := mkConfig {
  cfg_framework : Framework;
  cfg_styling : Styling;
  cfg_typescript : bool
}.

(** The string a styling option is in the source. *)
Definition stylingName (st : Styling) : string :=
  match st with
  | tailwind => "tailwind"
  | css_modules => "css-modules"
  | styled_components => "styled-components"
  | plain_css => "plain-css"
  end.

(** The generator object (its two caches) together with the clock. *)
Record State := mkState {
  componentCache : gmap string GeneratedComponent;
  fragmentCache : gmap string string;
  clock : Clock
}.

(** [new CodeGenerator()] *)
Definition new (c : Clock) : State := mkState ∅ ∅ c.

Definition now : M State Z :=
  fun s =>
    match Date_now (clock s) with
    | (res, c') => (res, mkState (componentCache s) (fragmentCache s) c')
    end.


Definition setFragment (k fragment : string) (s : State) : State :=
  mkState (componentCache s) (<[k := fragment]> (fragmentCache s)) (clock s).

Record PropsDef := mkPropsDef {
  props : list Prop_;
  interfaceString : string
}.

(** The class ends with the remark that its helper methods are carried over
    unchanged, and its methods call them, [generateClassName] too.  It
    declares none of them and extends no class: [this.<name>] is undefined,
    and a call of it throws a TypeError once its arguments, which have no
    effect, are evaluated. *)
Definition notAFunction {A} (method : string) : M State A :=
  throw (TypeError ("this." +:+ method +:+ " is not a function")).

Definition sanitizeComponentName (name : string) : M State string :=
  notAFunction "sanitizeComponentName".
Definition generateClassName (node : FigmaNode) (styling : Styling)
  : M State string :=
  notAFunction "generateClassName".
Definition isInteractiveElement (node : FigmaNode) : M State bool :=
  notAFunction "isInteractiveElement".
Definition generateResponsiveCSS (node : FigmaNode) (breakpoint : string)
  : M State string :=
  notAFunction "generateResponsiveCSS".
Definition detectComponentType (node : FigmaNode) : M State ComponentType :=
  notAFunction "detectComponentType".
Definition calculateComplexity (node : FigmaNode) : M State Complexity :=
  notAFunction "calculateComplexity".
Definition estimateAccuracy (node : FigmaNode) : M State Z :=
  notAFunction "estimateAccuracy".
Definition extractDependencies (node : FigmaNode) : M State (list string) :=
  notAFunction "extractDependencies".



Section Methods.

Context {NF : NumberFormat}.

Definition hasImageFill (node : FigmaNode) : bool :=
  match fills node with
  | Some fs => existsb (fun f => String.eqb (paint_type f) "IMAGE") fs
  | None => false
  end.



(** [this.htmlTagMap[node.type] || 'div']; the keys BUTTON and LINK of the
    table name no node type. *)
Definition getHtmlTag (node : FigmaNode) : string :=
  match node_type node with
  | TEXT => "span"
  | FRAME => "section"
  | RECTANGLE => "div"
  | _ => "div"
  end.

Definition generateAriaAttributes (node : FigmaNode) : string :=
  let name := toLowerCase (node_name node) in
  if includes name "header" then " role=" +:+ dq +:+ "banner" +:+ dq
  else if includes name "footer" then " role=" +:+ dq +:+ "contentinfo" +:+ dq
  else EmptyString.

Definition cacheKey (node : FigmaNode) (config : Config) : string :=
  node_id node +:+ "|" +:+ stylingName (cfg_styling config).

(** [generateJSXFragment]: the fragment cache is read first; on a miss the
    class name is asked for, then the children are generated in order and
    the new fragment is stored. *)
Fixpoint generateJSXFragment (node : FigmaNode) (config : Config) (s : State)
  {struct node} : Result string * State :=
  let cacheKey := cacheKey node config in
  match fragmentCache s !! cacheKey with
  | Some fragment => (Ok fragment, s)
  | None =>
      let tag := getHtmlTag node in
      match generateClassName node (cfg_styling config) s with
      | (Throw e, s) => (Throw e, s)
      | (Ok className, s) =>
          let aria := generateAriaAttributes node in
          let built : Result string * State :=
            if String.eqb tag "img" then
              (Ok ("<img src={src} alt={alt} className=" +:+ dq +:+ className
                     +:+ dq +:+ aria +:+ " />"), s)
            else
              let children_ : Result string * State :=
                match children node with
                | Some cs =>
                    match
                      (fix each (l : list FigmaNode) (s : State)
                         : Result (list string) * State :=
                         match l with
                         | [] => (Ok [], s)
                         | child :: l' =>
                             match generateJSXFragment child config s with
                             | (Ok f, s) =>
                                 match each l' s with
                                 | (Ok fs, s) => (Ok (f :: fs), s)
                                 | (Throw e, s) => (Throw e, s)
                                 end
                             | (Throw e, s) => (Throw e, s)
                             end
                         end) cs s
                    with
                    | (Ok frags, s) => (Ok (join (nl +:+ "      ") frags), s)
                    | (Throw e, s) => (Throw e, s)
                    end
                | None => (Ok EmptyString, s)
                end in
              match children_ with
              | (Ok children_, s) =>
                  let inner := if isTEXT node then "{text}" else children_ in
                  (Ok ("<" +:+ tag +:+ " className=" +:+ dq +:+ className
                         +:+ dq +:+ aria +:+ ">" +:+ nl
                         +:+ "      " +:+ inner +:+ nl
                         +:+ "    </" +:+ tag +:+ ">"), s)
              | (Throw e, s) => (Throw e, s)
              end in
          match built with
          | (Ok fragment, s) => (Ok fragment, setFragment cacheKey fragment s)
          | (Throw e, s) => (Throw e, s)
          end
      end
  end.

Definition generateJSX (node : FigmaNode) (config : Config) (propsDef : PropsDef)
  : M State string :=
  componentName <- sanitizeComponentName (node_name node) ;;
  let propNames := join ", " (map prop_name (props propsDef)) in
  fragment <- generateJSXFragment node config ;;
  ret ((if cfg_typescript config then interfaceString propsDef else EmptyString)
         +:+ nl
         +:+ "export const " +:+ componentName
         +:+ (if cfg_typescript config
              then ": React.FC<" +:+ componentName +:+ "Props>"
              else EmptyString)
         +:+ " = ({ " +:+ propNames +:+ " }) => {" +:+ nl
         +:+ "  return (" +:+ nl
         +:+ "    " +:+ fragment +:+ nl
         +:+ "  );" +:+ nl
         +:+ "};").

Definition extractStyles (node : FigmaNode) : Styles :=
  let styles : Styles := [] in
  let styles :=
    match absoluteBoundingBox node with
    | Some box =>
        styleSet "height" (SVstr (Number_toString (height box) +:+ "px"))
          (styleSet "width" (SVstr (Number_toString (width box) +:+ "px")) styles)
    | None => styles
    end in
  let styles :=
    match backgroundColor node with
    | Some c =>
        let alpha := match a c with Some al => al | None => 1%Q end in
        styleSet "backgroundColor"
          (SVstr ("rgba(" +:+ showRounded (Math_round (r c * 255)%Q) +:+ ", "
                  +:+ showRounded (Math_round (g c * 255)%Q) +:+ ", "
                  +:+ showRounded (Math_round (b c * 255)%Q) +:+ ", "
                  +:+ Number_toString alpha +:+ ")")) styles
    | None => styles
    end in
  let styles :=
    match cornerRadius node with
    | Some cr =>
        if truthyNum cr
        then styleSet "borderRadius" (SVstr (Number_toString cr +:+ "px")) styles
        else styles
    | None => styles
    end in
  styles.

Definition quarter (prefix : string) (o : option number) : list string :=
  match o with
  | Some x =>
      if truthyNum x then [prefix +:+ showRounded (Math_round (x / 4)%Q)] else []
  | None => []
  end.

Definition convertToTailwind (styles : Styles) (node : FigmaNode) : string :=
  let classes : list string :=
    (* layout *)
    (if bool_decide (layoutMode node = Some HORIZONTAL)
     then ["flex"; "flex-row"] else [])
    ++ (if bool_decide (layoutMode node = Some VERTICAL)
        then ["flex"; "flex-col"] else [])
    ++ quarter "gap-" (itemSpacing node)
    ++ quarter "pl-" (paddingLeft node)
    ++ quarter "pr-" (paddingRight node)
    ++ quarter "pt-" (paddingTop node)
    ++ quarter "pb-" (paddingBottom node)
    (* border radius *)
    ++ (if truthyOpt (cornerRadius node) then ["rounded"] else [])
    (* colours *)
    ++ (match styleGet "backgroundColor" styles with
        | Some (SVstr v) => if nonEmpty v then ["bg-gray-500"] else []
        | Some (SVnum x) => if truthyNum x then ["bg-gray-500"] else []
        | None => []
        end)
    (* typography *)
    ++ (match style node with
        | Some st =>
            quarter "text-" (Some (fontSize st))
            ++ (match fontWeight st with
                | Some w => if truthyNum w then ["font-" +:+ Number_toString w]
                            else []
                | None => []
                end)
            ++ (match textAlignHorizontal st with
                | Some al => if nonEmpty al then ["text-" +:+ toLowerCase al]
                             else []
                | None => []
                end)
        | None => []
        end) in
  join " " classes.

Definition convertToCSS (styles : Styles) (styling : Styling) : string :=
  let rules :=
    join nl (map (fun '(k, v) => "  " +:+ k +:+ ": " +:+ showValue v +:+ ";")
                 styles) in
  ".component {" +:+ nl +:+ rules +:+ nl +:+ "}".

Definition generateCSS (node : FigmaNode) (styling : Styling) : string :=
  let styles := extractStyles node in
  match styling with
  | tailwind => convertToTailwind styles node
  | _ => convertToCSS styles styling
  end.

Definition analyzeAccessibility (node : FigmaNode) : M State AccessibilityReport :=
  let score := 100 in
  let issues : list AccessibilityIssue := [] in
  let suggestions : list string := [] in
  let '(issues, score) :=
    if bool_decide (node_type node = RECTANGLE) && hasImageFill node then
      (issues ++ [mkIssue issue_error "Image missing alt text" (node_name node)
                          "Add alt attribute with descriptive text"],
       score - 20)
    else (issues, score) in
  let suggestions :=
    if isTEXT node
    then suggestions ++ ["Verify text contrast meets WCAG AA standards"]
    else suggestions in
  interactive <- isInteractiveElement node ;;
  let suggestions :=
    if (interactive : bool)
    then suggestions ++ ["Ensure keyboard navigation support";
                         "Add ARIA labels for screen readers"]
    else suggestions in
  ret (mkReport score issues suggestions (wcagOf score)).

Definition analyzeResponsive (node : FigmaNode) : M State ResponsiveBreakpoints :=
  let hasFlex := hasFlexLayout node in
  let hasConstraints := hasConstraints node in
  mobile <- generateResponsiveCSS node "mobile" ;;
  tablet <- generateResponsiveCSS node "tablet" ;;
  desktop <- generateResponsiveCSS node "desktop" ;;
  ret (mkBreakpoints mobile tablet desktop (hasFlex || hasConstraints)).

Definition generateMetadata (node : FigmaNode) (generationTime : Z)
  : M State ComponentMetadata :=
  componentType <- detectComponentType node ;;
  complexity <- calculateComplexity node ;;
  estimatedAccuracy <- estimateAccuracy node ;;
  dependencies <- extractDependencies node ;;
  ret (mkMetadata (node_id node) componentType complexity estimatedAccuracy
         generationTime dependencies).


End Methods.

End CodeGenerator.

(** ** The code-generation hook (second unit of
       services/advanced-code-generator.ts) *)

Module useCodeGeneration.

Inductive AnalysisComponentType := basic | interactive | container.
Inductive LayoutType := static | flexbox_row | flexbox_column.

(** The fields of [FigmaAnalysis] that [generateCSS] reads. *)
Record FigmaAnalysis := mkAnalysis {
  analysis_componentType : AnalysisComponentType;
  layoutType : LayoutType
}.

(** [analysis.layoutType.includes('flexbox')] *)
Definition isFlexbox (l : LayoutType) : bool :=
  match l with static => false | _ => true end.

(** [name?.replace(/[^a-zA-Z0-9]/g, '').toLowerCase() || 'component'] *)
Definition cssComponentName (name : option string) : string :=
  match name with
  | Some n =>
      let c := toLowerCase (filterChars isAlnum n) in
      if nonEmpty c then c else "component"
  | None => "component"
  end.

Definition baseCSS (figmaData : FigmaApiResponse) (analysis : FigmaAnalysis)
  : string :=
  let componentName := cssComponentName (file_name figmaData) in
  "/* Generated CSS for " +:+ showOptStr (file_name figmaData) +:+ " */" +:+ nl
  +:+ ":root {" +:+ nl
  +:+ "  --" +:+ componentName +:+ "-primary: hsl(221.2 83.2% 53.3%);" +:+ nl
  +:+ "  --" +:+ componentName +:+ "-primary-foreground: hsl(210 40% 98%);" +:+ nl
  +:+ "  --" +:+ componentName +:+ "-secondary: hsl(210 40% 96%);" +:+ nl
  +:+ "  --" +:+ componentName +:+ "-border: hsl(214.3 31.8% 91.4%);" +:+ nl
  +:+ "  --" +:+ componentName +:+ "-radius: 0.5rem;" +:+ nl
  +:+ "}" +:+ nl
  +:+ nl
  +:+ "." +:+ componentName +:+ "-container {" +:+ nl
  +:+ "  position: relative;" +:+ nl
  +:+ "  width: 100%;" +:+ nl
  +:+ "  max-width: 32rem;" +:+ nl
  +:+ "  margin: 0 auto;" +:+ nl
  +:+ "  padding: 1.5rem;" +:+ nl
  +:+ "  background: var(--" +:+ componentName +:+ "-secondary);" +:+ nl
  +:+ "  border: 1px solid var(--" +:+ componentName +:+ "-border);" +:+ nl
  +:+ "  border-radius: var(--" +:+ componentName +:+ "-radius);" +:+ nl
  +:+ "  box-shadow: 0 1px 3px 0 rgba(0, 0, 0, 0.1);" +:+ nl
  +:+ "}" +:+ nl
  +:+ nl
  +:+ "." +:+ componentName +:+ "-element {" +:+ nl
  +:+ "  display: "
  +:+ (if isFlexbox (layoutType analysis) then "flex" else "block") +:+ ";" +:+ nl
  +:+ "  align-items: center;" +:+ nl
  +:+ "  justify-content: center;" +:+ nl
  +:+ "  border-radius: calc(var(--" +:+ componentName +:+ "-radius) - 2px);" +:+ nl
  +:+ "  font-weight: 500;" +:+ nl
  +:+ "  transition: all 0.2s cubic-bezier(0.4, 0, 0.2, 1);" +:+ nl
  +:+ "}" +:+ nl
  +:+ nl
  +:+ (match analysis_componentType analysis with
       | interactive =>
           nl
           +:+ "." +:+ componentName +:+ "-element:hover {" +:+ nl
           +:+ "  transform: translateY(-1px);" +:+ nl
           +:+ "  box-shadow: 0 4px 12px rgba(0, 0, 0, 0.15);" +:+ nl
           +:+ "}" +:+ nl
           +:+ nl
           +:+ "." +:+ componentName +:+ "-element:focus-visible {" +:+ nl
           +:+ "  outline: 2px solid var(--" +:+ componentName +:+ "-primary);" +:+ nl
           +:+ "  outline-offset: 2px;" +:+ nl
           +:+ "}"
       | _ => EmptyString
       end) +:+ nl
  +:+ nl
  +:+ "@keyframes " +:+ componentName +:+ "-fade-in {" +:+ nl
  +:+ "  from { opacity: 0; transform: translateY(-0.5rem); }" +:+ nl
  +:+ "  to { opacity: 1; transform: translateY(0); }" +:+ nl
  +:+ "}" +:+ nl
  +:+ nl
  +:+ "." +:+ componentName +:+ "-animate-in {" +:+ nl
  +:+ "  animation: " +:+ componentName +:+ "-fade-in 0.3s ease-out;" +:+ nl
  +:+ "}".

Definition generateCSS (figmaData : FigmaApiResponse) (analysis : FigmaAnalysis)
    (customCss fullCss : option string) : string :=
  let css := baseCSS figmaData analysis in
  let css :=
    match customCss with
    | Some c => if nonEmpty c
                then css +:+ nl +:+ nl +:+ "/* Custom CSS */" +:+ nl +:+ c
                else css
    | None => css
    end in
  let css :=
    match fullCss with
    | Some f => if nonEmpty f then f else css
    | None => css
    end in
  css.

End useCodeGeneration.

(** ** server/routes.ts *)

Module Routes.

Definition mockBaseCSS (figmaData : FigmaApiResponse) : string :=
  "/* Generated CSS for " +:+ showOptStr (file_name figmaData) +:+ " */" +:+ nl
  +:+ ".generated-component {" +:+ nl
  +:+ "  padding: 1rem;" +:+ nl
  +:+ "  border-radius: 8px;" +:+ nl
  +:+ "  background: white;" +:+ nl
  +:+ "  box-shadow: 0 2px 4px rgba(0, 0, 0, 0.1);" +:+ nl
  +:+ "}" +:+ nl
  +:+ nl
  +:+ ".generated-component h1 {" +:+ nl
  +:+ "  font-size: 1.5rem;" +:+ nl
  +:+ "  font-weight: bold;" +:+ nl
  +:+ "  margin-bottom: 0.5rem;" +:+ nl
  +:+ "  color: hsl(20, 14.3%, 4.1%);" +:+ nl
  +:+ "}" +:+ nl
  +:+ nl
  +:+ ".generated-component p {" +:+ nl
  +:+ "  color: hsl(25, 5.3%, 44.7%);" +:+ nl
  +:+ "}".

Definition generateMockCSS (figmaData : FigmaApiResponse)
    (customCss fullCss : option string) : string :=
  let css := mockBaseCSS figmaData in
  let css :=
    match customCss with
    | Some c => if nonEmpty c
                then css +:+ nl +:+ nl +:+ "/* Custom CSS */" +:+ nl +:+ c
                else css
    | None => css
    end in
  let css :=
    match fullCss with
    | Some f => if nonEmpty f
                then css +:+ nl +:+ nl +:+ "/* Advanced CSS */" +:+ nl +:+ f
                else css
    | None => css
    end in
  css.

End Routes.

(** ** The code-generation hook: analysis and quality assessment
       (second unit of services/advanced-code-generator.ts)

    The two functions resolve a promise after a fixed delay; what is
    modelled is the value the promise resolves to.  The document is typed
    [any] in the source; here it is a tree of nodes of the data model, whose
    types are the sixteen of [NodeType].  A node typed BUTTON, INPUT or
    FORM, for which the analysis has a branch, is not among them: on the
    documents embedded here that branch is never taken. *)

Module HookAnalysis.


Inductive AnalysisComplexity := low | medium | high.

Record Typography := mkTypography {
  typo_fontSize : number;
  typo_fontWeight : number;
  typo_fontFamily : string
}.

Record Spacing := mkSpacing { consistent : bool; scale : string }.

(** [FigmaAnalysis] with all its fields. *)
Record FigmaAnalysis := mkAnalysis {
  componentType : useCodeGeneration.AnalysisComponentType;
  complexity : AnalysisComplexity;
  hasResponsiveElements : bool;
  interactiveElements : list string;
  layoutType : useCodeGeneration.LayoutType;
  colorPalette : list Color;
  typography : list Typography;
  spacing : Spacing
}.

(** The two fields the stylesheet generator of the hook reads. *)
Definition forCSS (a : FigmaAnalysis) : useCodeGeneration.FigmaAnalysis :=
  useCodeGeneration.mkAnalysis (componentType a) (layoutType a).

(** Assignments to one field of the analysis object. *)
Definition setComponentType v (a : FigmaAnalysis) : FigmaAnalysis :=
  mkAnalysis v (complexity a) (hasResponsiveElements a)
    (interactiveElements a) (layoutType a) (colorPalette a) (typography a)
    (spacing a).
Definition setComplexity v (a : FigmaAnalysis) : FigmaAnalysis :=
  mkAnalysis (componentType a) v (hasResponsiveElements a)
    (interactiveElements a) (layoutType a) (colorPalette a) (typography a)
    (spacing a).
Definition setHasResponsiveElements v (a : FigmaAnalysis) : FigmaAnalysis :=
  mkAnalysis (componentType a) (complexity a) v
    (interactiveElements a) (layoutType a) (colorPalette a) (typography a)
    (spacing a).
Definition setInteractiveElements v (a : FigmaAnalysis) : FigmaAnalysis :=
  mkAnalysis (componentType a) (complexity a) (hasResponsiveElements a)
    v (layoutType a) (colorPalette a) (typography a) (spacing a).
Definition setLayoutType v (a : FigmaAnalysis) : FigmaAnalysis :=
  mkAnalysis (componentType a) (complexity a) (hasResponsiveElements a)
    (interactiveElements a) v (colorPalette a) (typography a) (spacing a).
Definition setColorPalette v (a : FigmaAnalysis) : FigmaAnalysis :=
  mkAnalysis (componentType a) (complexity a) (hasResponsiveElements a)
    (interactiveElements a) (layoutType a) v (typography a) (spacing a).
Definition setTypography v (a : FigmaAnalysis) : FigmaAnalysis :=
  mkAnalysis (componentType a) (complexity a) (hasResponsiveElements a)
    (interactiveElements a) (layoutType a) (colorPalette a) v (spacing a).

(** The string a node type is in the source. *)
Definition typeName (t : NodeType) : string :=
  match t with
  | DOCUMENT => "DOCUMENT" | CANVAS => "CANVAS" | FRAME => "FRAME"
  | GROUP => "GROUP" | VECTOR => "VECTOR"
  | BOOLEAN_OPERATION => "BOOLEAN_OPERATION" | STAR => "STAR" | LINE => "LINE"
  | ELLIPSE => "ELLIPSE" | REGULAR_POLYGON => "REGULAR_POLYGON"
  | RECTANGLE => "RECTANGLE" | TEXT => "TEXT" | SLICE => "SLICE"
  | COMPONENT => "COMPONENT" | COMPONENT_SET => "COMPONENT_SET"
  | INSTANCE => "INSTANCE"
  end.

Definition initialAnalysis : FigmaAnalysis :=
  mkAnalysis useCodeGeneration.basic low false [] useCodeGeneration.static
    [] [] (mkSpacing true "medium").

(** The statements of [traverse] for one node, block by block. *)

(** [if (node.type === 'FRAME' || node.type === 'COMPONENT') { ... }] *)
Definition visitKind (node : FigmaNode) (analysis : FigmaAnalysis)
  : FigmaAnalysis :=
  if bool_decide (node_type node = FRAME) ||
     bool_decide (node_type node = COMPONENT)
  then
    let analysis := setComponentType useCodeGeneration.container analysis in
    match layoutMode node with
    | Some mode =>
        setLayoutType
          (if bool_decide (mode = HORIZONTAL)
           then useCodeGeneration.flexbox_row
           else useCodeGeneration.flexbox_column) analysis
    | None => analysis
    end
  else analysis.

(** [if (['BUTTON', 'INPUT', 'FORM'].includes(node.type)) { ... }] *)
Definition visitInteractive (node : FigmaNode) (analysis : FigmaAnalysis)
  : FigmaAnalysis :=
  if existsb (String.eqb (typeName (node_type node)))
       ["BUTTON"; "INPUT"; "FORM"]
  then
    let analysis :=
      setInteractiveElements
        (interactiveElements analysis ++ [typeName (node_type node)])
        analysis in
    setComponentType useCodeGeneration.interactive analysis
  else analysis.

(** [if (node.constraints && node.constraints.horizontal !== 'LEFT')] *)
Definition visitConstraints (node : FigmaNode) (analysis : FigmaAnalysis)
  : FigmaAnalysis :=
  match constraints node with
  | Some c =>
      if negb (String.eqb (horizontal c) "LEFT")
      then setHasResponsiveElements true analysis
      else analysis
  | None => analysis
  end.

(** [if (node.fills && node.fills.length > 0) node.fills.forEach(...)] *)
Definition visitFills (node : FigmaNode) (analysis : FigmaAnalysis)
  : FigmaAnalysis :=
  match fills node with
  | Some ((_ :: _) as fs) =>
      fold_left
        (fun analysis fill =>
           match String.eqb (paint_type fill) "SOLID", paint_color fill with
           | true, Some c =>
               setColorPalette (colorPalette analysis ++ [c]) analysis
           | _, _ => analysis
           end)
        fs analysis
  | _ => analysis
  end.

(** [if (node.style && node.style.fontSize) analysis.typography.push(...)] *)
Definition visitStyle (node : FigmaNode) (analysis : FigmaAnalysis)
  : FigmaAnalysis :=
  match style node with
  | Some st =>
      if truthyNum (fontSize st)
      then
        setTypography
          (typography analysis ++
             [mkTypography (fontSize st)
                (match fontWeight st with
                 | Some w => if truthyNum w then w else 400%Q
                 | None => 400%Q
                 end)
                (if nonEmpty (fontFamily st) then fontFamily st else "Inter")])
          analysis
      else analysis
  | None => analysis
  end.

(** [if (depth > 3 || ...) ... else if (depth > 2 || ...) ...] *)
Definition visitComplexity (node : FigmaNode) (depth : nat)
  (analysis : FigmaAnalysis) : FigmaAnalysis :=
  if Nat.ltb 3 depth ||
     match children node with
     | Some cs => Nat.ltb 5 (length cs)
     | None => false
     end
  then setComplexity high analysis
  else if Nat.ltb 2 depth ||
          match children node with
          | Some cs => Nat.ltb 3 (length cs)
          | None => false
          end
  then setComplexity medium analysis
  else analysis.

(** The body of [traverse] before the descent into the children. *)
Definition visit (analysis : FigmaAnalysis) (node : FigmaNode) (depth : nat)
  : FigmaAnalysis :=
  let analysis := visitKind node analysis in
  let analysis := visitInteractive node analysis in
  let analysis := visitConstraints node analysis in
  let analysis := visitFills node analysis in
  let analysis := visitStyle node analysis in
  let analysis := visitComplexity node depth analysis in
  analysis.

(** [traverse(node, depth)] over the analysis object it updates. *)
Fixpoint traverse (node : FigmaNode) (depth : nat) (analysis : FigmaAnalysis)
  : FigmaAnalysis :=
  let analysis := visit analysis node depth in
  match children node with
  | Some cs =>
      (fix each (l : list FigmaNode) (analysis : FigmaAnalysis)
         : FigmaAnalysis :=
         match l with
         | [] => analysis
         | child :: l' => each l' (traverse child (S depth) analysis)
         end) cs analysis
  | None => analysis
  end.

Definition analyzeFigmaStructure (document : option FigmaNode) : FigmaAnalysis :=
  match document with
  | None => initialAnalysis
  | Some doc => traverse doc 0 initialAnalysis
  end.

(** The accessibility part and the responsive part of what
    [assessCodeQuality] resolves to. *)
Record Quality := mkQuality {
  accessibility : AccessibilityReport;
  quality_hasResponsiveDesign : bool
}.

Definition assessCodeQuality (analysis : FigmaAnalysis) : Quality :=
  let score :=
    match componentType analysis with
    | useCodeGeneration.interactive => 85
    | _ => 90
    end in
  let '(issues, suggestions) :=
    match interactiveElements analysis with
    | _ :: _ =>
        ([mkIssue issue_warning
            "Interactive elements should have proper ARIA labels"
            "interactive elements"
            "Add aria-label or aria-labelledby attributes"],
         ["Add keyboard navigation support"])
    | [] => ([], [])
    end in
  let suggestions :=
    match colorPalette analysis with
    | _ :: _ =>
        suggestions ++ ["Verify color contrast ratios meet WCAG standards"]
    | [] => suggestions
    end in
  mkQuality (mkReport score issues suggestions WCAG_AA)
    (hasResponsiveElements analysis).

(** [countNodes(node)] on a node that is there. *)
Fixpoint countNodesOf (node : FigmaNode) : Z :=
  1 + match children node with
      | Some cs =>
          (fix sum (l : list FigmaNode) (acc : Z) : Z :=
             match l with
             | [] => acc
             | child :: l' => sum l' (acc + countNodesOf child)
             end) cs 0
      | None => 0
      end.

(** [countNodes(node)]; [None] is a missing document. *)
Definition countNodes (node : option FigmaNode) : Z :=
  match node with
  | None => 0
  | Some n => countNodesOf n
  end.

End HookAnalysis.

(** ** The code-generation hook: the processing phases *)

Module Phases.

Inductive PhaseStatus := pending | processing | completed | error.

Record ProcessingPhase := mkPhase {
  phase_id : number;
  phase_name : string;
  status : PhaseStatus;
  progress : number;
  phase_error : option string
}.

Inductive ActionType :=
  start | progress_ | complete | error_ | reset | other (type : string).

(** The fields of [Partial<ProcessingPhase>] that the reducer and
    [updatePhase] read. *)
Record Payload := mkPayload {
  payload_status : option PhaseStatus;
  payload_progress : option number;
  payload_error : option string
}.

Record PhaseAction := mkAction {
  action_type : ActionType;
  phaseId : number;
  payload : option Payload
}.

Definition phasesReducer (state : list ProcessingPhase) (action : PhaseAction)
  : list ProcessingPhase :=
  match action_type action with
  | start =>
      map (fun p =>
             if Qeq_bool (phase_id p) (phaseId action)
             then mkPhase (phase_id p) (phase_name p) processing 0%Q
                    (phase_error p)
             else p) state
  | progress_ =>
      map (fun p =>
             if Qeq_bool (phase_id p) (phaseId action)
             then mkPhase (phase_id p) (phase_name p) (status p)
                    (match payload action with
                     | Some pl =>
                         match payload_progress pl with
                         | Some v => v
                         | None => progress p
                         end
                     | None => progress p
                     end)
                    (phase_error p)
             else p) state
  | complete =>
      map (fun p =>
             if Qeq_bool (phase_id p) (phaseId action)
             then mkPhase (phase_id p) (phase_name p) completed 100%Q
                    (phase_error p)
             else p) state
  | error_ =>
      map (fun p =>
             if Qeq_bool (phase_id p) (phaseId action)
             then mkPhase (phase_id p) (phase_name p) error (progress p)
                    (match payload action with
                     | Some pl => payload_error pl
                     | None => None
                     end)
             else p) state
  | reset =>
      map (fun p => mkPhase (phase_id p) (phase_name p) pending 0%Q None) state
  | other _ => state
  end.

Definition DEFAULT_PHASES : list ProcessingPhase :=
  [ mkPhase 1%Q "Figma Analysis" pending 0%Q None;
    mkPhase 2%Q "Code Generation" pending 0%Q None;
    mkPhase 3%Q "Quality Assessment" pending 0%Q None ].

(** [updatePhase(phaseId, update)]: the action it dispatches, if any. *)
Definition updatePhase (phaseId : number) (update : Payload)
  : option PhaseAction :=
  match payload_status update with
  | Some processing => Some (mkAction start phaseId None)
  | Some completed => Some (mkAction complete phaseId None)
  | Some error =>
      Some (mkAction error_ phaseId
              (Some (mkPayload None None (payload_error update))))
  | _ =>
      match payload_progress update with
      | Some v =>
          Some (mkAction progress_ phaseId
                  (Some (mkPayload None (Some v) None)))
      | None => None
      end
  end.

(** The state after [updatePhase]. *)
Definition afterUpdate (state : list ProcessingPhase) (phaseId : number)
  (update : Payload) : list ProcessingPhase :=
  match updatePhase phaseId update with
  | Some action => phasesReducer state action
  | None => state
  end.

(** The updates [simulateProgress(phaseId, updatePhase)] makes, in order. *)
Definition simulateProgress (phaseId : number) (state : list ProcessingPhase)
  : list ProcessingPhase :=
  fold_left
    (fun state step =>
       afterUpdate state phaseId (mkPayload None (Some step) None))
    [25%Q; 50%Q; 75%Q; 100%Q] state.

(** What a run of [generateFromFigma] that meets no exception dispatches:
    a reset, then for each of the phases 1, 2 and 3 a start, the simulated
    progress and the completion. *)
Definition successfulRun (state : list ProcessingPhase)
  : list ProcessingPhase :=
  let state := phasesReducer state (mkAction reset 0%Q None) in
  fold_left
    (fun state phaseId =>
       let state :=
         afterUpdate state phaseId (mkPayload (Some processing) None None) in
       let state := simulateProgress phaseId state in
       afterUpdate state phaseId (mkPayload (Some completed) None None))
    [1%Q; 2%Q; 3%Q] state.

End Phases.

(** ** services/figma-parser.ts

    [sanitizeComponentName], [colorToTailwind], [borderRadiusToTailwind],
    [fontSizeToTailwind] and [detectComponentType] of this file are the
    methods of the same names of [AdvancedCodeGenerator], letter for
    letter, and [extractStyles] is the one of [CodeGenerator]: their
    embeddings are used here. *)

Module FigmaParser.

Section Functions.
Context `{NumberFormat}.

Definition sanitizeComponentName := AdvancedCodeGenerator.sanitizeComponentName.
Definition detectComponentType := AdvancedCodeGenerator.detectComponentType.
Definition extractStyles := CodeGenerator.extractStyles.

Definition shouldGenerateComponent (node : FigmaNode) : bool :=
  (bool_decide (node_type node = FRAME) ||
   bool_decide (node_type node = COMPONENT) ||
   bool_decide (node_type node = COMPONENT_SET)) ||
  (bool_decide (node_type node = RECTANGLE) &&
   match children node with
   | Some cs => Nat.ltb 0 (length cs)
   | None => false
   end).

Definition getHtmlTag (node : FigmaNode) : string :=
  match node_type node with
  | TEXT => "span"
  | FRAME => "div"
  | RECTANGLE => "div"
  | ELLIPSE => "div"
  | _ => "div"
  end.

Definition generateTailwindClasses (node : FigmaNode) : string :=
  let classes : list string :=
    (* layout *)
    (if bool_decide (layoutMode node = Some HORIZONTAL)
     then ["flex"; "flex-row"]
     else if bool_decide (layoutMode node = Some VERTICAL)
     then ["flex"; "flex-col"] else [])
    (* spacing *)
    ++ CodeGenerator.quarter "gap-" (itemSpacing node)
    (* padding *)
    ++ CodeGenerator.quarter "pl-" (paddingLeft node)
    ++ CodeGenerator.quarter "pr-" (paddingRight node)
    ++ CodeGenerator.quarter "pt-" (paddingTop node)
    ++ CodeGenerator.quarter "pb-" (paddingBottom node)
    (* background colour *)
    ++ (match backgroundColor node with
        | Some c => [AdvancedCodeGenerator.colorToTailwind c]
        | None => []
        end)
    (* border radius *)
    ++ AdvancedCodeGenerator.optClass (cornerRadius node)
         AdvancedCodeGenerator.borderRadiusToTailwind
    (* text styles *)
    ++ (if isTEXT node
        then match style node with
             | Some st =>
                 if truthyNum (fontSize st)
                 then [AdvancedCodeGenerator.fontSizeToTailwind (fontSize st)]
                 else []
             | None => []
             end
        else []) in
  join " " classes.

(** [node.type === 'TEXT' && node.characters ? node.characters : ''] *)
Definition textOf (node : FigmaNode) : string :=
  if isTEXT node && truthyStr (characters node)
  then showOptStr (characters node) else EmptyString.

Definition generateChildren (node : FigmaNode) : string :=
  match children node with
  | None | Some [] => textOf node
  | Some cs =>
      join (nl +:+ "      ")
        (map (fun child =>
                let tag := getHtmlTag child in
                let className := generateTailwindClasses child in
                let content := textOf child in
                "<" +:+ tag +:+ " className=" +:+ dq +:+ className +:+ dq
                +:+ ">" +:+ content +:+ "</" +:+ tag +:+ ">") cs)
  end.

Definition generateJSX (node : FigmaNode) : string :=
  let componentName := sanitizeComponentName (node_name node) in
  let className := generateTailwindClasses node in
  let children_ := generateChildren node in
  "import React from 'react';" +:+ nl
  +:+ nl
  +:+ "export const " +:+ componentName +:+ ": React.FC = () => {" +:+ nl
  +:+ "  return (" +:+ nl
  +:+ "    <div className=" +:+ dq +:+ className +:+ dq +:+ ">" +:+ nl
  +:+ "      " +:+ (if nonEmpty children_ then children_ else "Content") +:+ nl
  +:+ "    </div>" +:+ nl
  +:+ "  );" +:+ nl
  +:+ "};" +:+ nl
  +:+ nl
  +:+ "export default " +:+ componentName +:+ ";".

Definition generateCSS (node : FigmaNode) : string :=
  let styles := extractStyles node in
  "/* Generated styles for " +:+ node_name node +:+ " */" +:+ nl
  +:+ "." +:+ toLowerCase (sanitizeComponentName (node_name node)) +:+ " {" +:+ nl
  +:+ "  "
  +:+ join (nl +:+ "  ")
        (map (fun '(key, value) => key +:+ ": " +:+ showValue value +:+ ";")
             styles) +:+ nl
  +:+ "}".

(** Nothing in the [try] block throws, so the [catch] branch that returns
    null is never taken; the result type keeps the null. *)
Definition nodeToComponent (node : FigmaNode)
  : M Clock (option GeneratedComponent) :=
  let componentName := sanitizeComponentName (node_name node) in
  let jsx := generateJSX node in
  let css := generateCSS node in
  now <- Date_now ;;
  ret (Some
         (mkGenerated (node_id node) componentName jsx css None
            (mkReport 85 []
               ["Add alt text for images"; "Ensure proper heading hierarchy"]
               WCAG_AA)
            (mkBreakpoints "responsive" "responsive" "responsive" true)
            (mkMetadata (node_id node) (detectComponentType node) medium 85
               now ["react"]))).

(** [traverseNode(node)] over the array [components] it pushes to. *)
Fixpoint traverseNode (node : FigmaNode)
  (components : list GeneratedComponent) (clock : Clock)
  : Result (list GeneratedComponent) * Clock :=
  let pushed : M Clock (list GeneratedComponent) :=
    if shouldGenerateComponent node
    then
      component <- nodeToComponent node ;;
      match component with
      | Some c => ret (components ++ [c])
      | None => ret components
      end
    else ret components in
  match pushed clock with
  | (Ok components, clock) =>
      match children node with
      | Some cs =>
          (fix each (l : list FigmaNode)
             (components : list GeneratedComponent) (clock : Clock)
             : Result (list GeneratedComponent) * Clock :=
             match l with
             | [] => (Ok components, clock)
             | child :: l' =>
                 match traverseNode child components clock with
                 | (Ok components, clock) => each l' components clock
                 | (Throw e, clock) => (Throw e, clock)
                 end
             end) cs components clock
      | None => (Ok components, clock)
      end
  | (Throw e, clock) => (Throw e, clock)
  end.

Definition parseFigmaDocument (figmaData : FigmaApiResponse)
  : M Clock (list GeneratedComponent) :=
  match children (document figmaData) with
  | Some canvases =>
      forEachM
        (fun components canvas =>
           match children canvas with
           | Some cs =>
               forEachM (fun components child => traverseNode child components)
                 cs components
           | None => ret components
           end)
        canvases []
  | None => ret []
  end.

End Functions.

End FigmaParser.

(** ** Figma URLs and API keys (utils/helpers.ts and the static methods of
       FigmaApiClient in services/figma-api.ts)

    The regular expressions are written out as the matchers they denote. *)

(** Every character of the string satisfies the test. *)
Fixpoint allChars (p : ascii -> bool) (s : string) : bool :=
  match s with
  | EmptyString => true
  | String c s' => p c && allChars p s'
  end.

(** The longest prefix whose characters satisfy the test (a greedy [+] or
    [*] of a character class). *)
Fixpoint takeWhile (p : ascii -> bool) (s : string) : string :=
  match s with
  | EmptyString => EmptyString
  | String c s' => if p c then String c (takeWhile p s') else EmptyString
  end.

(** What follows the literal [p] at the start of [s], if [s] starts with it. *)
Fixpoint stripPrefix (p s : string) : option string :=
  match p, s with
  | EmptyString, _ => Some s
  | String _ _, EmptyString => None
  | String a p', String c s' =>
      if Ascii.eqb a c then stripPrefix p' s' else None
  end.

Module Urls.

Inductive JSException := Error (message : string).

(** A match of [/\/(file|design)\/([a-zA-Z0-9]+)/] that starts at the first
    character of [s]: its second group. *)
Definition fileKeyAt (s : string) : option string :=
  let alternative (word : string) : option string :=
    match stripPrefix ("/" +:+ word +:+ "/") s with
    | Some rest =>
        let key := takeWhile isAlnum rest in
        if nonEmpty key then Some key else None
    | None => None
    end in
  match alternative "file" with
  | Some key => Some key
  | None => alternative "design"
  end.

(** [s.match(/\/(file|design)\/([a-zA-Z0-9]+)/)]: the second group of the
    leftmost match. *)
Fixpoint fileKeyMatch (s : string) : option string :=
  match fileKeyAt s with
  | Some key => Some key
  | None =>
      match s with
      | EmptyString => None
      | String _ s' => fileKeyMatch s'
      end
  end.

(** helpers.ts *)
Definition extractFileKeyFromUrl (figmaUrl : string) : option string :=
  match fileKeyMatch figmaUrl with
  | Some key => Some key
  | None => None
  end.

(** [/^https:\/\/(?:www\.)?figma\.com\/(file|design)\/[a-zA-Z0-9]+/.test(url)] *)
Definition validateFigmaUrl (url : string) : bool :=
  match stripPrefix "https://" url with
  | Some rest =>
      let host (rest : string) : bool :=
        match stripPrefix "figma.com/" rest with
        | Some rest =>
            let alternative (word : string) : bool :=
              match stripPrefix (word +:+ "/") rest with
              | Some rest => nonEmpty (takeWhile isAlnum rest)
              | None => false
              end in
            alternative "file" || alternative "design"
        | None => false
        end in
      match stripPrefix "www." rest with
      | Some rest' => host rest' || host rest
      | None => host rest
      end
  | None => false
  end.

(** [apiKey.startsWith('figd_') ||
     (apiKey.length >= 40 && /^[a-zA-Z0-9-]+$/.test(apiKey))] *)
Definition validateFigmaApiKey (apiKey : string) : bool :=
  startsWith "figd_" apiKey ||
  (Nat.leb 40 (String.length apiKey) &&
   (nonEmpty apiKey &&
    allChars (fun c => isAlnum c || Ascii.eqb c "-") apiKey)).

(** [FigmaApiClient.extractFileKey] *)
Definition extractFileKey (figmaUrl : string) : JSException + string :=
  match fileKeyMatch figmaUrl with
  | None => inl (Error "Invalid Figma URL format")
  | Some key => inr key
  end.

(** [FigmaApiClient.validateApiKey]: [/^figd_[a-zA-Z0-9_-]+$/.test(apiKey)] *)
Definition validateApiKey (apiKey : string) : bool :=
  match stripPrefix "figd_" apiKey with
  | Some rest =>
      nonEmpty rest &&
      allChars (fun c => isAlnum c || Ascii.eqb c "_" || Ascii.eqb c "-") rest
  | None => false
  end.

End Urls.

(** ** Design tokens (unnamed/part_007)

    The [Set] of colours and the [Map] of text styles are lists in
    insertion order without repeated elements or keys. *)

Module StyleTokens.

Record TypographyToken := mkToken {
  token_fontFamily : string;
  token_fontWeight : option number;
  token_fontSize : number;
  token_lineHeight : string
}.

Record ExtractedStyles := mkExtracted {
  colors : list string;
  typography : list (string * TypographyToken)
}.

(** [new Set()] and [new Map()] *)
Definition noStyles : ExtractedStyles := mkExtracted [] [].

(** [set.add(x)] *)
Definition setAdd (x : string) (set : list string) : list string :=
  if existsb (String.eqb x) set then set else set ++ [x].

(** [map.has(key)] *)
Definition mapHas {V} (key : string) (map_ : list (string * V)) : bool :=
  existsb (fun entry => String.eqb key (fst entry)) map_.

Definition hexDigit (d : Z) : ascii :=
  match d with
  | 0 => "0" | 1 => "1" | 2 => "2" | 3 => "3" | 4 => "4" | 5 => "5"
  | 6 => "6" | 7 => "7" | 8 => "8" | 9 => "9" | 10 => "a" | 11 => "b"
  | 12 => "c" | 13 => "d" | 14 => "e" | _ => "f"
  end%char.

Fixpoint hexDigits (fuel : nat) (z : Z) (acc : string) : string :=
  match fuel with
  | O => acc
  | S fuel' =>
      let acc' := String (hexDigit (z mod 16)) acc in
      if z / 16 =? 0 then acc' else hexDigits fuel' (z / 16) acc'
  end.

(** [z.toString(16)] of an integer. *)
Definition toString16 (z : Z) : string :=
  if z <? 0
  then "-" +:+ hexDigits (S (Z.to_nat (Z.log2 (- z)))) (- z) EmptyString
  else hexDigits (S (Z.to_nat (Z.log2 z))) z EmptyString.

(** [s.padStart(2, '0')] *)
Definition padStart2 (s : string) : string :=
  match s with
  | EmptyString => "00"
  | String c EmptyString => String "0" s
  | _ => s
  end.

Definition toHex (c : number) : string :=
  padStart2 (toString16 (Math_round (c * 255)%Q)).

(** [`#${toHex(r)}${toHex(g)}${toHex(b)}`] *)
Definition hexColor (color : Color) : string :=
  "#" +:+ toHex (r color) +:+ toHex (g color) +:+ toHex (b color).

Section Functions.
Context `{NumberFormat}.

(** The loop over [node.fills]. *)
Definition addFills (fs : list Paint) (styles : ExtractedStyles)
  : ExtractedStyles :=
  fold_left
    (fun styles fill =>
       match String.eqb (paint_type fill) "SOLID", paint_color fill with
       | true, Some color =>
           match a color with
           | Some alpha =>
               if gtb alpha 0
               then mkExtracted (setAdd (hexColor color) (colors styles))
                      (typography styles)
               else styles
           | None => styles
           end
       | _, _ => styles
       end)
    fs styles.

(** The statements of [extractStyles] before the loop over the children. *)
Definition addNode (styles : ExtractedStyles) (node : FigmaNode)
  : ExtractedStyles :=
  let styles :=
    match fills node with
    | Some fs => addFills fs styles
    | None => styles
    end in
  let styles :=
    match isTEXT node, style node with
    | true, Some st =>
        let key :=
          fontFamily st +:+ "-" +:+ showOpt (fontWeight st) +:+ "-"
          +:+ Number_toString (fontSize st) +:+ "-"
          +:+ (match lineHeightPx st with
               | Some l => if truthyNum l then Number_toString l else "auto"
               | None => "auto"
               end) in
        if negb (mapHas key (typography styles))
        then
          mkExtracted (colors styles)
            (typography styles ++
               [(key,
                 mkToken (fontFamily st) (fontWeight st) (fontSize st)
                   (match lineHeightPx st with
                    | Some l =>
                        if truthyNum l then Number_toString l +:+ "px"
                        else "normal"
                    | None => "normal"
                    end))])
        else styles
    | _, _ => styles
    end in
  styles.

Fixpoint extractStyles (node : FigmaNode) (styles : ExtractedStyles)
  : ExtractedStyles :=
  let styles := addNode styles node in
  match children node with
  | Some cs =>
      (fix each (l : list FigmaNode) (styles : ExtractedStyles)
         : ExtractedStyles :=
         match l with
         | [] => styles
         | child :: l' => each l' (extractStyles child styles)
         end) cs styles
  | None => styles
  end.

End Functions.

End StyleTokens.

(** ** Further notions the statements use *)

(** The property names [extractAllStyles] assigns, in the order of its
    assignments. *)
Definition styleKeyOrder : list string :=
  ["width"; "height"; "display"; "flexDirection"; "gap"; "padding";
   "backgroundColor"; "background"; "borderRadius"; "border"; "fontFamily";
   "fontSize"; "lineHeight"; "letterSpacing"; "color"; "opacity"; "boxShadow"].

(** The part of a list up to the first occurrence of a key, the key
    included. *)
Fixpoint upTo (k : string) (l : list string) : list string :=
  match l with
  | [] => []
  | x :: l' => if String.eqb x k then [x] else x :: upTo k l'
  end.

(** The clock gives readings that never decrease. *)
Definition monotone (c : Clock) : Prop :=
  forall i j : nat, (i <= j)%nat -> readings c i <= readings c j.

(** The declarations of a style record, one per line, as
    [convertToCSSRules] writes them between the braces. *)
Definition declarations `{NumberFormat} (styles : Styles) : string :=
  join nl
    (map (fun '(property, value) =>
            "  " +:+ AdvancedCodeGenerator.camelToKebab property +:+ ": "
              +:+ showValue value +:+ ";")
         styles).

(** Pre-order enumeration of a subtree with the depth of every node. *)
Fixpoint preorderAt (depth : nat) (n : FigmaNode) : list (FigmaNode * nat) :=
  (n, depth) ::
  match children n with
  | Some cs =>
      (fix go (l : list FigmaNode) : list (FigmaNode * nat) :=
         match l with
         | [] => []
         | c :: l' => preorderAt (S depth) c ++ go l'
         end) cs
  | None => []
  end.

(** The colours of the solid fills of a node, in fill order. *)
Definition solidColours (n : FigmaNode) : list Color :=
  match fills n with
  | Some fs =>
      omap (fun fill =>
              if String.eqb (paint_type fill) "SOLID" then paint_color fill
              else None) fs
  | None => []
  end.


(** A node that has constraints whose horizontal one is not LEFT. *)
Definition horizontallyConstrained (n : FigmaNode) : bool :=
  match constraints n with
  | Some c => negb (String.eqb (horizontal c) "LEFT")
  | None => false
  end.

(** A node at most two levels below the root with at most three children. *)
Definition shallowAndNarrow (p : FigmaNode * nat) : bool :=
  Nat.leb (snd p) 2 && Nat.leb (length (childList (fst p))) 3.

(** The nodes below the canvases of a document, in the order in which the
    parser visits them. *)
Definition belowCanvases (figmaData : FigmaApiResponse) : list FigmaNode :=
  flat_map preorder (flat_map childList (childList (document figmaData))).

(** A node with the children of its children cut off. *)
Definition oneLevel (node : FigmaNode) : FigmaNode :=
  match node with
  | Node at_ cs =>
      Node at_ (option_map (map (fun child => Node (attrs child) None)) cs)
  end.

(** A solid fill whose colour has an alpha channel above zero. *)
Definition visibleSolid (fill : Paint) : option Color :=
  if String.eqb (paint_type fill) "SOLID"
  then match paint_color fill with
       | Some color =>
           match a color with
           | Some alpha => if gtb alpha 0 then Some color else None
           | None => None
           end
       | None => None
       end
  else None.

(** ** What the specification says, in its own words *)

(** Estimated accuracy as the specification words it: base 85, +10 if the
    complexity is simple, -5 if there are more than five children, +5 if the
    component type is button, text or card, clamped to [70,100]. *)
Definition estimatedAccuracy_spec (this : AdvancedCodeGenerator.Generator)
    (node : FigmaNode) : Z :=
  let simple_bonus :=
    if AdvancedCodeGenerator.isSimple
         (AdvancedCodeGenerator.calculateComplexity this node)
    then 10 else 0 in
  let crowd_penalty :=
    if Nat.ltb 5 (AdvancedCodeGenerator.childCount node) then 5 else 0 in
  let type_bonus :=
    if AdvancedCodeGenerator.isButtonTextCard
         (AdvancedCodeGenerator.detectComponentType node)
    then 5 else 0 in
  Z.min 100 (Z.max 70 (85 + simple_bonus - crowd_penalty + type_bonus)).

(** ** Notions the statements use *)

(** [flag c n]: the amount [n] when [c] holds, else nothing. *)
Definition flag (c : bool) (amount : Z) : Z := if c then amount else 0.

(** The sum that [calculateComplexity] compares with 3 and 8. *)
Definition complexityWeight (this : AdvancedCodeGenerator.Generator)
    (node : FigmaNode) : Z :=
  Z.of_nat (AdvancedCodeGenerator.childCount node)
  + flag (match effects node with Some (_ :: _) => true | _ => false end) 2
  + flag (match fills node with
          | Some fs => Nat.ltb 1 (length fs)
          | None => false
          end) 1
  + flag (AdvancedCodeGenerator.hasCustomCode this) 1.

(** The table entries that resolve, in table order: the node found for the
    [key] field of the entry, with the name the entry gives it. *)
Definition namedRoots (this : AdvancedCodeGenerator.Generator)
  : list (FigmaNode * string) :=
  omap (fun entry : string * FigmaComponent =>
          match AdvancedCodeGenerator.findNodeById this (key (snd entry)) with
          | Some node => Some (node, component_name (snd entry))
          | None => None
          end)
       (AdvancedCodeGenerator.componentEntries this).

(** The main frames of the document, each under its own name. *)
Definition frameRoots (this : AdvancedCodeGenerator.Generator)
  : list (FigmaNode * string) :=
  map (fun frame : FigmaNode => (frame, node_name frame))
      (List.filter AdvancedCodeGenerator.isMainFrame
         (preorder (document (AdvancedCodeGenerator.figmaData this)))).

(** The generation roots: the resolved entries, or the main frames when no
    entry resolves. *)
Definition generationRoots (this : AdvancedCodeGenerator.Generator)
  : list (FigmaNode * string) :=
  match namedRoots this with
  | [] => frameRoots this
  | named => named
  end.

Definition generateRoot `{NumberFormat} (this : AdvancedCodeGenerator.Generator)
    (root : FigmaNode * string) : M Clock GeneratedComponent :=
  AdvancedCodeGenerator.generateSingleComponent this (fst root) (snd root).

(** The ids of the components of a run that ended normally. *)
Definition idsOf (res : Result (list GeneratedComponent)) : option (list string) :=
  match res with
  | Ok comps => Some (map gc_id comps)
  | Throw _ => None
  end.


(** ** Sample inputs *)

Module Sample.

(** A node with the three required fields and nothing else. *)
Definition bare (id name : string) (type : NodeType)
    (children : option (list FigmaNode)) : FigmaNode :=
  Node (mkAttrs id name type None None None None None None None None None
                None None None None None None None None) children.

Definition withBackground (c : Color) (n : FigmaNode) : FigmaNode :=
  let at_ := attrs n in
  Node (mkAttrs (node_id at_) (node_name at_) (node_type at_)
          (absoluteBoundingBox at_) (constraints at_) (layoutMode at_)
          (itemSpacing at_) (paddingLeft at_) (paddingRight at_)
          (paddingTop at_) (paddingBottom at_) (fills at_) (strokes at_)
          (strokeWeight at_) (cornerRadius at_) (Some c) (opacity at_)
          (effects at_) (characters at_) (style at_))
       (children n).

Definition red : Color := mkColor 1%Q 0%Q 0%Q (Some 1%Q).
Definition blue : Color := mkColor 0%Q 0%Q 1%Q (Some 1%Q).

Definition box : FigmaNode := bare "1:1" "Box" RECTANGLE None.

Definition label : FigmaNode := bare "1:3" "Label" TEXT None.
Definition panel : FigmaNode := bare "1:2" "Panel" FRAME (Some [label]).
Definition emptyFrame : FigmaNode := bare "1:4" "Spacer" FRAME (Some []).
Definition page : FigmaNode := bare "0:1" "Page" CANVAS (Some [panel; emptyFrame]).
Definition doc : FigmaNode := bare "0:0" "Document" DOCUMENT (Some [page]).

Definition reactPlain : AdvancedCodeGenerator.CodeGenerationOptions :=
  AdvancedCodeGenerator.mkOptions react plain_css false true true false.

(** A document whose table has two entries naming the same node. *)
Definition twiceNamed : FigmaApiResponse :=
  mkResponse doc
    (Some [("c1", mkComponent "1:2" "Panel");
           ("c2", mkComponent "1:2" "Panel copy")])
    (Some "Sample").

(** A document whose table has one entry: its map key is the id of the
    label, its [key] field is the id of no node. *)
Definition foreignKeys : FigmaApiResponse :=
  mkResponse doc
    (Some [("1:3", mkComponent "a1b2c3" "Label")])
    (Some "Sample").

Definition noTable : FigmaApiResponse := mkResponse doc (Some []) (Some "Sample").

Definition clock0 : Clock := mkClock (fun k => 1000 + Z.of_nat k) 0.

Definition withMarkup : AdvancedCodeGenerator.Generator :=
  AdvancedCodeGenerator.setCustomCode
    (AdvancedCodeGenerator.new noTable reactPlain)
    (AdvancedCodeGenerator.mkCustom "const n = 1;" EmptyString EmptyString).

Definition redBox : FigmaNode := withBackground red box.

Definition cssModules : AdvancedCodeGenerator.CodeGenerationOptions :=
  AdvancedCodeGenerator.mkOptions react css_modules false true true false.


End Sample.

(** * Properties *)

Example showZ_255 : showZ 255 = "255".
Proof. reflexivity. Qed.

Example round_half : Math_round (5 # 2) = 3 /\ Math_round (-5 # 2) = -2.
Proof. split; reflexivity. Qed.

Example includes_button : includes (toLowerCase "Submit Button") "button" = true.
Proof. reflexivity. Qed.

Example sanitize_digit :
  AdvancedCodeGenerator.sanitizeComponentName "3d card!" = "Component3dcard".
Proof. reflexivity. Qed.

Example sanitize_empty : AdvancedCodeGenerator.sanitizeComponentName "--" = "Component".
Proof. reflexivity. Qed.

Example kebab : AdvancedCodeGenerator.camelToKebab "backgroundColor" = "background-color".
Proof. reflexivity. Qed.

(** ** The tree *)

Lemma preorder_unfold n :
  preorder n = n :: concat (map preorder (childList n)).
Proof.
  destruct n as [at_ [cs|]]; simpl; [|reflexivity].
  f_equal. unfold childList; simpl.
  induction cs as [|c cs IH]; simpl; [reflexivity|]. now rewrite IH.
Qed.

(** ** Responsiveness *)

Section Responsive.

Import AdvancedCodeGenerator.

(** What [hasConstraints] computes: the constraints are absent, or one of
    them is off the top/left default. *)
Lemma hasConstraints_true_iff (node : FigmaNode) :
  hasConstraints node = true <->
  constraints node = None \/
  exists c, constraints node = Some c /\
            (horizontal c <> "LEFT" \/ vertical c <> "TOP").
Proof.
  unfold hasConstraints. destruct (constraints node) as [c|]; [|tauto].
  rewrite orb_true_iff, !negb_true_iff, !String.eqb_neq. split.
  - intros H. right. now exists c.
  - intros [H|(c' & [= <-] & H)]; [discriminate|exact H].
Qed.

Lemma hasFlexLayout_true_iff (node : FigmaNode) :
  hasFlexLayout node = true <->
  layoutMode node = Some HORIZONTAL \/ layoutMode node = Some VERTICAL.
Proof.
  unfold hasFlexLayout. now rewrite orb_true_iff, !bool_decide_eq_true.
Qed.

(** The flag, as the source computes it. *)
Lemma analyzeResponsive_flag (node : FigmaNode) :
  hasResponsiveDesign (analyzeResponsive node) = true <->
  layoutMode node = Some HORIZONTAL \/ layoutMode node = Some VERTICAL \/
  constraints node = None \/
  exists c, constraints node = Some c /\
            (horizontal c <> "LEFT" \/ vertical c <> "TOP").
Proof.
  simpl. rewrite orb_true_iff, hasFlexLayout_true_iff, hasConstraints_true_iff.
  tauto.
Qed.

(** With constraints present the flag is the one the specification
    describes. *)
Lemma analyzeResponsive_with_constraints (node : FigmaNode) c :
  constraints node = Some c ->
  hasResponsiveDesign (analyzeResponsive node) = true <->
  layoutMode node = Some HORIZONTAL \/ layoutMode node = Some VERTICAL \/
  horizontal c <> "LEFT" \/ vertical c <> "TOP".
Proof.
  intros Hc. rewrite analyzeResponsive_flag, Hc. split.
  - intros [H|[H|[H|(c' & [= <-] & H)]]]; try tauto. discriminate.
  - intros [H|[H|H]]; try tauto. right. right. right. now exists c.
Qed.

(** C1 (evaluation at the failing input): a node with neither a layout
    mode nor constraints is reported as responsive by the responsive
    analysis of [AdvancedCodeGenerator], where the specification asks for
    false. *)
Lemma C1_node_without_constraints_is_responsive :
  layoutMode Sample.box = None /\
  constraints Sample.box = None /\
  hasResponsiveDesign (analyzeResponsive Sample.box) = true.
Proof. repeat split. Qed.

End Responsive.

(** ** Accessibility *)

Section Accessibility.

Import AdvancedCodeGenerator.

Variable this : Generator.

Lemma contrast_never_low node :
  ltb (calculateContrastRatio node) (45 # 10) = false.
Proof. reflexivity. Qed.

(** The score before clamping, the issues and the level, by cases on the
    only deduction that can apply. *)
Lemma analyzeAccessibility_cases node :
  let report := analyzeAccessibility this node in
  (isImage node = true /\ score report = 85 /\
   issues report = [mkIssue issue_error "Kép hiányzó alt szöveg" (node_name node)
                            "Adj hozzá alt attribútumot leíró szöveggel"] /\
   wcagCompliance report = wcagOf 85) \/
  (isImage node = false /\ score report = 100 /\ issues report = [] /\
   wcagCompliance report = wcagOf 100).
Proof.
  unfold analyzeAccessibility.
  destruct (isImage node); [left|right];
    (destruct (isTEXT node); [rewrite contrast_never_low|]); simpl; auto.
Qed.

(** C3: the score of the report lies in [0,100] and the level is
    determined by the returned score with the thresholds 80 and 60. *)
Theorem C3_score_in_range_and_level_by_thresholds node :
  let report := analyzeAccessibility this node in
  0 <= score report <= 100 /\
  (80 <= score report -> wcagCompliance report = WCAG_AA) /\
  (60 <= score report < 80 -> wcagCompliance report = WCAG_A) /\
  (score report < 60 -> wcagCompliance report = WCAG_NonCompliant).
Proof.
  destruct (analyzeAccessibility_cases node)
    as [(_ & Hs & _ & Hw)|(_ & Hs & _ & Hw)];
    cbv zeta; rewrite Hs, Hw; repeat split; try lia; reflexivity.
Qed.

(** C9: the contrast placeholder is never below 4.5, so the only deduction
    is the alt-text penalty: the score is 85 on an image and 100 otherwise,
    every issue is the alt-text error, and the level is always AA. *)
Theorem C9_only_alt_text_penalty_level_always_AA node :
  ltb (calculateContrastRatio node) (45 # 10) = false /\
  let report := analyzeAccessibility this node in
  score report = (if isImage node then 85 else 100) /\
  Forall (fun i => issue_type i = issue_error) (issues report) /\
  wcagCompliance report = WCAG_AA.
Proof.
  split; [reflexivity|].
  destruct (analyzeAccessibility_cases node)
    as [(Hi & Hs & Hl & Hw)|(Hi & Hs & Hl & Hw)];
    cbv zeta; rewrite Hs, Hl, Hw, Hi; repeat split; auto.
Qed.

End Accessibility.

(** ** Estimated accuracy *)

Section Accuracy.

Import AdvancedCodeGenerator.

Lemma calculateComplexity_weight this node :
  calculateComplexity this node =
    if complexityWeight this node <=? 3 then simple
    else if complexityWeight this node <=? 8 then medium
    else complex.
Proof.
  unfold calculateComplexity, complexityWeight, childCount, childList, flag.
  destruct (children node) as [cs|], (effects node) as [[|e es]|],
    (fills node) as [fs|], (hasCustomCode this);
    try destruct (Nat.ltb 1 (length fs)); simpl; rewrite ?Z.add_0_r;
    reflexivity.
Qed.

Lemma estimateAccuracy_sum this node :
  estimateAccuracy this node =
    Z.min 100
      (Z.max 70
         (85 + flag (isSimple (calculateComplexity this node)) 10
             - flag (Nat.ltb 5 (childCount node)) 5
             + flag (isButtonTextCard (detectComponentType node)) 5
             + flag (hasCustomCode this) 5)).
Proof.
  unfold estimateAccuracy, flag.
  destruct (isSimple _), (Nat.ltb 5 _), (isButtonTextCard _), (hasCustomCode this);
    reflexivity.
Qed.

(** C4 (counterexample): on a generator that holds custom markup, a
    childless rectangle named Box gets 100, where the formula of the
    specification gives 95. *)
Lemma C4_custom_code_adds_five :
  estimateAccuracy Sample.withMarkup Sample.box = 100 /\
  estimatedAccuracy_spec Sample.withMarkup Sample.box = 95.
Proof. split; reflexivity. Qed.

(** C4 (amended): the estimate is 85, plus 10 on simple complexity, minus 5
    on more than five children, plus 5 on the types button, text and card,
    plus 5 when the generator holds any custom code, clamped to [70,100];
    it lies in [70,100], and without custom code it is the formula of the
    specification. *)
Theorem C4_estimated_accuracy this node :
  estimateAccuracy this node =
    Z.min 100
      (Z.max 70
         (85 + flag (isSimple (calculateComplexity this node)) 10
             - flag (Nat.ltb 5 (childCount node)) 5
             + flag (isButtonTextCard (detectComponentType node)) 5
             + flag (hasCustomCode this) 5)) /\
  70 <= estimateAccuracy this node <= 100 /\
  (hasCustomCode this = false ->
   estimateAccuracy this node = estimatedAccuracy_spec this node).
Proof.
  rewrite estimateAccuracy_sum. split; [reflexivity|]. split; [lia|].
  intros Hc. unfold estimatedAccuracy_spec, flag. rewrite Hc.
  now rewrite Z.add_0_r.
Qed.

End Accuracy.

(** ** The monad *)

Lemma bind_ret_l {S A B} (v : A) (k : A -> M S B) s : bind (ret v) k s = k v s.
Proof. reflexivity. Qed.

Lemma bind_assoc {S A B C} (m : M S A) (k : A -> M S B) (k' : B -> M S C) s :
  bind (bind m k) k' s = bind m (fun x => bind (k x) k') s.
Proof. unfold bind. destruct (m s) as [[v|e] s']; reflexivity. Qed.

Lemma bind_ext {S A B} (m : M S A) (k k' : A -> M S B) s :
  (forall v s', k v s' = k' v s') -> bind m k s = bind m k' s.
Proof. intros H. unfold bind. destruct (m s) as [[v|e] s']; auto. Qed.

Section Loops.

Context {S A B : Type}.

(** A loop that pushes one result per element onto an array computes the
    monadic map, appended to what the array held. *)
Lemma forEachM_push (f : A -> M S B) l : forall acc s,
  forEachM (fun acc x => y <- f x ;; ret (acc ++ [y])) l acc s =
  (ys <- mapM f l ;; ret (acc ++ ys)) s.
Proof.
  induction l as [|x l IH]; intros acc s; cbn [forEachM mapM].
  - unfold bind, ret. now rewrite app_nil_r.
  - rewrite !bind_assoc. apply bind_ext. intros y s'.
    rewrite bind_ret_l, IH, !bind_assoc. apply bind_ext. intros ys s''.
    rewrite !bind_ret_l. unfold ret. now rewrite <- app_assoc.
Qed.

(** The same loop when some elements are skipped: [pick] says which
    elements are processed, and as what. *)
Lemma forEachM_push_some {X} (pick : X -> option A) (f : A -> M S B) l :
  forall acc s,
  forEachM (fun acc x => match pick x with
                         | Some v => y <- f v ;; ret (acc ++ [y])
                         | None => ret acc
                         end) l acc s =
  (ys <- mapM f (omap pick l) ;; ret (acc ++ ys)) s.
Proof.
  induction l as [|x l IH]; intros acc s; cbn [forEachM mapM omap list_omap].
  - unfold bind, ret. now rewrite app_nil_r.
  - destruct (pick x) as [v|]; cbn [mapM].
    + rewrite !bind_assoc. apply bind_ext. intros y s'.
      rewrite bind_ret_l, IH, !bind_assoc. apply bind_ext. intros ys s''.
      rewrite !bind_ret_l. unfold ret. now rewrite <- app_assoc.
    + now rewrite bind_ret_l, IH.
Qed.

(** A map over actions that all succeed succeeds, with one result per
    element. *)
Lemma mapM_ok (f : A -> M S B) (R : A -> B -> Prop) l :
  (forall x s, exists y s', f x s = (Ok y, s') /\ R x y) ->
  forall s, exists ys s', mapM f l s = (Ok ys, s') /\ Forall2 R l ys.
Proof.
  intros Hf. induction l as [|x l IH]; intros s; simpl.
  - exists [], s. split; [reflexivity|constructor].
  - destruct (Hf x s) as (y & s1 & Hy & HR).
    destruct (IH s1) as (ys & s2 & Hys & HRs).
    exists (y :: ys), s2. unfold bind. rewrite Hy, Hys. split; [reflexivity|].
    now constructor.
Qed.

Lemma mapM_ok_length (f : A -> M S B) l ys s s' :
  mapM f l s = (Ok ys, s') -> length ys = length l.
Proof.
  revert ys s s'. induction l as [|x l IH]; intros ys s s'; simpl.
  - now intros [= <- _].
  - unfold bind. destruct (f x s) as [[y|e] s1]; [|discriminate].
    destruct (mapM f l s1) as [[ys'|e] s2] eqn:E; [|discriminate].
    intros [= <- _]. simpl. f_equal. exact (IH _ _ _ E).
Qed.

End Loops.

(** ** The walker *)

Lemma find_app {X} (p : X -> bool) (l1 l2 : list X) :
  List.find p (l1 ++ l2) =
  match List.find p l1 with Some x => Some x | None => List.find p l2 end.
Proof.
  induction l1 as [|x l1 IH]; simpl; [reflexivity|].
  now destruct (p x).
Qed.

Lemma omap_all_none {X Y} (f : X -> option Y) (l : list X) :
  (forall x, In x l -> f x = None) -> omap f l = [].
Proof.
  induction l as [|x l IH]; intros H; [reflexivity|].
  cbn [omap list_omap]. rewrite (H x) by (simpl; auto).
  apply IH. intros y Hy. apply H. simpl; auto.
Qed.

Section Walker.

Import AdvancedCodeGenerator.

Context {NF : NumberFormat}.
Variable this : Generator.

Let doc : FigmaNode := document (figmaData this).

Local Arguments isMainFrame : simpl never.

(** [traverse] pushes the main frames of the subtree in pre-order: every
    node is visited, whatever was found before. *)
Lemma traverse_preorder node : forall frames,
  traverse node frames = frames ++ List.filter isMainFrame (preorder node).
Proof.
  induction node as [at_ cs IH] using FigmaNode_ind'. intros frames.
  destruct cs as [cs|]; simpl preorder; simpl traverse.
  - set (here := Node at_ (Some cs)).
    assert (Hgo : forall frames0,
      (fix each (l frames1 : list FigmaNode) {struct l} : list FigmaNode :=
         match l with
         | [] => frames1
         | child :: l' => each l' (traverse child frames1)
         end) cs frames0 =
      frames0 ++ List.filter isMainFrame
        ((fix go (l : list FigmaNode) : list FigmaNode :=
            match l with
            | [] => []
            | c :: l' => preorder c ++ go l'
            end) cs)).
    { clear here. induction cs as [|c cs IHcs]; intros frames0; simpl.
      - now rewrite app_nil_r.
      - inversion IH as [|? ? Hc Hcs]; subst.
        rewrite IHcs by assumption. rewrite Hc, List.filter_app.
        now rewrite <- app_assoc. }
    rewrite Hgo. simpl List.filter. fold here.
    destruct (isMainFrame here); [now rewrite <- app_assoc|reflexivity].
  - cbn [List.filter].
    destruct (isMainFrame (Node at_ None)); [reflexivity|].
    now rewrite app_nil_r.
Qed.

Lemma findMainFrames_preorder node :
  findMainFrames node = List.filter isMainFrame (preorder node).
Proof. unfold findMainFrames. now rewrite traverse_preorder. Qed.

(** [search] returns the first node in pre-order that carries the id. *)
Lemma search_find id node :
  search id node =
  List.find (fun n : FigmaNode => String.eqb (node_id n) id) (preorder node).
Proof.
  induction node as [at_ cs IH] using FigmaNode_ind'.
  destruct cs as [cs|]; simpl.
  - destruct (String.eqb (node_id at_) id); [reflexivity|].
    induction cs as [|c cs IHcs]; simpl; [reflexivity|].
    inversion IH as [|? ? Hc Hcs]; subst.
    rewrite find_app, <- Hc.
    destruct (search id c); [reflexivity|]. now apply IHcs.
  - now destruct (String.eqb (node_id at_) id).
Qed.

Lemma search_none id node :
  search id node = None <->
  forall n : FigmaNode, In n (preorder node) -> node_id n <> id.
Proof.
  rewrite search_find. split.
  - intros H n Hn. apply (List.find_none _ _ H) in Hn.
    now apply String.eqb_neq.
  - intros H. destruct (List.find _ _) as [n|] eqn:E; [|reflexivity].
    apply List.find_some in E as [Hn He]. apply String.eqb_eq in He.
    now destruct (H n Hn).
Qed.

Lemma search_some id node found :
  search id node = Some found ->
  In found (preorder node) /\ node_id found = id.
Proof.
  rewrite search_find. intros H. apply List.find_some in H as [Hn He].
  split; [assumption|]. now apply String.eqb_eq.
Qed.

Lemma forEachM_ext {S X B} (body body' : B -> X -> M S B) l :
  (forall acc x s, body acc x s = body' acc x s) ->
  forall acc s, forEachM body l acc s = forEachM body' l acc s.
Proof.
  intros H. induction l as [|x l IH]; intros acc s; cbn [forEachM];
    [reflexivity|].
  unfold bind. rewrite H. destruct (body' acc x s) as [[v|e] s']; auto.
Qed.

Lemma mapM_map {S X Y B} (h : X -> Y) (f : Y -> M S B) l s :
  mapM f (map h l) s = mapM (fun x => f (h x)) l s.
Proof.
  revert s. induction l as [|x l IH]; intros s; cbn [mapM map];
    [reflexivity|].
  apply bind_ext. intros y s'. unfold bind. now rewrite IH.
Qed.

(** The walker runs the assembler over the generation roots, in order. *)
Lemma generateComponents_roots c :
  generateComponents this c = mapM (generateRoot this) (generationRoots this) c.
Proof.
  unfold generateComponents.
  rewrite (bind_ext _ _ (fun components =>
    if Nat.eqb (length components) 0
    then ys <- mapM (generateRoot this) (frameRoots this) ;;
         ret (components ++ ys)
    else ret components)).
  2:{ intros comps s'. destruct (Nat.eqb _ _); [|reflexivity].
      rewrite (forEachM_push (fun frame : FigmaNode =>
                 generateSingleComponent this frame (node_name frame))).
      rewrite findMainFrames_preorder.
      unfold frameRoots, bind. now rewrite mapM_map. }
  unfold bind at 1.
  erewrite forEachM_ext; [rewrite (forEachM_push_some
    (fun entry : string * FigmaComponent =>
       match findNodeById this (key (snd entry)) with
       | Some node => Some (node, component_name (snd entry))
       | None => None
       end) (generateRoot this))|].
  2:{ intros acc [k comp] s. cbn [snd].
      now destruct (findNodeById this (key comp)). }
  fold (namedRoots this). unfold generationRoots.
  destruct (namedRoots this) as [|root named] eqn:E.
  - cbn [mapM]. rewrite bind_ret_l. unfold ret at 1.
    cbn [app length Nat.eqb].
    unfold bind. destruct (mapM _ _ c) as [[ys|e] c']; reflexivity.
  - unfold bind at 1.
    destruct (mapM (generateRoot this) (root :: named) c) as [[ys|e] c'] eqn:Em;
      [|reflexivity].
    unfold ret at 1. cbn [app].
    apply mapM_ok_length in Em. destruct ys as [|y ys]; [discriminate|].
    reflexivity.
Qed.

(** On every framework but vue the assembler ends normally, and the
    component carries the id of its node. *)
Lemma generateSingleComponent_ok node name c :
  opt_framework (options this) <> vue ->
  exists comp c',
    generateSingleComponent this node name c = (Ok comp, c') /\
    gc_id comp = node_id node /\
    gc_name comp = sanitizeComponentName name.
Proof.
  intros Hf. unfold generateSingleComponent, generateJSX, bind, Date_now,
    liftResult, ret.
  destruct (opt_framework (options this)); [|congruence|];
    eexists; eexists; (split; [reflexivity|split; reflexivity]).
Qed.

Lemma mapM_roots_ok roots c :
  opt_framework (options this) <> vue ->
  exists comps c',
    mapM (generateRoot this) roots c = (Ok comps, c') /\
    map gc_id comps = map (fun root : FigmaNode * string => node_id (fst root)) roots.
Proof.
  intros Hf.
  destruct (mapM_ok (generateRoot this)
              (fun root comp => gc_id comp = node_id (fst root)) roots) with (s := c)
    as (comps & c' & Hrun & Hids).
  { intros [node name] s.
    destruct (generateSingleComponent_ok node name s Hf) as (comp & s' & H & Hid & _).
    now exists comp, s'. }
  exists comps, c'. split; [assumption|].
  clear Hrun. induction Hids as [|root comp roots comps Hid _ IH]; simpl;
    [reflexivity|]. now rewrite Hid, IH.
Qed.

(** C5: with an empty named-components table the walker generates exactly
    the FRAME nodes of the tree that have a child, in pre-order of the whole
    tree; on every framework but vue the run ends normally with one
    component per such frame, in that order. *)
Theorem C5_empty_table_falls_back_to_main_frames :
  componentEntries this = [] ->
  let frames := List.filter isMainFrame (preorder doc) in
  (forall c,
     generateComponents this c =
     mapM (fun frame : FigmaNode =>
             generateSingleComponent this frame (node_name frame)) frames c) /\
  (opt_framework (options this) <> vue ->
   forall c, exists comps c',
     generateComponents this c = (Ok comps, c') /\
     map gc_id comps = map (fun frame : FigmaNode => node_id frame) frames).
Proof.
  intros Hempty frames.
  assert (Hroots : generationRoots this = frameRoots this).
  { unfold generationRoots, namedRoots. now rewrite Hempty. }
  split.
  - intros c. rewrite generateComponents_roots, Hroots. unfold frameRoots.
    now rewrite mapM_map.
  - intros Hf c. destruct (mapM_roots_ok (frameRoots this) c Hf)
      as (comps & c' & Hrun & Hids).
    exists comps, c'. rewrite generateComponents_roots, Hroots. split;
      [assumption|]. rewrite Hids. unfold frameRoots.
    now rewrite List.map_map.
Qed.

(** C10: the table is resolved by the [key] field of its entries; when no
    node of the document carries such a key as its id, every entry fails to
    resolve and the walker generates the main frames, whatever the table
    holds. *)
Theorem C10_keys_that_are_no_ids_fall_back_to_main_frames :
  (forall entry, In entry (componentEntries this) ->
   forall n : FigmaNode, In n (preorder doc) -> node_id n <> key (snd entry)) ->
  (forall entry, In entry (componentEntries this) ->
   findNodeById this (key (snd entry)) = None) /\
  (forall c,
     generateComponents this c =
     mapM (fun frame : FigmaNode =>
             generateSingleComponent this frame (node_name frame))
          (List.filter isMainFrame (preorder doc)) c).
Proof.
  intros Hkeys.
  assert (Hnone : forall entry, In entry (componentEntries this) ->
                  findNodeById this (key (snd entry)) = None).
  { intros entry Hin. unfold findNodeById. apply search_none.
    exact (Hkeys entry Hin). }
  split; [exact Hnone|].
  assert (Hroots : generationRoots this = frameRoots this).
  { unfold generationRoots, namedRoots. rewrite omap_all_none; [reflexivity|].
    intros entry Hin. now rewrite (Hnone entry Hin). }
  intros c. rewrite generateComponents_roots, Hroots. unfold frameRoots.
  now rewrite mapM_map.
Qed.

End Walker.

(** C5 (witness): the sample document has an empty table; its only frame
    with a child is the panel. *)
Lemma C5_witness :
  exists comps c',
    @AdvancedCodeGenerator.generateComponents exampleFormat
      (AdvancedCodeGenerator.new Sample.noTable Sample.reactPlain)
      Sample.clock0 = (Ok comps, c') /\
    map gc_id comps = ["1:2"].
Proof.
  destruct (@C5_empty_table_falls_back_to_main_frames exampleFormat
              (AdvancedCodeGenerator.new Sample.noTable Sample.reactPlain)
              eq_refl) as [_ H].
  destruct (H ltac:(discriminate) Sample.clock0) as (comps & c' & Hrun & Hids).
  exists comps, c'. split; [exact Hrun|exact Hids].
Defined.

(** C10 (witness): the table of the sample names the label under the map
    key 1:3, with a [key] field that is no node id; the walker generates the
    panel, the only main frame, and not the label. *)
Lemma C10_witness :
  AdvancedCodeGenerator.findNodeById
    (AdvancedCodeGenerator.new Sample.foreignKeys Sample.reactPlain) "a1b2c3"
    = None /\
  idsOf (fst (@AdvancedCodeGenerator.generateComponents exampleFormat
                (AdvancedCodeGenerator.new Sample.foreignKeys Sample.reactPlain)
                Sample.clock0)) = Some ["1:2"].
Proof.
  destruct (@C10_keys_that_are_no_ids_fall_back_to_main_frames exampleFormat
              (AdvancedCodeGenerator.new Sample.foreignKeys Sample.reactPlain))
    as [Hnone Hrun].
  { intros entry [<-|[]] n Hn. cbn in Hn.
    repeat (destruct Hn as [<-|Hn]; [discriminate|]). destruct Hn. }
  split.
  - exact (Hnone _ (or_introl eq_refl)).
  - rewrite Hrun. reflexivity.
Defined.

(** ** The caches of [CodeGenerator] *)

Section Caches.

Import CodeGenerator.

Context {NF : NumberFormat}.







End Caches.

(** ** Memoization *)

(** C2 (counterexample): two table entries whose keys name the same node
    make the walker emit two components with the id of that node. *)
Lemma C2_two_entries_for_one_node_give_two_components :
  idsOf (fst (@AdvancedCodeGenerator.generateComponents exampleFormat
                (AdvancedCodeGenerator.new Sample.twiceNamed Sample.reactPlain)
                Sample.clock0)) = Some ["1:2"; "1:2"].
Proof. vm_compute. reflexivity. Qed.

(** C2 (amended): the walker keeps no cache.  It runs the assembler once
    per generation root, so that, when it does not throw, it emits one
    component per table entry that resolves, in table order and with the
    id of the node the entry resolves to, also when two entries resolve to
    one node. *)
Theorem C2_walker_runs_the_assembler_once_per_entry :
  (forall (NF : NumberFormat) this c,
     AdvancedCodeGenerator.generateComponents this c =
     mapM (generateRoot this) (generationRoots this) c) /\
  (forall (NF : NumberFormat) this,
     AdvancedCodeGenerator.opt_framework (AdvancedCodeGenerator.options this)
       <> vue ->
     namedRoots this <> [] ->
     forall c, exists comps c',
       AdvancedCodeGenerator.generateComponents this c = (Ok comps, c') /\
       map gc_id comps =
       map (fun root : FigmaNode * string => node_id (fst root))
           (namedRoots this)).
Proof.
  split.
  - intros NF this c. apply generateComponents_roots.
  - intros NF this Hf Hnamed c.
    destruct (mapM_roots_ok this (generationRoots this) c Hf)
      as (comps & c' & Hrun & Hids).
    exists comps, c'. rewrite generateComponents_roots. split; [assumption|].
    rewrite Hids. unfold generationRoots.
    destruct (namedRoots this); [congruence|reflexivity].
Qed.


(** ** The full CSS override *)

(** C6 (counterexample): the mock route appends the override under an
    Advanced CSS header; its output is not the override. *)
Lemma C6_mock_route_appends_the_override :
  Routes.generateMockCSS Sample.noTable None (Some "a{}") =
    Routes.mockBaseCSS Sample.noTable +:+ nl +:+ nl +:+ "/* Advanced CSS */"
      +:+ nl +:+ "a{}" /\
  Routes.generateMockCSS Sample.noTable None (Some "a{}") <> "a{}".
Proof. split; [reflexivity|]. vm_compute. discriminate. Qed.

(** C6 (amended): a non-empty full CSS override is the whole output of the
    stylesheet function of the code-generation hook, custom fragment
    included; the mock stylesheet function of the server appends it, after
    the base output and the custom fragment, under an Advanced CSS header. *)
Theorem C6_override_replaces_in_hook_and_is_appended_by_mock_route
    figmaData analysis customCss fullCss :
  nonEmpty fullCss = true ->
  useCodeGeneration.generateCSS figmaData analysis customCss (Some fullCss)
    = fullCss /\
  Routes.generateMockCSS figmaData customCss (Some fullCss)
    = Routes.generateMockCSS figmaData customCss None
        +:+ nl +:+ nl +:+ "/* Advanced CSS */" +:+ nl +:+ fullCss.
Proof.
  intros H. unfold useCodeGeneration.generateCSS, Routes.generateMockCSS.
  now rewrite H.
Qed.

(** C6 (witness) *)
Lemma C6_witness :
  useCodeGeneration.generateCSS Sample.noTable
    (useCodeGeneration.mkAnalysis useCodeGeneration.basic useCodeGeneration.static)
    (Some ".x { color: red; }") (Some "a{}") = "a{}" /\
  Routes.generateMockCSS Sample.noTable (Some ".x { color: red; }") (Some "a{}")
    = Routes.generateMockCSS Sample.noTable (Some ".x { color: red; }") None
        +:+ nl +:+ nl +:+ "/* Advanced CSS */" +:+ nl +:+ "a{}".
Proof.
  apply (C6_override_replaces_in_hook_and_is_appended_by_mock_route
           Sample.noTable
           (useCodeGeneration.mkAnalysis useCodeGeneration.basic
              useCodeGeneration.static)
           (Some ".x { color: red; }") "a{}").
  reflexivity.
Defined.

(** ** Strings and style records *)

Lemma startsWith_app p s : startsWith p (p +:+ s) = true.
Proof.
  induction p as [|c p IH]; simpl; [reflexivity|].
  now rewrite Ascii.eqb_refl.
Qed.

Lemma startsWith_app_l p s t :
  startsWith p s = true -> startsWith p (s +:+ t) = true.
Proof.
  revert s. induction p as [|c p IH]; intros s; simpl; [reflexivity|].
  destruct s as [|d s]; [discriminate|]. simpl.
  destruct (Ascii.eqb c d); [apply IH|discriminate].
Qed.

Lemma includes_app_l s t sub :
  includes s sub = true -> includes (s +:+ t) sub = true.
Proof.
  induction s as [|c s IH].
  - simpl. rewrite orb_false_r. intros H. destruct sub; [|discriminate].
    now destruct t.
  - change (String c s +:+ t) with (String c (s +:+ t)).
    cbn [includes]. rewrite !orb_true_iff.
    intros [H|H]; [left|right; auto].
    now apply (startsWith_app_l sub (String c s) t).
Qed.

Lemma includes_app_r s t sub :
  includes t sub = true -> includes (s +:+ t) sub = true.
Proof.
  intros H. induction s as [|c s IH]; [exact H|].
  change (String c s +:+ t) with (String c (s +:+ t)).
  cbn [includes]. rewrite IH. apply orb_true_r.
Qed.

Lemma includes_prefix s t : includes (s +:+ t) s = true.
Proof.
  destruct s as [|c s]; [now destruct t|].
  change (String c s +:+ t) with (String c (s +:+ t)) at 1.
  cbn [includes].
  change (String c (s +:+ t)) with (String c s +:+ t).
  now rewrite startsWith_app.
Qed.

Lemma includes_self s : includes s s = true.
Proof.
  assert (H : startsWith s s = true).
  { induction s as [|c s IH]; simpl; [reflexivity|]. now rewrite Ascii.eqb_refl. }
  destruct s; cbn [includes]; now rewrite H.
Qed.

Lemma includes_join sep l x : In x l -> includes (join sep l) x = true.
Proof.
  induction l as [|y l IH]; [intros []|].
  intros [->|Hin].
  - destruct l; cbn [join].
    + apply includes_self.
    + apply includes_prefix.
  - destruct l as [|z l]; [destruct Hin|]. cbn [join].
    apply includes_app_r, includes_app_r. now apply IH.
Qed.

Lemma styleGet_set_eq k v st : styleGet k (styleSet k v st) = Some v.
Proof.
  induction st as [|[k' v'] st IH]; simpl.
  - now rewrite String.eqb_refl.
  - destruct (String.eqb k' k) eqn:E; simpl.
    + now rewrite String.eqb_refl.
    + now rewrite E.
Qed.

Lemma styleGet_set_ne k k' v st :
  String.eqb k' k = false -> styleGet k (styleSet k' v st) = styleGet k st.
Proof.
  intros Hne. induction st as [|[k0 v0] st IH]; simpl.
  - now rewrite Hne.
  - destruct (String.eqb k0 k') eqn:E; simpl.
    + apply String.eqb_eq in E as ->. now rewrite Hne.
    + now rewrite IH.
Qed.

Lemma styleGet_In k v st : styleGet k st = Some v -> In (k, v) st.
Proof.
  induction st as [|[k' v'] st IH]; simpl; [discriminate|].
  destruct (String.eqb k' k) eqn:E.
  - apply String.eqb_eq in E as ->. intros [= ->]. now left.
  - intros H. right. auto.
Qed.

(** ** The background colour *)

Section Background.

Import AdvancedCodeGenerator.

Context {NF : NumberFormat}.

(** The channels 1, 0, 0 and the alpha 1 print as integers. *)
Lemma colorToCSS_red :
  colorToCSS (mkColor 1 0 0 (Some 1%Q)) None = "rgba(255, 0, 0, 1)".
Proof. reflexivity. Qed.

(** The steps of [extractAllStyles] are taken one at a time, last first:
    a step that follows the background colour leaves the value under that
    key as the step before it left it. *)
Ltac name_steps :=
  repeat
    match goal with
    | |- styleGet ?k (let s := ?v in @?body s) = ?r =>
        change (let s := v in styleGet k (body s) = r); intro; cbv beta
    end.

Ltac split_cases :=
  repeat
    (first
       [ rewrite styleGet_set_ne by reflexivity
       | match goal with
         | |- context [match ?x with _ => _ end] =>
             lazymatch x with
             | context [styleSet] => fail
             | _ => destruct x
             end
         end ]).

Ltac skip_last_step :=
  match goal with
  | s := ?body |- styleGet ?k ?s' = _ =>
      constr_eq s s';
      match body with
      | context [?prev] =>
          is_var prev;
          let T := type of prev in unify T Styles;
          let H := fresh "Hstep" in
          assert (H : styleGet k s = styleGet k prev)
            by (subst s; cbv zeta; split_cases; reflexivity);
          rewrite H; clear H; clear s
      end
  end.

(** Without fills, the background colour of the node is the value under
    the key [backgroundColor]. *)
Lemma extractAllStyles_background (node : FigmaNode) c :
  backgroundColor node = Some c ->
  fills node = None \/ fills node = Some [] ->
  styleGet "backgroundColor" (extractAllStyles node)
    = Some (SVstr (colorToCSS c None)).
Proof.
  intros Hbg Hfills. cbv beta delta [extractAllStyles].
  assert (Hfirst : firstOf (fills node) = None)
    by (destruct Hfills as [-> | ->]; reflexivity).
  name_steps.
  do 5 skip_last_step.
  match goal with s := _ |- styleGet _ ?s' = _ => constr_eq s s'; subst s end.
  rewrite Hfirst.
  match goal with s := _ |- styleGet _ ?s' = _ => constr_eq s s'; subst s end.
  rewrite Hbg. apply styleGet_set_eq.
Qed.

(** C7 (amended): for a node with the background colour r 1, g 0, b 0,
    a 1 and no fills, the extracted style holds [rgba(255, 0, 0, 1)] under
    [backgroundColor], and the scoped stylesheet has the declaration
    [background-color: rgba(255, 0, 0, 1);]. *)
Theorem C7_red_background_declaration (this : Generator) (node : FigmaNode)
    (componentName : string) :
  backgroundColor node = Some (mkColor 1 0 0 (Some 1%Q)) ->
  fills node = None \/ fills node = Some [] ->
  opt_styling (options this) = css_modules ->
  styleGet "backgroundColor" (extractAllStyles node)
    = Some (SVstr "rgba(255, 0, 0, 1)") /\
  includes (generateCSS this node componentName)
    "  background-color: rgba(255, 0, 0, 1);" = true.
Proof.
  intros Hbg Hfills Hstyling.
  pose proof (extractAllStyles_background _ _ Hbg Hfills) as Hget.
  rewrite colorToCSS_red in Hget. split; [exact Hget|].
  unfold generateCSS. rewrite Hstyling.
  unfold generateCSSModules, convertToCSSRules.
  apply includes_app_l.
  do 4 apply includes_app_r. apply includes_app_l, includes_join.
  apply styleGet_In in Hget.
  apply (List.in_map
           (fun '(property, value) =>
              "  " +:+ camelToKebab property +:+ ": " +:+ showValue value +:+ ";"))
    in Hget.
  exact Hget.
Qed.

End Background.

(** C7 (counterexample): the declaration of the red box reads
    [rgba(255, 0, 0, 1)], with a space after each comma; the string of the
    specification occurs nowhere in the stylesheet. *)
Lemma C7_rgba_is_printed_with_spaces :
  styleGet "backgroundColor"
    (@AdvancedCodeGenerator.extractAllStyles exampleFormat Sample.redBox)
    = Some (SVstr "rgba(255, 0, 0, 1)") /\
  includes
    (@AdvancedCodeGenerator.generateCSS exampleFormat
       (AdvancedCodeGenerator.new Sample.noTable Sample.cssModules)
       Sample.redBox "RedBox")
    "rgba(255,0,0,1)" = false.
Proof. split; vm_compute; reflexivity. Qed.

(** C7 (witness) *)
Lemma C7_witness :
  styleGet "backgroundColor"
    (@AdvancedCodeGenerator.extractAllStyles exampleFormat Sample.redBox)
    = Some (SVstr "rgba(255, 0, 0, 1)") /\
  includes
    (@AdvancedCodeGenerator.generateCSS exampleFormat
       (AdvancedCodeGenerator.new Sample.noTable Sample.cssModules)
       Sample.redBox "RedBox")
    "  background-color: rgba(255, 0, 0, 1);" = true.
Proof.
  apply (@C7_red_background_declaration exampleFormat
           (AdvancedCodeGenerator.new Sample.noTable Sample.cssModules)
           Sample.redBox "RedBox");
    [reflexivity|left; reflexivity|reflexivity].
Defined.

(** * Further properties of the code *)

(** ** Component names *)

Lemma allChars_filterChars p s : allChars p (filterChars p s) = true.
Proof.
  induction s as [|c s IH]; simpl; [reflexivity|].
  destruct (p c) eqn:E; simpl; [now rewrite E|exact IH].
Qed.

Lemma filterChars_all p s : allChars p s = true -> filterChars p s = s.
Proof.
  induction s as [|c s IH]; simpl; [reflexivity|].
  intros [Hc Hs]%andb_true_iff. rewrite Hc. now rewrite IH.
Qed.

Lemma allChars_app p s t :
  allChars p (s +:+ t) = allChars p s && allChars p t.
Proof.
  induction s as [|c s IH]; [reflexivity|].
  change (String c s +:+ t) with (String c (s +:+ t)). cbn [allChars].
  now rewrite IH, andb_assoc.
Qed.

Lemma upperChar_facts c :
  isAlnum c = true ->
  isDigit c = false ->
  isAlnum (upperChar c) = true /\ isDigit (upperChar c) = false /\
  isLower (upperChar c) = false /\ upperChar (upperChar c) = upperChar c.
Proof.
  destruct c as [[] [] [] [] [] [] [] []]; vm_compute; intros; try discriminate;
    repeat split.
Qed.

(** X1: a sanitized component name is never empty, holds letters and
    digits only, starts with neither a digit nor a small letter, and is left
    as it is by a second sanitization. *)
Theorem X1_sanitized_name_is_an_identifier name :
  let s := AdvancedCodeGenerator.sanitizeComponentName name in
  nonEmpty s = true /\
  allChars isAlnum s = true /\
  (exists c rest, s = String c rest /\ isDigit c = false /\ isLower c = false) /\
  AdvancedCodeGenerator.sanitizeComponentName s = s.
Proof.
  cbv zeta. unfold AdvancedCodeGenerator.sanitizeComponentName.
  pose proof (allChars_filterChars isAlnum name) as Hall.
  destruct (filterChars isAlnum name) as [|c rest] eqn:E.
  - vm_compute. repeat split. now exists "C"%char, "omponent".
  - simpl in Hall. apply andb_true_iff in Hall as [Hc Hrest].
    destruct (isDigit c) eqn:Hd.
    + assert (Hall : allChars isAlnum ("Component" +:+ String c rest) = true).
      { rewrite allChars_app. cbn [allChars]. now rewrite Hc, Hrest. }
      change ("Component" +:+ String c rest)
        with (String "C" ("omponent" +:+ String c rest)) in *.
      cbn [nonEmpty]. change (upperChar "C") with "C"%char.
      repeat split.
      * exact Hall.
      * now exists "C"%char, ("omponent" +:+ String c rest).
      * now rewrite (filterChars_all _ _ Hall).
    + destruct (upperChar_facts c Hc Hd) as (Ha & Hd' & Hl & Hu).
      cbn [nonEmpty]. repeat split.
      * cbn -[isAlnum]. now rewrite Ha, Hrest.
      * now exists (upperChar c), rest.
      * rewrite (filterChars_all isAlnum (String (upperChar c) rest))
          by (cbn -[isAlnum]; now rewrite Ha, Hrest).
        rewrite Hd'. cbn [nonEmpty]. now rewrite Hu.
Qed.

(** ** Looking a node up by id *)

Lemma find_first {X} (p : X -> bool) (l : list X) (x : X) :
  List.find p l = Some x ->
  p x = true /\
  exists before after,
    l = before ++ x :: after /\ Forall (fun y => p y = false) before.
Proof.
  induction l as [|y l IH]; simpl; [discriminate|].
  destruct (p y) eqn:E.
  - intros [= <-]. split; [exact E|]. exists [], l. split; [reflexivity|constructor].
  - intros H. destruct (IH H) as (Hp & before & after & -> & Hb).
    split; [exact Hp|]. exists (y :: before), after. split; [reflexivity|].
    now constructor.
Qed.

(** X2: [findNodeById] returns the first node of the document in pre-order
    that carries the id, and null exactly when no node carries it. *)
Theorem X2_findNodeById_is_first_preorder_match
    (this : AdvancedCodeGenerator.Generator) (id : string) :
  match AdvancedCodeGenerator.findNodeById this id with
  | Some found =>
      node_id found = id /\
      exists before after,
        preorder (document (AdvancedCodeGenerator.figmaData this))
          = before ++ found :: after /\
        Forall (fun n : FigmaNode => node_id n <> id) before
  | None =>
      Forall (fun n : FigmaNode => node_id n <> id)
        (preorder (document (AdvancedCodeGenerator.figmaData this)))
  end.
Proof.
  unfold AdvancedCodeGenerator.findNodeById. rewrite search_find.
  destruct (List.find _ _) as [found|] eqn:E.
  - apply find_first in E as (Hid & before & after & Hsplit & Hbefore).
    split; [now apply String.eqb_eq|]. exists before, after.
    split; [exact Hsplit|].
    eapply Forall_impl; [exact Hbefore|]. intros n Hn. now apply String.eqb_neq.
  - apply Forall_forall. intros n Hn. apply String.eqb_neq.
    apply list_elem_of_In in Hn. exact (List.find_none _ _ E n Hn).
Qed.

(** ** The walker on framework vue, and its clock *)

Section WalkerEffects.

Import AdvancedCodeGenerator.

Context {NF : NumberFormat}.
Variable this : Generator.

Lemma generateSingleComponent_vue node name c :
  opt_framework (options this) = vue ->
  generateSingleComponent this node name c =
    (Throw (ReferenceError "jsx is not defined"),
     mkClock (readings c) (S (ticks c))).
Proof.
  intros Hf. unfold generateSingleComponent, generateJSX, bind, Date_now,
    liftResult, throw. now rewrite Hf.
Qed.

(** X3: on framework vue the markup generator reaches a return of an
    undeclared variable: the walker throws a ReferenceError at its first
    generation root, after one reading of the clock, and returns the empty
    list only when there is no root at all. *)
Theorem X3_walker_throws_on_vue :
  opt_framework (options this) = vue ->
  forall c,
    generateComponents this c =
    match generationRoots this with
    | [] => (Ok [], c)
    | _ :: _ => (Throw (ReferenceError "jsx is not defined"),
                 mkClock (readings c) (S (ticks c)))
    end.
Proof.
  intros Hf c. rewrite generateComponents_roots.
  destruct (generationRoots this) as [|[node name] roots]; [reflexivity|].
  cbn [mapM]. unfold bind, generateRoot. cbn [fst snd].
  now rewrite generateSingleComponent_vue.
Qed.

(** One root: two readings of the clock, and their difference as the
    generation time. *)
Lemma generateSingleComponent_clock node name c comp c' :
  generateSingleComponent this node name c = (Ok comp, c') ->
  readings c' = readings c /\
  ticks c' = S (S (ticks c)) /\
  generationTime (metadata comp) =
    readings c (S (ticks c)) - readings c (ticks c).
Proof.
  unfold generateSingleComponent, generateJSX, bind, Date_now, liftResult,
    throw, ret.
  destruct (opt_framework (options this)); intros [= <- <-];
    repeat split.
Qed.

Lemma mapM_roots_clock roots : forall c comps c',
  mapM (generateRoot this) roots c = (Ok comps, c') ->
  readings c' = readings c /\
  ticks c' = (ticks c + 2 * length comps)%nat /\
  (monotone c -> Forall (fun comp => 0 <= generationTime (metadata comp)) comps).
Proof.
  induction roots as [|[node name] roots IH]; intros c comps c'; cbn [mapM].
  - intros [= <- <-]. repeat split; [simpl; lia|constructor].
  - unfold bind, generateRoot at 1. cbn [fst snd].
    destruct (generateSingleComponent this node name c) as [[comp|e] c1] eqn:E1;
      [|discriminate].
    destruct (mapM (generateRoot this) roots c1) as [[rest|e] c2] eqn:E2;
      [|discriminate].
    intros [= <- <-].
    apply generateSingleComponent_clock in E1 as (Hr1 & Ht1 & Hg).
    apply IH in E2 as (Hr2 & Ht2 & Hmono).
    split; [congruence|]. split; [simpl; lia|].
    intros Hm. constructor.
    + rewrite Hg. specialize (Hm (ticks c) (S (ticks c))). lia.
    + apply Hmono. unfold monotone. rewrite Hr1. exact Hm.
Qed.

(** X4: a run of the walker that ends normally has read the clock exactly
    twice per component and has left its readings alone; when the clock
    never runs backwards, no component has a negative generation time. *)
Theorem X4_walker_reads_the_clock_twice_per_component c comps c' :
  generateComponents this c = (Ok comps, c') ->
  readings c' = readings c /\
  ticks c' = (ticks c + 2 * length comps)%nat /\
  (monotone c -> Forall (fun comp => 0 <= generationTime (metadata comp)) comps).
Proof.
  rewrite generateComponents_roots. apply mapM_roots_clock.
Qed.

End WalkerEffects.

(** X3 (witness): the sample document on framework vue. *)
Lemma X3_witness :
  fst (@AdvancedCodeGenerator.generateComponents exampleFormat
         (AdvancedCodeGenerator.new Sample.noTable
            (AdvancedCodeGenerator.mkOptions vue plain_css false true true false))
         Sample.clock0)
  = Throw (ReferenceError "jsx is not defined").
Proof.
  rewrite (@X3_walker_throws_on_vue exampleFormat
             (AdvancedCodeGenerator.new Sample.noTable
                (AdvancedCodeGenerator.mkOptions vue plain_css false true true
                   false))
             eq_refl Sample.clock0).
  reflexivity.
Defined.

(** X4 (witness): the sample document on framework react. *)
Lemma X4_witness :
  exists comps c',
    @AdvancedCodeGenerator.generateComponents exampleFormat
      (AdvancedCodeGenerator.new Sample.noTable Sample.reactPlain)
      Sample.clock0 = (Ok comps, c') /\
    ticks c' = 2%nat /\
    Forall (fun comp => 0 <= generationTime (metadata comp)) comps.
Proof.
  destruct (@AdvancedCodeGenerator.generateComponents exampleFormat
              (AdvancedCodeGenerator.new Sample.noTable Sample.reactPlain)
              Sample.clock0) as [[comps|e] c'] eqn:E;
    [|vm_compute in E; discriminate].
  destruct (X4_walker_reads_the_clock_twice_per_component _ _ _ _ E)
    as (_ & Ht & Hm).
  exists comps, c'. split; [reflexivity|]. split.
  - rewrite Ht. vm_compute in E. injection E as <- _. reflexivity.
  - apply Hm. intros i j Hij. simpl. lia.
Defined.

(** ** Heuristics *)

Section Heuristics.

Import AdvancedCodeGenerator.

Variable this : Generator.

Lemma flag_bounds c amount : 0 <= amount -> 0 <= flag c amount <= amount.
Proof. destruct c; simpl; lia. Qed.

(** X5: the estimated accuracy is never below 80: a node with more than
    five children is never of simple complexity, so the penalty and the
    bonus for simplicity exclude each other and the lower clamp at 70 never
    acts; without the penalty the estimate is at least 85. *)
Theorem X5_estimated_accuracy_is_at_least_80 (node : FigmaNode) :
  80 <= estimateAccuracy this node <= 100 /\
  (Nat.ltb 5 (childCount node) = true ->
   calculateComplexity this node <> simple) /\
  (Nat.ltb 5 (childCount node) = false -> 85 <= estimateAccuracy this node).
Proof.
  assert (Hcrowd : Nat.ltb 5 (childCount node) = true ->
                   calculateComplexity this node <> simple).
  { intros H%Nat.ltb_lt. rewrite calculateComplexity_weight.
    unfold complexityWeight.
    pose proof (flag_bounds
      (match effects node with Some (_ :: _) => true | _ => false end) 2).
    pose proof (flag_bounds
      (match fills node with
       | Some fs => Nat.ltb 1 (length fs) | None => false end) 1).
    pose proof (flag_bounds (hasCustomCode this) 1).
    destruct (_ <=? 3) eqn:E; [apply Z.leb_le in E; lia|].
    destruct (_ <=? 8); discriminate. }
  rewrite estimateAccuracy_sum.
  pose proof (flag_bounds (isButtonTextCard (detectComponentType node)) 5).
  pose proof (flag_bounds (hasCustomCode this) 5).
  pose proof (flag_bounds (isSimple (calculateComplexity this node)) 10).
  destruct (Nat.ltb 5 (childCount node)) eqn:E.
  - specialize (Hcrowd eq_refl).
    destruct (calculateComplexity this node); [congruence| |];
      cbn [isSimple flag] in *; (split; [lia|split; [discriminate|discriminate]]).
  - cbn [flag]. split; [lia|]. split; [discriminate|]. intros _. lia.
Qed.

(** X6: the component type of a TEXT node is button, card or text, and a
    node is classified as layout only when it has more than three children
    and none of the four words in its name. *)
Theorem X6_component_type_of_text_and_layout (node : FigmaNode) :
  (node_type node = TEXT ->
   isButtonTextCard (detectComponentType node) = true) /\
  (detectComponentType node = ct_layout ->
   (3 < childCount node)%nat /\ node_type node <> TEXT /\
   let name := toLowerCase (node_name node) in
   includes name "button" = false /\ includes name "card" = false /\
   includes name "text" = false /\ includes name "input" = false).
Proof.
  unfold detectComponentType, isTEXT. cbv zeta.
  set (name := toLowerCase (node_name node)). split.
  - intros ->. rewrite bool_decide_eq_true_2 by reflexivity.
    rewrite orb_true_r.
    destruct (includes name "button"), (includes name "card"); reflexivity.
  - destruct (includes name "button"); [discriminate|].
    destruct (includes name "card"); [discriminate|].
    destruct (includes name "text"); [discriminate|].
    destruct (bool_decide (node_type node = TEXT)) eqn:Et; [discriminate|].
    apply bool_decide_eq_false in Et. cbn [orb].
    destruct (includes name "input"); [discriminate|].
    destruct (Nat.ltb 3 (childCount node)) eqn:E; [|discriminate].
    apply Nat.ltb_lt in E. intros _. repeat split; assumption.
Qed.


End Heuristics.


(** ** Style records *)

Lemma keys_styleSet k v st :
  map fst (styleSet k v st) =
  match styleGet k st with
  | Some _ => map fst st
  | None => map fst st ++ [k]
  end.
Proof.
  induction st as [|[k' v'] st IH]; simpl; [reflexivity|].
  destruct (String.eqb k' k) eqn:E; simpl.
  - apply String.eqb_eq in E. now subst.
  - rewrite IH. now destruct (styleGet k st).
Qed.

Lemma styleGet_None_not_key k st : styleGet k st = None -> ~ In k (map fst st).
Proof.
  induction st as [|[k' v'] st IH]; simpl; [tauto|].
  destruct (String.eqb k' k) eqn:E; [discriminate|].
  apply String.eqb_neq in E. intros H [Hk|Hk]; [contradiction|now apply IH].
Qed.

Lemma upTo_prefix k l : exists rest, l = upTo k l ++ rest.
Proof.
  induction l as [|x l IH]; [now exists []|]. cbn.
  destruct (String.eqb x k); [now exists l|].
  destruct IH as (rest & IH). exists rest. cbn. now rewrite <- IH.
Qed.

Lemma upTo_last k l : List.In k l -> exists before, upTo k l = before ++ [k].
Proof.
  induction l as [|x l IH]; [intros []|]. intros Hin. cbn.
  destruct (String.eqb_spec x k) as [->|Hne]; [now exists []|].
  destruct Hin as [Heq|Hin]; [contradiction|].
  destruct (IH Hin) as (before & ->). now exists (x :: before).
Qed.

Lemma sublist_without_last (l before : list string) k :
  sublist l (before ++ [k]) -> ~ List.In k l -> sublist l before.
Proof.
  intros Hs Hk. apply sublist_app_r in Hs.
  destruct Hs as (l1 & l2 & -> & H1 & H2).
  destruct l2 as [|x l2].
  - now rewrite app_nil_r.
  - exfalso. apply Hk. apply List.in_app_iff. right.
    assert (Hx : x ∈ [k]).
    { eapply elem_of_sublist; [|exact H2]. now left. }
    apply list_elem_of_singleton in Hx. subst x. now left.
Qed.

(** An assignment keeps the keys within the order, up to its own key. *)
Lemma styleSet_in_order k v st order :
  existsb (String.eqb k) order = true ->
  sublist (map fst st) (upTo k order) ->
  sublist (map fst (styleSet k v st)) order.
Proof.
  intros Hin Hs. apply List.existsb_exists in Hin.
  destruct Hin as (k' & Hin & Heq). apply String.eqb_eq in Heq. subst k'.
  destruct (upTo_prefix k order) as (rest & Horder).
  rewrite Horder. apply sublist_inserts_r.
  destruct (upTo_last k order Hin) as (before & Hup). rewrite Hup in *.
  rewrite keys_styleSet. destruct (styleGet k st) eqn:E; [exact Hs|].
  apply sublist_app; [|reflexivity].
  eapply sublist_without_last; [exact Hs|].
  now apply styleGet_None_not_key.
Qed.

Lemma sublist_longer (l order order' : list string) :
  sublist l order -> (exists rest, order' = order ++ rest) ->
  sublist l order'.
Proof. intros Hs (rest & ->). now apply sublist_inserts_r. Qed.

Section StyleExtraction.

Import AdvancedCodeGenerator.

Context {NF : NumberFormat}.

(** The assignments of [extractAllStyles] are taken one at a time. *)
Ltac open_steps :=
  cbv beta delta [extractAllStyles];
  repeat
    match goal with
    | |- sublist (map fst (let s := ?v in @?body s)) ?order =>
        change (let s := v in sublist (map fst (body s)) order); intro;
        cbv beta
    | |- styleGet ?k (let s := ?v in @?body s) = ?r =>
        change (let s := v in styleGet k (body s) = r); intro; cbv beta
    end.

Ltac case_step :=
  match goal with
  | |- context [match ?x with _ => _ end] =>
      lazymatch x with
      | context [styleSet] => fail
      | _ => destruct x
      end
  end.

(** A step that does not assign to the key leaves its value alone. *)
Ltac drop_step :=
  match goal with
  | s := ?body |- styleGet ?k ?s' = _ =>
      constr_eq s s';
      match body with
      | context [?prev] =>
          is_var prev;
          let T := type of prev in unify T Styles;
          let H := fresh "Hstep" in
          assert (H : styleGet k s = styleGet k prev)
            by (subst s; cbv zeta;
                repeat (first [rewrite styleGet_set_ne by reflexivity
                              | case_step]);
                reflexivity);
          rewrite H; clear H; clear s
      end
  end.

Ltac this_step :=
  match goal with
  | s := _ |- styleGet _ ?s' = _ => constr_eq s s'; subst s
  end.

(** One step of [extractAllStyles] keeps the keys within the part of the
    order that ends with the last key the step can assign. *)
Ltac in_order :=
  repeat
    first
      [ apply sublist_nil_l
      | match goal with
        | |- sublist (map fst ?s) _ =>
            is_var s;
            eapply sublist_longer; [eassumption | eexists; reflexivity]
        end
      | apply styleSet_in_order;
        [ vm_compute; reflexivity
        | match goal with
          | |- sublist _ (upTo ?k ?order) =>
              let part := eval vm_compute in (upTo k order) in
              change (upTo k order) with part
          end ]
      | case_step ].

Ltac step_within order :=
  lazymatch reverse goal with
  | s := _ |- _ =>
      assert (sublist (map fst s) order)
        by (unfold s; repeat match goal with x := _ |- _ => clear x end;
            cbv zeta; in_order);
      clearbody s
  end.

(** X8: in the style record of a node the keys come in one fixed order,
    the order of the assignments of [extractAllStyles]: width, height,
    display, flexDirection, gap, padding, backgroundColor, background,
    borderRadius, border, fontFamily, fontSize, lineHeight, letterSpacing,
    color, opacity, boxShadow, each at most once.  In particular the
    background colour that the first fill assigns stands where the
    background colour of the node would stand, before a gradient
    background. *)
Theorem X8_style_keys_come_in_a_fixed_order (node : FigmaNode) :
  sublist (map fst (extractAllStyles node)) styleKeyOrder /\
  NoDup (map fst (extractAllStyles node)).
Proof.
  assert (Horder : sublist (map fst (extractAllStyles node)) styleKeyOrder).
  { unfold styleKeyOrder. open_steps.
    step_within (@nil string).
    step_within ["width"; "height"].
    step_within ["width"; "height"; "display"; "flexDirection"; "gap"].
    step_within ["width"; "height"; "display"; "flexDirection"; "gap";
                 "padding"].
    step_within ["width"; "height"; "display"; "flexDirection"; "gap";
                 "padding"; "backgroundColor"].
    step_within ["width"; "height"; "display"; "flexDirection"; "gap";
                 "padding"; "backgroundColor"; "background"].
    step_within ["width"; "height"; "display"; "flexDirection"; "gap";
                 "padding"; "backgroundColor"; "background"; "borderRadius"].
    step_within ["width"; "height"; "display"; "flexDirection"; "gap";
                 "padding"; "backgroundColor"; "background"; "borderRadius";
                 "border"].
    step_within ["width"; "height"; "display"; "flexDirection"; "gap";
                 "padding"; "backgroundColor"; "background"; "borderRadius";
                 "border"; "fontFamily"; "fontSize"; "lineHeight";
                 "letterSpacing"; "color"].
    step_within ["width"; "height"; "display"; "flexDirection"; "gap";
                 "padding"; "backgroundColor"; "background"; "borderRadius";
                 "border"; "fontFamily"; "fontSize"; "lineHeight";
                 "letterSpacing"; "color"; "opacity"].
    step_within ["width"; "height"; "display"; "flexDirection"; "gap";
                 "padding"; "backgroundColor"; "background"; "borderRadius";
                 "border"; "fontFamily"; "fontSize"; "lineHeight";
                 "letterSpacing"; "color"; "opacity"; "boxShadow"].
    assumption. }
  split; [exact Horder|].
  eapply sublist_NoDup; [|exact Horder].
  refine (bool_decide_unpack _ _). vm_compute. exact I.
Qed.

(** X9: a first fill of type SOLID that has a colour decides the
    background colour, with the opacity of the fill as alpha, whatever the
    background colour of the node is. *)
Theorem X9_solid_fill_overrides_background_colour
    (node : FigmaNode) (fill : Paint) (rest : list Paint) (c : Color) :
  fills node = Some (fill :: rest) ->
  paint_type fill = "SOLID" ->
  paint_color fill = Some c ->
  styleGet "backgroundColor" (extractAllStyles node)
    = Some (SVstr (colorToCSS c (paint_opacity fill))).
Proof.
  intros Hfills Htype Hcolor. open_steps.
  do 5 drop_step. this_step.
  unfold firstOf. rewrite Hfills, Htype, Hcolor. cbn [String.eqb].
  change (String.eqb "SOLID" "SOLID") with true. cbv iota.
  apply styleGet_set_eq.
Qed.

(** X10: every node with a layout mode gets the flex display, the mode
    NONE included, and every mode but HORIZONTAL gets the column direction;
    a node without layout mode has neither property. *)
Theorem X10_layout_mode_NONE_is_a_flex_column (node : FigmaNode) :
  styleGet "display" (extractAllStyles node) =
    match layoutMode node with
    | Some _ => Some (SVstr "flex")
    | None => None
    end /\
  styleGet "flexDirection" (extractAllStyles node) =
    match layoutMode node with
    | Some HORIZONTAL => Some (SVstr "row")
    | Some _ => Some (SVstr "column")
    | None => None
    end.
Proof.
  split; open_steps; do 8 drop_step; this_step;
    (destruct (layoutMode node) as [mode|];
     [ cbv zeta;
       destruct (itemSpacing node) as [sp|]; [destruct (truthyNum sp)|];
       rewrite ?styleGet_set_ne by reflexivity; rewrite styleGet_set_eq;
       try reflexivity; destruct mode; reflexivity
     | this_step; destruct (absoluteBoundingBox node);
       rewrite ?styleGet_set_ne by reflexivity; this_step; reflexivity ]).
Qed.

End StyleExtraction.

(** X9 (witness): a red node whose first fill is solid blue at half
    opacity. *)
Lemma X9_witness :
  styleGet "backgroundColor"
    (@AdvancedCodeGenerator.extractAllStyles exampleFormat
       (Node (mkAttrs "2:1" "Tile" RECTANGLE None None None None None None None
                None (Some [mkPaint "SOLID" (Some Sample.blue) (Some 1%Q)])
                None None None (Some Sample.red) None None None None) None))
    = Some (SVstr "rgba(0, 0, 255, 1)").
Proof.
  exact (@X9_solid_fill_overrides_background_colour exampleFormat
           (Node (mkAttrs "2:1" "Tile" RECTANGLE None None None None None None
                    None None
                    (Some [mkPaint "SOLID" (Some Sample.blue) (Some 1%Q)])
                    None None None (Some Sample.red) None None None None) None)
           (mkPaint "SOLID" (Some Sample.blue) (Some 1%Q)) [] Sample.blue
           eq_refl eq_refl eq_refl).
Defined.


(** ** Class names and the styled-components dialect *)

Section Dialects.

Import AdvancedCodeGenerator.

Context {NF : NumberFormat}.
Variable this : Generator.

(** X11: outside the utility-class dialect the class name of a node holds
    small letters, digits and hyphens only. *)
Theorem X11_class_name_alphabet (node : FigmaNode) :
  opt_styling (options this) <> tailwind ->
  allChars isClassChar (generateClassName this node) = true.
Proof.
  intros Hs. unfold generateClassName.
  destruct (opt_styling (options this)); [congruence| | |];
    apply allChars_filterChars.
Qed.

Lemma isAlnum_lowerChar c :
  isAlnum c = true ->
  isAlnum (lowerChar c) = true /\ Ascii.eqb (lowerChar c) "{" = false.
Proof.
  destruct c as [[] [] [] [] [] [] [] []]; vm_compute; intros; try discriminate;
    split; reflexivity.
Qed.

Lemma afterBrace_first seen p rest :
  allChars (fun c => negb (Ascii.eqb c "{")) p = true ->
  afterBrace seen (p +:+ String "{" rest) =
    if seen || nonEmpty p then Some rest else None.
Proof.
  revert seen. induction p as [|c p IH]; intros seen.
  - intros _. cbn. now rewrite orb_false_r.
  - change (String c p +:+ String "{" rest)
      with (String c (p +:+ String "{" rest)).
    cbn [allChars afterBrace nonEmpty].
    intros [Hc Hp]%andb_true_iff. apply negb_true_iff in Hc. rewrite Hc.
    rewrite (IH true Hp). now rewrite orb_true_r.
Qed.

Lemma dropClosingBrace_app s : dropClosingBrace (s +:+ "}") = s.
Proof.
  induction s as [|c s IH]; [reflexivity|].
  change (String c s +:+ "}") with (String c (s +:+ "}")).
  cbn [dropClosingBrace]. destruct (s +:+ "}") eqn:E.
  - destruct s; discriminate.
  - now rewrite IH.
Qed.

Lemma append_assoc (s t u : string) : (s +:+ t) +:+ u = s +:+ (t +:+ u).
Proof.
  induction s as [|c s IH]; [reflexivity|].
  change ((String c s +:+ t) +:+ u) with (String c ((s +:+ t) +:+ u)).
  now rewrite IH.
Qed.

Lemma allChars_lower_no_brace name :
  allChars isAlnum name = true ->
  allChars (fun c => negb (Ascii.eqb c "{")) (toLowerCase name) = true.
Proof.
  induction name as [|c name IH]; [reflexivity|].
  cbn [allChars toLowerCase mapChars].
  intros [Hc Hn]%andb_true_iff.
  destruct (isAlnum_lowerChar c Hc) as [_ ->]. cbn [negb andb]. now apply IH.
Qed.

(** X12: for a component name of letters and digits, the styled-components
    dialect keeps of the scoped block exactly its declarations: the selector
    with its opening brace and the closing brace are removed, whatever the
    declarations hold. *)
Theorem X12_styled_components_keeps_the_declarations
    (styles : Styles) (componentName : string) :
  allChars isAlnum componentName = true ->
  generateStyledComponents (convertToCSSRules styles componentName) componentName
  = "import styled from 'styled-components';" +:+ nl +:+ nl
      +:+ "export const Styled" +:+ componentName +:+ " = styled.div" +:+ bq
      +:+ nl +:+ (nl +:+ declarations styles +:+ nl) +:+ nl +:+ bq +:+ ";".
Proof.
  intros Hname. unfold generateStyledComponents. do 7 f_equal.
  unfold convertToCSSRules. fold (declarations styles).
  change ("." +:+ toLowerCase componentName +:+ " {" +:+ nl
            +:+ declarations styles +:+ nl +:+ "}")
    with (String "." (toLowerCase componentName +:+ String " " (String "{"
            (nl +:+ declarations styles +:+ nl +:+ "}")))).
  cbn [dropSelector]. change (Ascii.eqb "." ".") with true. cbv iota.
  assert (Hsplit :
    toLowerCase componentName +:+ String " " (String "{"
      (nl +:+ declarations styles +:+ nl +:+ "}"))
    = (toLowerCase componentName +:+ " ") +:+ String "{"
        (nl +:+ declarations styles +:+ nl +:+ "}")).
  { now rewrite append_assoc. }
  rewrite Hsplit, afterBrace_first.
  - replace (nonEmpty (toLowerCase componentName +:+ " ")) with true
      by (destruct (toLowerCase componentName); reflexivity).
    cbn [orb]. rewrite <- !append_assoc. rewrite dropClosingBrace_app.
    now rewrite !append_assoc.
  - rewrite allChars_app, (allChars_lower_no_brace _ Hname). reflexivity.
Qed.

End Dialects.

(** X11 (witness) *)
Lemma X11_witness :
  allChars AdvancedCodeGenerator.isClassChar
    (@AdvancedCodeGenerator.generateClassName exampleFormat
       (AdvancedCodeGenerator.new Sample.noTable Sample.reactPlain)
       (Sample.bare "5:1" "Hero  Banner #2" FRAME None)) = true.
Proof.
  apply (@X11_class_name_alphabet exampleFormat
           (AdvancedCodeGenerator.new Sample.noTable Sample.reactPlain)
           (Sample.bare "5:1" "Hero  Banner #2" FRAME None)).
  discriminate.
Defined.

(** X12 (witness) *)
Lemma X12_witness :
  @AdvancedCodeGenerator.generateStyledComponents
    (@AdvancedCodeGenerator.convertToCSSRules exampleFormat
       [("color", SVstr "red")] "Tile")
    "Tile"
  = "import styled from 'styled-components';" +:+ nl +:+ nl
      +:+ "export const StyledTile = styled.div" +:+ bq
      +:+ nl +:+ (nl +:+ "  color: red;" +:+ nl) +:+ nl +:+ bq +:+ ";".
Proof.
  apply (@X12_styled_components_keeps_the_declarations exampleFormat
           [("color", SVstr "red")] "Tile").
  reflexivity.
Defined.


(** ** The analysis of the code-generation hook *)

Lemma preorderAt_nodes n : forall depth,
  map fst (preorderAt depth n) = preorder n.
Proof.
  induction n as [at_ cs IH] using FigmaNode_ind'. intros depth.
  destruct cs as [cs|]; [|reflexivity].
  cbn [preorderAt preorder children attrs map fst]. f_equal.
  induction cs as [|c cs IHcs]; [reflexivity|].
  inversion IH as [|? ? Hc Hcs]; subst.
  rewrite map_app, Hc, IHcs by assumption. reflexivity.
Qed.

Lemma traverse_fold node : forall depth analysis,
  HookAnalysis.traverse node depth analysis
  = fold_left (fun a p => HookAnalysis.visit a (fst p) (snd p))
      (preorderAt depth node) analysis.
Proof.
  induction node as [at_ cs IH] using FigmaNode_ind'. intros depth analysis.
  destruct cs as [cs|]; [|reflexivity].
  cbn [HookAnalysis.traverse preorderAt children attrs fold_left fst snd].
  generalize (HookAnalysis.visit analysis (Node at_ (Some cs)) depth).
  clear analysis.
  induction cs as [|c cs IHcs]; intros analysis; [reflexivity|].
  inversion IH as [|? ? Hc Hcs]; subst.
  rewrite fold_left_app, <- Hc. apply IHcs. assumption.
Qed.

Lemma visitFills_palette node analysis :
  HookAnalysis.visitFills node analysis
  = HookAnalysis.setColorPalette
      (HookAnalysis.colorPalette analysis ++ solidColours node) analysis.
Proof.
  unfold HookAnalysis.visitFills, solidColours.
  assert (Hfold : forall fs a,
    fold_left
      (fun analysis0 fill =>
         match String.eqb (paint_type fill) "SOLID", paint_color fill with
         | true, Some c =>
             HookAnalysis.setColorPalette
               (HookAnalysis.colorPalette analysis0 ++ [c]) analysis0
         | _, _ => analysis0
         end) fs a
    = HookAnalysis.setColorPalette
        (HookAnalysis.colorPalette a ++
           omap (fun fill =>
                   if String.eqb (paint_type fill) "SOLID"
                   then paint_color fill else None) fs) a).
  { induction fs as [|f fs IHfs]; intros a.
    - destruct a; cbn. now rewrite app_nil_r.
    - cbn [fold_left]. rewrite IHfs. destruct a. cbn.
      destruct (String.eqb (paint_type f) "SOLID"), (paint_color f);
        try reflexivity.
      unfold HookAnalysis.setColorPalette; cbn.
      now rewrite <- app_assoc. }
  destruct (fills node) as [[|f fs]|].
  - destruct analysis; cbn. now rewrite app_nil_r.
  - exact (Hfold (f :: fs) analysis).
  - destruct analysis; cbn. now rewrite app_nil_r.
Qed.

(** The blocks of [visit], opened; the block for interactive elements is
    kept closed behind its test. *)
Ltac open_visit :=
  unfold HookAnalysis.visit;
  rewrite visitFills_palette;
  unfold HookAnalysis.visitKind, HookAnalysis.visitInteractive,
    HookAnalysis.visitConstraints, HookAnalysis.visitStyle,
    HookAnalysis.visitComplexity;
  match goal with
  | |- context [existsb ?f ?l] => generalize (existsb f l); intros []
  end.

Lemma visit_hasResponsiveElements a n d :
  HookAnalysis.hasResponsiveElements (HookAnalysis.visit a n d)
  = HookAnalysis.hasResponsiveElements a || horizontallyConstrained n.
Proof.
  open_visit; unfold horizontallyConstrained;
    repeat case_match; cbn; rewrite ?orb_true_r, ?orb_false_r; reflexivity.
Qed.


Lemma visit_colorPalette a n d :
  HookAnalysis.colorPalette (HookAnalysis.visit a n d)
  = HookAnalysis.colorPalette a ++ solidColours n.
Proof. open_visit; repeat case_match; reflexivity. Qed.

Lemma visit_complexity_low a n d :
  HookAnalysis.complexity (HookAnalysis.visit a n d) = HookAnalysis.low
  <-> HookAnalysis.complexity a = HookAnalysis.low
      /\ shallowAndNarrow (n, d) = true.
Proof.
  open_visit; unfold shallowAndNarrow, childList; cbn [fst snd];
  destruct (Nat.ltb_spec 3 d), (Nat.ltb_spec 2 d), (Nat.leb_spec d 2);
    try lia;
    destruct (children n) as [cs|]; cbn [orb andb length];
    try destruct (Nat.ltb_spec 5 (length cs));
    try destruct (Nat.ltb_spec 3 (length cs));
    try destruct (Nat.leb_spec (length cs) 3); try lia;
    repeat case_match; cbn; intuition congruence.
Qed.

(** How a field evolves along the fold over the pre-order. *)
Lemma fold_visit_or (f : HookAnalysis.FigmaAnalysis -> bool)
  (g : FigmaNode -> bool)
  (Hstep : forall a n d, f (HookAnalysis.visit a n d) = f a || g n)
  l : forall a,
  f (fold_left (fun a p => HookAnalysis.visit a (fst p) (snd p)) l a)
  = f a || existsb g (map fst l).
Proof.
  induction l as [|[n d] l IHl]; intros a; cbn [fold_left map existsb fst snd].
  - now rewrite orb_false_r.
  - now rewrite IHl, Hstep, orb_assoc.
Qed.

Lemma existsb_In_iff {A} (g : A -> bool) l :
  existsb g l = true <-> exists x, List.In x l /\ g x = true.
Proof. apply List.existsb_exists. Qed.

(** [countNodes] counts the nodes of the tree, each once. *)
Lemma countNodesOf_preorder node :
  HookAnalysis.countNodesOf node = Z.of_nat (length (preorder node)).
Proof.
  induction node as [at_ cs IH] using FigmaNode_ind'.
  destruct cs as [cs|]; [|reflexivity].
  cbn [HookAnalysis.countNodesOf preorder children attrs length].
  rewrite Nat2Z.inj_succ. unfold Z.succ. rewrite Z.add_comm. f_equal.
  assert (Hsum : forall acc,
    (fix sum (l : list FigmaNode) (acc0 : Z) {struct l} : Z :=
       match l with
       | [] => acc0
       | child :: l' => sum l' (acc0 + HookAnalysis.countNodesOf child)
       end) cs acc
    = acc + Z.of_nat (length
        ((fix go (l : list FigmaNode) : list FigmaNode :=
            match l with
            | [] => []
            | c :: l' => preorder c ++ go l'
            end) cs))).
  { induction cs as [|c cs IHcs]; intros acc; cbn [length].
    - lia.
    - inversion IH as [|? ? Hc Hcs]; subst.
      rewrite IHcs by assumption. rewrite Hc, length_app. lia. }
  rewrite Hsum. lia.
Qed.

(** X17: countNodes counts every node of the document once (the length of
    its pre-order enumeration), so it is at least 1 for a document that is
    there, and 0 for a missing one. *)
Theorem X17_countNodes_is_the_size_of_the_tree :
  HookAnalysis.countNodes None = 0 /\
  forall doc,
    HookAnalysis.countNodes (Some doc) = Z.of_nat (length (preorder doc)) /\
    1 <= HookAnalysis.countNodes (Some doc).
Proof.
  split; [reflexivity|]. intros doc. cbn [HookAnalysis.countNodes].
  rewrite countNodesOf_preorder. split; [reflexivity|].
  destruct doc as [at_ cs]. cbn [preorder length]. lia.
Qed.

(** X18: the hook's analysis reports responsive elements exactly when some
    node of the document carries constraints whose horizontal one is not
    LEFT: the vertical constraint plays no part and a node without
    constraints does not count.  The quality assessment passes the flag on
    as hasResponsiveDesign. *)
Theorem X18_hook_analysis_responsive_flag doc :
  let analysis := HookAnalysis.analyzeFigmaStructure (Some doc) in
  (HookAnalysis.hasResponsiveElements analysis = true <->
   exists n c, List.In n (preorder doc) /\ constraints n = Some c /\
               horizontal c <> "LEFT") /\
  HookAnalysis.quality_hasResponsiveDesign
    (HookAnalysis.assessCodeQuality analysis)
  = HookAnalysis.hasResponsiveElements analysis /\
  HookAnalysis.hasResponsiveElements
    (HookAnalysis.analyzeFigmaStructure None) = false.
Proof.
  cbn zeta. split; [|split; [|reflexivity]].
  - cbn [HookAnalysis.analyzeFigmaStructure]. rewrite traverse_fold.
    rewrite (fold_visit_or _ horizontallyConstrained
               visit_hasResponsiveElements).
    rewrite preorderAt_nodes. cbn [HookAnalysis.initialAnalysis
      HookAnalysis.hasResponsiveElements orb].
    rewrite existsb_In_iff. unfold horizontallyConstrained. split.
    + intros (n & Hin & Hn). destruct (constraints n) as [c|] eqn:Hc;
        [|discriminate].
      exists n, c. repeat split; try assumption.
      intros Heq. rewrite Heq in Hn. discriminate.
    + intros (n & c & Hin & Hc & Hne). exists n. split; [assumption|].
      rewrite Hc. destruct (String.eqb_spec (horizontal c) "LEFT");
        [contradiction|reflexivity].
  - unfold HookAnalysis.assessCodeQuality.
    destruct (HookAnalysis.interactiveElements _); reflexivity.
Qed.

Lemma fold_visit_colorPalette l : forall a,
  HookAnalysis.colorPalette
    (fold_left (fun a p => HookAnalysis.visit a (fst p) (snd p)) l a)
  = HookAnalysis.colorPalette a ++ flat_map solidColours (map fst l).
Proof.
  induction l as [|[n d] l IHl]; intros a;
    cbn [fold_left map flat_map fst snd].
  - now rewrite app_nil_r.
  - now rewrite IHl, visit_colorPalette, <- app_assoc.
Qed.

Lemma fold_visit_complexity_low l : forall a,
  HookAnalysis.complexity
    (fold_left (fun a p => HookAnalysis.visit a (fst p) (snd p)) l a)
  = HookAnalysis.low
  <-> HookAnalysis.complexity a = HookAnalysis.low
      /\ forallb shallowAndNarrow l = true.
Proof.
  induction l as [|[n d] l IHl]; intros a; cbn [fold_left forallb fst snd].
  - tauto.
  - rewrite IHl, visit_complexity_low, andb_true_iff. tauto.
Qed.


(** X20: the colour palette of the hook's analysis is the list of the
    colours of all solid fills of the document, node by node in pre-order
    and fill by fill, with repetitions; it is empty for a missing
    document. *)
Theorem X20_hook_analysis_palette :
  HookAnalysis.colorPalette (HookAnalysis.analyzeFigmaStructure None) = [] /\
  forall doc,
    HookAnalysis.colorPalette (HookAnalysis.analyzeFigmaStructure (Some doc))
    = flat_map solidColours (preorder doc).
Proof.
  split; [reflexivity|]. intros doc.
  cbn [HookAnalysis.analyzeFigmaStructure].
  now rewrite traverse_fold, fold_visit_colorPalette, preorderAt_nodes.
Qed.

(** X21: the hook's analysis rates a document low exactly when every node
    lies at most two levels below the root and has at most three children;
    the root is at depth 0. *)
Theorem X21_hook_analysis_low_complexity doc :
  HookAnalysis.complexity (HookAnalysis.analyzeFigmaStructure (Some doc))
  = HookAnalysis.low
  <-> forall n depth, List.In (n, depth) (preorderAt 0 doc) ->
        (depth <= 2)%nat /\ (length (childList n) <= 3)%nat.
Proof.
  cbn [HookAnalysis.analyzeFigmaStructure]. rewrite traverse_fold.
  rewrite fold_visit_complexity_low.
  cbn [HookAnalysis.initialAnalysis HookAnalysis.complexity].
  rewrite List.forallb_forall. unfold shallowAndNarrow. split.
  - intros [_ H] n depth Hin. specialize (H _ Hin). cbn [fst snd] in H.
    apply andb_true_iff in H. destruct H as [H1 H2].
    apply Nat.leb_le in H1. apply Nat.leb_le in H2. split; assumption.
  - intros H. split; [reflexivity|]. intros [n depth] Hin.
    destruct (H _ _ Hin) as [H1 H2]. cbn [fst snd].
    apply andb_true_iff. split; now apply Nat.leb_le.
Qed.



(** ** The processing phases of the hook *)

(** X23: the reducer of the processing phases keeps the phases themselves:
    every action leaves their number, order, ids and names as they are.
    An action other than a reset whose phaseId is the id of no phase
    changes nothing, a progress action without a progress value changes
    nothing either, and an action of an unknown type is ignored, whatever
    its phaseId. *)
Theorem X23_phasesReducer_keeps_the_phases state action :
  map Phases.phase_id (Phases.phasesReducer state action)
  = map Phases.phase_id state /\
  map Phases.phase_name (Phases.phasesReducer state action)
  = map Phases.phase_name state /\
  (Phases.action_type action <> Phases.reset ->
   (forall p, List.In p state ->
      Qeq_bool (Phases.phase_id p) (Phases.phaseId action) = false) ->
   Phases.phasesReducer state action = state) /\
  (Phases.action_type action = Phases.progress_ ->
   (forall pl, Phases.payload action = Some pl ->
               Phases.payload_progress pl = None) ->
   Phases.phasesReducer state action = state) /\
  (forall type, Phases.action_type action = Phases.other type ->
                Phases.phasesReducer state action = state).
Proof.
  unfold Phases.phasesReducer. repeat split.
  - destruct (Phases.action_type action); try reflexivity;
      rewrite map_map; apply map_ext; intros p;
      try destruct (Qeq_bool _ _); reflexivity.
  - destruct (Phases.action_type action); try reflexivity;
      rewrite map_map; apply map_ext; intros p;
      try destruct (Qeq_bool _ _); reflexivity.
  - intros Hne Hids.
    destruct (Phases.action_type action); try reflexivity;
      try contradiction;
      (rewrite <- (map_id state) at 2; apply map_ext_in; intros p Hin;
       now rewrite (Hids p Hin)).
  - intros -> Hpl.
    rewrite <- (map_id state) at 2. apply map_ext; intros p.
    destruct (Qeq_bool _ _); [|reflexivity].
    destruct (Phases.payload action) as [pl|]; [rewrite (Hpl pl eq_refl)|];
      now destruct p.
  - intros type ->. reflexivity.
Qed.

(** What the updates of one phase of a run amount to. *)
Lemma phase_of_a_run state k :
  Phases.afterUpdate
    (Phases.simulateProgress k
       (Phases.afterUpdate state k
          (Phases.mkPayload (Some Phases.processing) None None)))
    k (Phases.mkPayload (Some Phases.completed) None None)
  = map (fun p =>
           if Qeq_bool (Phases.phase_id p) k
           then Phases.mkPhase (Phases.phase_id p) (Phases.phase_name p)
                  Phases.completed 100%Q (Phases.phase_error p)
           else p) state.
Proof.
  unfold Phases.simulateProgress, Phases.afterUpdate.
  cbn [fold_left Phases.updatePhase Phases.payload_status
       Phases.payload_progress Phases.payload_error].
  unfold Phases.phasesReducer.
  cbn [Phases.action_type Phases.phaseId Phases.payload
       Phases.payload_progress].
  rewrite !map_map. apply map_ext. intros [id name st pr er].
  cbn [Phases.phase_id].
  destruct (Qeq_bool id k) eqn:E;
    repeat (cbn [Phases.phase_id Phases.phase_name Phases.status
                 Phases.progress Phases.phase_error];
            rewrite E); reflexivity.
Qed.

(** X24: the actions of a generation run that meets no exception, applied
    to any list of phases, leave every phase whose id is 1, 2 or 3
    completed at progress 100 and every other phase pending at progress 0,
    all without an error message, whatever the phases were before. *)
Theorem X24_successful_run_completes_the_three_phases state :
  Phases.successfulRun state
  = map (fun p =>
           if Qeq_bool (Phases.phase_id p) 1 ||
              Qeq_bool (Phases.phase_id p) 2 ||
              Qeq_bool (Phases.phase_id p) 3
           then Phases.mkPhase (Phases.phase_id p) (Phases.phase_name p)
                  Phases.completed 100%Q None
           else Phases.mkPhase (Phases.phase_id p) (Phases.phase_name p)
                  Phases.pending 0%Q None) state.
Proof.
  unfold Phases.successfulRun. cbn [fold_left]. cbv zeta.
  rewrite !phase_of_a_run. unfold Phases.phasesReducer.
  cbn [Phases.action_type]. rewrite !map_map. apply map_ext.
  intros [id name st pr er].
  cbn [Phases.phase_id Phases.phase_name Phases.phase_error].
  destruct (Qeq_bool id 1) eqn:E1, (Qeq_bool id 2) eqn:E2,
           (Qeq_bool id 3) eqn:E3;
    repeat (cbn [Phases.phase_id Phases.phase_name Phases.status
                 Phases.progress Phases.phase_error];
            rewrite ?E1, ?E2, ?E3); reflexivity.
Qed.


(** ** Figma URLs and API keys *)

Lemma stripPrefix_Some p : forall s r,
  stripPrefix p s = Some r -> s = p +:+ r.
Proof.
  induction p as [|a p IHp]; intros s r H.
  - cbn in H. now injection H as ->.
  - destruct s as [|c s]; [discriminate|]. cbn in H.
    destruct (Ascii.eqb_spec a c) as [->|]; [|discriminate].
    change (String c p +:+ r) with (String c (p +:+ r)).
    f_equal. now apply IHp.
Qed.

Lemma stripPrefix_app p : forall s, stripPrefix p (p +:+ s) = Some s.
Proof.
  induction p as [|a p IHp]; intros s; [reflexivity|].
  change (String a p +:+ s) with (String a (p +:+ s)). cbn.
  now rewrite Ascii.eqb_refl.
Qed.

Lemma stripPrefix_startsWith p : forall s,
  startsWith p s = bool_decide (stripPrefix p s <> None).
Proof.
  induction p as [|a p IHp]; intros s; [reflexivity|].
  destruct s as [|c s]; [reflexivity|]. cbn.
  destruct (Ascii.eqb a c); [apply IHp|reflexivity].
Qed.

Lemma allChars_takeWhile p s : allChars p (takeWhile p s) = true.
Proof.
  induction s as [|c s IHs]; [reflexivity|]. cbn.
  destruct (p c) eqn:E; [|reflexivity]. cbn. now rewrite E.
Qed.

Lemma takeWhile_split p s :
  exists post, s = takeWhile p s +:+ post /\ takeWhile p post = "".
Proof.
  induction s as [|c s IHs].
  - exists "". split; reflexivity.
  - cbn. destruct (p c) eqn:E.
    + destruct IHs as (post & Hs & Hp). exists post. split; [|assumption].
      change (String c (takeWhile p s) +:+ post)
        with (String c (takeWhile p s +:+ post)).
      now rewrite <- Hs.
    + exists (String c s). split; [reflexivity|]. cbn. now rewrite E.
Qed.

Lemma fileKeyAt_Some s key :
  Urls.fileKeyAt s = Some key ->
  nonEmpty key = true /\ allChars isAlnum key = true /\
  exists sep post,
    (sep = "/file/" \/ sep = "/design/") /\
    s = sep +:+ key +:+ post /\ takeWhile isAlnum post = "".
Proof.
  unfold Urls.fileKeyAt.
  assert (Halt : forall word,
    match stripPrefix ("/" +:+ word +:+ "/") s with
    | Some rest =>
        let key := takeWhile isAlnum rest in
        if nonEmpty key then Some key else None
    | None => None
    end = Some key ->
    nonEmpty key = true /\ allChars isAlnum key = true /\
    exists post, s = ("/" +:+ word +:+ "/") +:+ key +:+ post /\
                 takeWhile isAlnum post = "").
  { intros word H.
    destruct (stripPrefix _ s) as [rest|] eqn:Hs; [|discriminate].
    cbn zeta in H.
    destruct (nonEmpty (takeWhile isAlnum rest)) eqn:Hn; [|discriminate].
    injection H as <-. split; [assumption|].
    split; [apply allChars_takeWhile|].
    destruct (takeWhile_split isAlnum rest) as (post & Hr & Hp).
    exists post. split; [|assumption].
    apply stripPrefix_Some in Hs. now rewrite <- Hr. }
  cbn zeta. intros H.
  destruct (match stripPrefix ("/" +:+ "file" +:+ "/") s with
            | Some rest =>
                let key := takeWhile isAlnum rest in
                if nonEmpty key then Some key else None
            | None => None
            end) as [k|] eqn:Hfile.
  - injection H as ->. destruct (Halt _ Hfile) as (Hn & Ha & post & Hs & Hp).
    repeat split; try assumption. exists "/file/", post. auto.
  - destruct (Halt _ H) as (Hn & Ha & post & Hs & Hp).
    repeat split; try assumption. exists "/design/", post. auto.
Qed.

Lemma fileKeyMatch_hit s key :
  Urls.fileKeyAt s = Some key -> Urls.fileKeyMatch s = Some key.
Proof. intros H. destruct s; cbn [Urls.fileKeyMatch]; now rewrite H. Qed.

Lemma fileKeyMatch_skip a s :
  Urls.fileKeyAt (String a s) = None ->
  Urls.fileKeyMatch (String a s) = Urls.fileKeyMatch s.
Proof. intros H. cbn [Urls.fileKeyMatch]. now rewrite H. Qed.

Lemma fileKeyMatch_Some s : forall key,
  Urls.fileKeyMatch s = Some key ->
  nonEmpty key = true /\ allChars isAlnum key = true /\
  exists pre sep post,
    (sep = "/file/" \/ sep = "/design/") /\
    s = pre +:+ sep +:+ key +:+ post /\ takeWhile isAlnum post = "".
Proof.
  induction s as [|a s IHs]; intros key H.
  - discriminate.
  - cbn [Urls.fileKeyMatch] in H.
    destruct (Urls.fileKeyAt (String a s)) as [k|] eqn:Hat.
    + injection H as ->.
      destruct (fileKeyAt_Some _ _ Hat) as (Hn & Ha & sep & post & Hsep & Hs & Hp).
      repeat split; try assumption. exists "", sep, post. auto.
    + destruct (IHs _ H) as (Hn & Ha & pre & sep & post & Hsep & Hs & Hp).
      repeat split; try assumption.
      exists (String a pre), sep, post. repeat split; try assumption.
      change (String a pre +:+ sep +:+ key +:+ post)
        with (String a (pre +:+ sep +:+ key +:+ post)).
      now rewrite <- Hs.
Qed.

(** X26: a file key that is extracted from a URL is never empty, consists
    of letters and digits only, and stands in the URL right after /file/
    or /design/ up to the first character that is no letter or digit. *)
Theorem X26_extracted_file_key url key :
  Urls.extractFileKeyFromUrl url = Some key ->
  nonEmpty key = true /\ allChars isAlnum key = true /\
  exists pre sep post,
    (sep = "/file/" \/ sep = "/design/") /\
    url = pre +:+ sep +:+ key +:+ post /\ takeWhile isAlnum post = "".
Proof.
  unfold Urls.extractFileKeyFromUrl. intros H. apply fileKeyMatch_Some.
  now destruct (Urls.fileKeyMatch url).
Qed.

Lemma X26_witness :
  nonEmpty "AbC123" = true /\ allChars isAlnum "AbC123" = true /\
  exists pre sep post,
    (sep = "/file/" \/ sep = "/design/") /\
    "https://www.figma.com/design/AbC123/Landing-page?node-id=0-1"
    = pre +:+ sep +:+ "AbC123" +:+ post /\ takeWhile isAlnum post = "".
Proof.
  apply (X26_extracted_file_key
           "https://www.figma.com/design/AbC123/Landing-page?node-id=0-1"
           "AbC123").
  reflexivity.
Defined.

Lemma nonEmpty_takeWhile p s :
  nonEmpty (takeWhile p s) = true ->
  exists c r, s = String c r /\ p c = true.
Proof.
  destruct s as [|c r]; [discriminate|]. cbn.
  destruct (p c) eqn:E; [|discriminate]. intros _. now exists c, r.
Qed.

Lemma validateFigmaUrl_shape url :
  Urls.validateFigmaUrl url = true ->
  exists www word c r,
    (www = "" \/ www = "www.") /\ (word = "file/" \/ word = "design/") /\
    isAlnum c = true /\
    url = "https://" +:+ www +:+ "figma.com/" +:+ word +:+ String c r.
Proof.
  unfold Urls.validateFigmaUrl.
  destruct (stripPrefix "https://" url) as [rest|] eqn:Hs; [|discriminate].
  apply stripPrefix_Some in Hs. subst url. cbn zeta.
  assert (Hhost : forall rest0,
    match stripPrefix "figma.com/" rest0 with
    | Some rest1 =>
        match stripPrefix ("file" +:+ "/") rest1 with
        | Some rest2 => nonEmpty (takeWhile isAlnum rest2)
        | None => false
        end
        || match stripPrefix ("design" +:+ "/") rest1 with
           | Some rest2 => nonEmpty (takeWhile isAlnum rest2)
           | None => false
           end
    | None => false
    end = true ->
    exists word c r,
      (word = "file/" \/ word = "design/") /\ isAlnum c = true /\
      rest0 = "figma.com/" +:+ word +:+ String c r).
  { intros rest0 H.
    destruct (stripPrefix "figma.com/" rest0) as [rest1|] eqn:H1;
      [|discriminate].
    apply stripPrefix_Some in H1. subst rest0.
    apply orb_true_iff in H. destruct H as [H|H].
    - destruct (stripPrefix _ rest1) as [rest2|] eqn:H2; [|discriminate].
      apply stripPrefix_Some in H2. subst rest1.
      apply nonEmpty_takeWhile in H. destruct H as (c & r & -> & Hc).
      exists "file/", c, r. auto.
    - destruct (stripPrefix _ rest1) as [rest2|] eqn:H2; [|discriminate].
      apply stripPrefix_Some in H2. subst rest1.
      apply nonEmpty_takeWhile in H. destruct H as (c & r & -> & Hc).
      exists "design/", c, r. auto. }
  intros H.
  destruct (stripPrefix "www." rest) as [rest'|] eqn:Hw.
  - apply orb_true_iff in H. destruct H as [H|H].
    + apply stripPrefix_Some in Hw. subst rest.
      destruct (Hhost _ H) as (word & c & r & Hword & Hc & ->).
      exists "www.", word, c, r. auto.
    + destruct (Hhost _ H) as (word & c & r & Hword & Hc & ->).
      exists "", word, c, r. auto.
  - destruct (Hhost _ H) as (word & c & r & Hword & Hc & ->).
    exists "", word, c, r. auto.
Qed.

Lemma fileKeyAt_file c r :
  isAlnum c = true ->
  Urls.fileKeyAt (String "/" (String "f" (String "i" (String "l"
     (String "e" (String "/" (String c r)))))))
  = Some (String c (takeWhile isAlnum r)).
Proof.
  intros Hc. unfold Urls.fileKeyAt. cbv [String.append].
  cbn -[isAlnum]. now rewrite Hc.
Qed.

Lemma fileKeyAt_design c r :
  isAlnum c = true ->
  Urls.fileKeyAt (String "/" (String "d" (String "e" (String "s"
     (String "i" (String "g" (String "n" (String "/" (String c r)))))))))
  = Some (String c (takeWhile isAlnum r)).
Proof.
  intros Hc. unfold Urls.fileKeyAt. cbv [String.append].
  cbn -[isAlnum]. now rewrite Hc.
Qed.

(** X25: a URL that validateFigmaUrl accepts always yields a file key:
    extractFileKeyFromUrl does not return null on it, the extractor of the
    API client does not throw on it and returns the same key, and the key
    is not empty and consists of letters and digits. *)
Theorem X25_valid_url_has_a_file_key url :
  Urls.validateFigmaUrl url = true ->
  exists key,
    Urls.extractFileKeyFromUrl url = Some key /\
    Urls.extractFileKey url = inr key /\
    nonEmpty key = true /\ allChars isAlnum key = true.
Proof.
  intros H.
  assert (Hm : exists key, Urls.fileKeyMatch url = Some key).
  { destruct (validateFigmaUrl_shape _ H)
      as (www & word & c & r & Hwww & Hword & Hc & ->).
    exists (String c (takeWhile isAlnum r)).
    destruct Hwww as [-> | ->], Hword as [-> | ->];
      cbv [String.append];
      repeat (rewrite fileKeyMatch_skip by reflexivity);
      apply fileKeyMatch_hit;
      first [now apply fileKeyAt_file | now apply fileKeyAt_design]. }
  destruct Hm as (key & Hm). exists key.
  unfold Urls.extractFileKeyFromUrl, Urls.extractFileKey. rewrite Hm.
  destruct (fileKeyMatch_Some _ _ Hm) as (Hn & Ha & _). auto.
Qed.

Lemma X25_witness :
  exists key,
    Urls.extractFileKeyFromUrl "https://figma.com/file/k9Zx2/Home" = Some key /\
    Urls.extractFileKey "https://figma.com/file/k9Zx2/Home" = inr key /\
    nonEmpty key = true /\ allChars isAlnum key = true.
Proof.
  apply (X25_valid_url_has_a_file_key "https://figma.com/file/k9Zx2/Home").
  reflexivity.
Defined.

(** X27: the API client and the helper disagree about API keys in one
    direction only: every key the client's validateApiKey accepts starts
    with figd_, has at least six characters and is accepted by the
    helper's validateFigmaApiKey as well. *)
Theorem X27_client_key_check_is_the_stricter_one apiKey :
  Urls.validateApiKey apiKey = true ->
  Urls.validateFigmaApiKey apiKey = true /\
  startsWith "figd_" apiKey = true /\
  (6 <= String.length apiKey)%nat.
Proof.
  unfold Urls.validateApiKey, Urls.validateFigmaApiKey. intros H.
  destruct (stripPrefix "figd_" apiKey) as [rest|] eqn:Hs; [|discriminate].
  apply andb_true_iff in H. destruct H as [Hn _].
  apply stripPrefix_Some in Hs. subst apiKey.
  rewrite startsWith_app. repeat split.
  destruct rest; [discriminate|]. cbv [String.append].
  cbn [String.length]. lia.
Qed.

Lemma X27_witness :
  Urls.validateFigmaApiKey "figd_Ab-9_x" = true /\
  startsWith "figd_" "figd_Ab-9_x" = true /\
  (6 <= String.length "figd_Ab-9_x")%nat.
Proof.
  apply (X27_client_key_check_is_the_stricter_one "figd_Ab-9_x").
  reflexivity.
Defined.


(** ** The document parser *)

Section ParserProperties.
Context `{NumberFormat}.

Let generationTimeOf (c : GeneratedComponent) : Z := generationTime (metadata c).

(** What the parser adds for the nodes it selects, starting at a clock. *)
Let added (nodes : list FigmaNode) (clock : Clock)
  (new : list GeneratedComponent) : Prop :=
  map gc_id new = map (fun n : FigmaNode => node_id n) nodes /\
  map gc_name new
  = map (fun n : FigmaNode =>
           AdvancedCodeGenerator.sanitizeComponentName (node_name n)) nodes /\
  map generationTimeOf new
  = map (readings clock) (seq (ticks clock) (length nodes)).

Lemma added_app nodes1 nodes2 clock new1 new2 :
  added nodes1 clock new1 ->
  added nodes2 (mkClock (readings clock) (ticks clock + length new1)) new2 ->
  added (nodes1 ++ nodes2) clock (new1 ++ new2).
Proof.
  unfold added. intros (Hi1 & Hn1 & Ht1) (Hi2 & Hn2 & Ht2).
  assert (Hlen : length new1 = length nodes1).
  { rewrite <- (length_map gc_id new1), Hi1. apply length_map. }
  rewrite !map_app, Hi1, Hi2, Hn1, Hn2, Ht1, Ht2.
  repeat split. cbn [readings ticks].
  rewrite length_app, seq_app, map_app, Hlen. reflexivity.
Qed.

Lemma added_length nodes clock new :
  added nodes clock new -> length new = length nodes.
Proof.
  intros (Hi & _). rewrite <- (length_map gc_id new), Hi. apply length_map.
Qed.

Lemma traverseNode_spec node : forall components clock,
  exists new,
    FigmaParser.traverseNode node components clock
    = (Ok (components ++ new),
       mkClock (readings clock) (ticks clock + length new)) /\
    added (List.filter FigmaParser.shouldGenerateComponent (preorder node))
      clock new.
Proof.
  induction node as [at_ cs IH] using FigmaNode_ind'.
  intros components clock.
  set (node := Node at_ cs).
  assert (Hhere : exists new1,
    (if FigmaParser.shouldGenerateComponent node
     then
       component <- FigmaParser.nodeToComponent node ;;
       match component with
       | Some c => ret (components ++ [c])
       | None => ret components
       end
     else ret components) clock
    = (Ok (components ++ new1),
       mkClock (readings clock) (ticks clock + length new1)) /\
    added (if FigmaParser.shouldGenerateComponent node then [node] else [])
      clock new1).
  { destruct (FigmaParser.shouldGenerateComponent node).
    - cbv beta iota zeta delta
        [bind ret FigmaParser.nodeToComponent Date_now].
      eexists [_]. split.
      + cbn [length]. now rewrite Nat.add_1_r.
      + repeat split.
    - exists []. split.
      + unfold ret. rewrite app_nil_r, Nat.add_0_r. now destruct clock.
      + repeat split. }
  destruct Hhere as (new1 & Hrun1 & Hadd1).
  assert (Hkids : forall l, Forall
      (fun n => forall components clock, exists new,
         FigmaParser.traverseNode n components clock
         = (Ok (components ++ new),
            mkClock (readings clock) (ticks clock + length new)) /\
         added (List.filter FigmaParser.shouldGenerateComponent (preorder n))
           clock new) l ->
    forall components clock, exists new,
      (fix each (l0 : list FigmaNode)
         (components0 : list GeneratedComponent) (clock0 : Clock)
         {struct l0} : Result (list GeneratedComponent) * Clock :=
         match l0 with
         | [] => (Ok components0, clock0)
         | child :: l' =>
             match FigmaParser.traverseNode child components0 clock0 with
             | (Ok components1, clock1) => each l' components1 clock1
             | (Throw e, clock1) => (Throw e, clock1)
             end
         end) l components clock
      = (Ok (components ++ new),
         mkClock (readings clock) (ticks clock + length new)) /\
      added (List.filter FigmaParser.shouldGenerateComponent
               ((fix go (l0 : list FigmaNode) : list FigmaNode :=
                   match l0 with
                   | [] => []
                   | c :: l' => preorder c ++ go l'
                   end) l))
        clock new).
  { clear. induction l as [|c l IHl]; intros Hall components clock.
    - exists []. split.
      + rewrite app_nil_r, Nat.add_0_r. now destruct clock.
      + repeat split.
    - inversion Hall as [|? ? Hc Hl]; subst.
      destruct (Hc components clock) as (newc & Hrunc & Haddc).
      rewrite Hrunc.
      destruct (IHl Hl (components ++ newc)
                  (mkClock (readings clock) (ticks clock + length newc)))
        as (newl & Hrunl & Haddl).
      rewrite Hrunl. exists (newc ++ newl). split.
      + cbn [readings ticks].
        now rewrite <- app_assoc, length_app, Nat.add_assoc.
      + rewrite List.filter_app. now apply added_app. }
  destruct cs as [cs|].
  - change (FigmaParser.traverseNode node components clock)
      with (match (if FigmaParser.shouldGenerateComponent node
                   then
                     component <- FigmaParser.nodeToComponent node ;;
                     match component with
                     | Some c => ret (components ++ [c])
                     | None => ret components
                     end
                   else ret components) clock
            with
            | (Ok components1, clock1) =>
                (fix each (l0 : list FigmaNode)
                   (components0 : list GeneratedComponent) (clock0 : Clock)
                   {struct l0} : Result (list GeneratedComponent) * Clock :=
                   match l0 with
                   | [] => (Ok components0, clock0)
                   | child :: l' =>
                       match FigmaParser.traverseNode child components0 clock0
                       with
                       | (Ok components2, clock2) => each l' components2 clock2
                       | (Throw e, clock2) => (Throw e, clock2)
                       end
                   end) cs components1 clock1
            | (Throw e, clock1) => (Throw e, clock1)
            end).
    rewrite Hrun1.
    destruct (Hkids cs IH (components ++ new1)
                (mkClock (readings clock) (ticks clock + length new1)))
      as (new2 & Hrun2 & Hadd2).
    rewrite Hrun2. exists (new1 ++ new2). split.
    + cbn [readings ticks].
      now rewrite <- app_assoc, length_app, Nat.add_assoc.
    + change (preorder node)
        with (node ::
              (fix go (l0 : list FigmaNode) : list FigmaNode :=
                 match l0 with
                 | [] => []
                 | c :: l' => preorder c ++ go l'
                 end) cs).
      cbn [List.filter].
      match goal with
      | |- added (if ?b then ?x :: ?rest else ?rest) _ _ =>
          replace (if b then x :: rest else rest)
            with ((if b then [x] else []) ++ rest)
            by (destruct b; reflexivity)
      end.
      now apply added_app.
  - change (FigmaParser.traverseNode node components clock)
      with (match (if FigmaParser.shouldGenerateComponent node
                   then
                     component <- FigmaParser.nodeToComponent node ;;
                     match component with
                     | Some c => ret (components ++ [c])
                     | None => ret components
                     end
                   else ret components) clock
            with
            | (Ok components1, clock1) => (Ok components1, clock1)
            | (Throw e, clock1) => (Throw e, clock1)
            end).
    rewrite Hrun1. exists new1. split; [reflexivity|].
    change (preorder node) with [node]. cbn [List.filter]. exact Hadd1.
Qed.

Lemma forEach_traverseNode_spec l : forall components clock,
  exists new,
    forEachM (fun components child =>
                FigmaParser.traverseNode child components) l components clock
    = (Ok (components ++ new),
       mkClock (readings clock) (ticks clock + length new)) /\
    added (List.filter FigmaParser.shouldGenerateComponent
             (flat_map preorder l)) clock new.
Proof.
  induction l as [|c l IHl]; intros components clock.
  - exists []. split.
    + cbn. unfold ret. rewrite app_nil_r, Nat.add_0_r. now destruct clock.
    + repeat split.
  - cbn [forEachM flat_map]. unfold bind at 1.
    destruct (traverseNode_spec c components clock) as (newc & Hrunc & Haddc).
    rewrite Hrunc.
    destruct (IHl (components ++ newc)
                (mkClock (readings clock) (ticks clock + length newc)))
      as (newl & Hrunl & Haddl).
    rewrite Hrunl. exists (newc ++ newl). split.
    + cbn [readings ticks].
      now rewrite <- app_assoc, length_app, Nat.add_assoc.
    + rewrite List.filter_app. now apply added_app.
Qed.

(** X28: the document parser never fails and produces one component for
    every node below the canvases that is a FRAME, a COMPONENT, a
    COMPONENT_SET or a RECTANGLE with at least one child, in pre-order and
    nested ones included; the document and the canvases themselves never
    become components.  Each component carries the id and the sanitized
    name of its node, and its generationTime is the clock reading taken
    when it was built (a point in time, not a duration); the clock is read
    once per component. *)
Theorem X28_parser_components figmaData clock :
  let selected :=
    List.filter FigmaParser.shouldGenerateComponent (belowCanvases figmaData) in
  exists components,
    FigmaParser.parseFigmaDocument figmaData clock
    = (Ok components,
       mkClock (readings clock) (ticks clock + length selected)) /\
    map gc_id components = map (fun n : FigmaNode => node_id n) selected /\
    map gc_name components
    = map (fun n : FigmaNode =>
             AdvancedCodeGenerator.sanitizeComponentName (node_name n))
        selected /\
    map (fun c => generationTime (metadata c)) components
    = map (readings clock) (seq (ticks clock) (length selected)).
Proof.
  cbn zeta. unfold FigmaParser.parseFigmaDocument, belowCanvases, childList.
  assert (Hcanvases : forall canvases components clock0,
    exists new,
      forEachM
        (fun components0 canvas =>
           match children canvas with
           | Some cs =>
               forEachM (fun components1 child =>
                           FigmaParser.traverseNode child components1)
                 cs components0
           | None => ret components0
           end) canvases components clock0
      = (Ok (components ++ new),
         mkClock (readings clock0) (ticks clock0 + length new)) /\
      added (List.filter FigmaParser.shouldGenerateComponent
               (flat_map preorder
                  (flat_map (fun n : FigmaNode =>
                               match children n with
                               | Some cs => cs
                               | None => []
                               end) canvases)))
        clock0 new).
  { induction canvases as [|canvas canvases IHc]; intros components clock0.
    - exists []. split.
      + cbn. unfold ret. rewrite app_nil_r, Nat.add_0_r. now destruct clock0.
      + repeat split.
    - cbn [forEachM flat_map]. unfold bind at 1.
      assert (Hone : exists new1,
        match children canvas with
        | Some cs =>
            forEachM (fun components1 child =>
                        FigmaParser.traverseNode child components1)
              cs components
        | None => ret components
        end clock0
        = (Ok (components ++ new1),
           mkClock (readings clock0) (ticks clock0 + length new1)) /\
        added (List.filter FigmaParser.shouldGenerateComponent
                 (flat_map preorder
                    match children canvas with
                    | Some cs => cs
                    | None => []
                    end)) clock0 new1).
      { destruct (children canvas) as [cs|].
        - apply forEach_traverseNode_spec.
        - exists []. split.
          + unfold ret. rewrite app_nil_r, Nat.add_0_r. now destruct clock0.
          + repeat split. }
      destruct Hone as (new1 & Hrun1 & Hadd1). rewrite Hrun1.
      destruct (IHc (components ++ new1)
                  (mkClock (readings clock0) (ticks clock0 + length new1)))
        as (new2 & Hrun2 & Hadd2).
      rewrite Hrun2. exists (new1 ++ new2). split.
      + cbn [readings ticks].
        now rewrite <- app_assoc, length_app, Nat.add_assoc.
      + rewrite flat_map_app, List.filter_app. now apply added_app. }
  destruct (children (document figmaData)) as [canvases|].
  - destruct (Hcanvases canvases [] clock) as (new & Hrun & Hadd).
    exists new. rewrite Hrun, (added_length _ _ _ Hadd).
    split; [reflexivity|]. exact Hadd.
  - exists []. cbn. unfold ret. rewrite Nat.add_0_r.
    split; [now destruct clock|]. repeat split.
Qed.

(** X29: the markup and the stylesheet the parser writes for a node look
    one level down and no further: they are the same for the node with
    everything below its children cut off, so grandchildren are never
    rendered. *)
Theorem X29_parser_markup_is_one_level_deep node :
  FigmaParser.generateJSX (oneLevel node) = FigmaParser.generateJSX node /\
  FigmaParser.generateCSS (oneLevel node) = FigmaParser.generateCSS node.
Proof.
  destruct node as [at_ cs]. split; [|reflexivity].
  unfold FigmaParser.generateJSX.
  assert (Hc : FigmaParser.generateChildren (oneLevel (Node at_ cs))
               = FigmaParser.generateChildren (Node at_ cs)).
  { unfold FigmaParser.generateChildren.
    destruct cs as [[|c cs]|]; try reflexivity.
    cbn [oneLevel option_map children map].
    f_equal. f_equal.
    rewrite map_map. apply map_ext. reflexivity. }
  rewrite Hc. reflexivity.
Qed.

End ParserProperties.


(** ** Design tokens *)

Lemma setAdd_In t x l :
  List.In t (StyleTokens.setAdd x l) <-> List.In t l \/ t = x.
Proof.
  unfold StyleTokens.setAdd.
  destruct (existsb (String.eqb x) l) eqn:E.
  - split; [tauto|]. intros [Hin| ->]; [assumption|].
    apply List.existsb_exists in E. destruct E as (y & Hy & Heq).
    apply String.eqb_eq in Heq. now subst y.
  - rewrite List.in_app_iff. cbn. intuition.
Qed.

Lemma setAdd_NoDup x l : NoDup l -> NoDup (StyleTokens.setAdd x l).
Proof.
  unfold StyleTokens.setAdd. intros Hl.
  destruct (existsb (String.eqb x) l) eqn:E; [assumption|].
  apply NoDup_app. split; [assumption|]. split; [|apply NoDup_singleton].
  intros y Hy Hx. apply list_elem_of_singleton in Hx. subst y.
  apply list_elem_of_In in Hy.
  assert (Ht : existsb (String.eqb x) l = true).
  { apply List.existsb_exists. exists x. split; [assumption|].
    apply String.eqb_refl. }
  congruence.
Qed.

Lemma visibleSolid_Some fill color :
  visibleSolid fill = Some color <->
  paint_type fill = "SOLID" /\ paint_color fill = Some color /\
  exists alpha, a color = Some alpha /\ (0 < alpha)%Q.
Proof.
  unfold visibleSolid, gtb, ltb.
  destruct (String.eqb_spec (paint_type fill) "SOLID") as [Ht|Ht].
  - destruct (paint_color fill) as [c|].
    + destruct (a c) as [alpha|] eqn:Ha.
      * destruct (Qle_bool alpha 0) eqn:Hle; cbn [negb].
        -- split; [discriminate|]. intros (_ & Hc & al & Hal & Hpos).
           injection Hc as <-. rewrite Ha in Hal. injection Hal as <-.
           apply Qle_bool_iff in Hle. exfalso. now apply (Qlt_not_le 0 alpha).
        -- split.
           ++ intros Hc. injection Hc as <-. repeat split; try assumption.
              exists alpha. split; [assumption|].
              apply Qnot_le_lt. intros Hle'. apply Qle_bool_iff in Hle'.
              congruence.
           ++ intros (_ & Hc & _). assumption.
      * split; [discriminate|]. intros (_ & Hc & al & Hal & _).
        injection Hc as <-. congruence.
    + split; [discriminate|]. intros (_ & Hc & _). discriminate.
  - split; [discriminate|]. intros (Ht' & _). contradiction.
Qed.

Section TokenProperties.
Context `{NumberFormat}.

Let tokensOf (n : FigmaNode) : list Color :=
  match fills n with
  | Some fs => omap visibleSolid fs
  | None => []
  end.

Let addColour (set : list string) (color : Color) : list string :=
  StyleTokens.setAdd (StyleTokens.hexColor color) set.

Lemma addFills_colors fs : forall styles,
  StyleTokens.colors (StyleTokens.addFills fs styles)
  = fold_left addColour (omap visibleSolid fs) (StyleTokens.colors styles).
Proof.
  unfold StyleTokens.addFills.
  induction fs as [|f fs IHfs]; intros styles; [reflexivity|].
  cbn [fold_left]. rewrite IHfs. cbn. unfold visibleSolid.
  destruct (String.eqb (paint_type f) "SOLID"); [|reflexivity].
  destruct (paint_color f) as [c|]; [|reflexivity].
  destruct (a c) as [alpha|]; [|reflexivity].
  destruct (gtb alpha 0); reflexivity.
Qed.

Lemma addNode_colors styles n :
  StyleTokens.colors (StyleTokens.addNode styles n)
  = fold_left addColour (tokensOf n) (StyleTokens.colors styles).
Proof.
  unfold StyleTokens.addNode, tokensOf.
  assert (Hsecond : forall s,
    StyleTokens.colors
      match isTEXT n, style n with
      | true, Some st =>
          if negb (StyleTokens.mapHas
                     (fontFamily st +:+ "-" +:+ showOpt (fontWeight st)
                      +:+ "-" +:+ Number_toString (fontSize st) +:+ "-"
                      +:+ match lineHeightPx st with
                          | Some l =>
                              if truthyNum l then Number_toString l
                              else "auto"
                          | None => "auto"
                          end)
                     (StyleTokens.typography s))
          then
            StyleTokens.mkExtracted (StyleTokens.colors s)
              (StyleTokens.typography s ++
                 [(fontFamily st +:+ "-" +:+ showOpt (fontWeight st)
                   +:+ "-" +:+ Number_toString (fontSize st) +:+ "-"
                   +:+ match lineHeightPx st with
                       | Some l =>
                           if truthyNum l then Number_toString l
                           else "auto"
                       | None => "auto"
                       end,
                   StyleTokens.mkToken (fontFamily st) (fontWeight st)
                     (fontSize st)
                     match lineHeightPx st with
                     | Some l =>
                         if truthyNum l then Number_toString l +:+ "px"
                         else "normal"
                     | None => "normal"
                     end)])
          else s
      | _, _ => s
      end = StyleTokens.colors s).
  { intros s. destruct (isTEXT n); [|reflexivity].
    destruct (style n) as [st|]; [|reflexivity].
    destruct (negb _); reflexivity. }
  cbv zeta. rewrite Hsecond.
  destruct (fills n) as [fs|]; [apply addFills_colors|reflexivity].
Qed.

Lemma extractStyles_fold node : forall styles,
  StyleTokens.extractStyles node styles
  = fold_left StyleTokens.addNode (preorder node) styles.
Proof.
  induction node as [at_ cs IH] using FigmaNode_ind'. intros styles.
  destruct cs as [cs|]; [|reflexivity].
  cbn [StyleTokens.extractStyles preorder children attrs fold_left].
  generalize (StyleTokens.addNode styles (Node at_ (Some cs))).
  clear styles.
  induction cs as [|c cs IHcs]; intros styles; [reflexivity|].
  inversion IH as [|? ? Hc Hcs]; subst.
  rewrite fold_left_app, <- Hc. apply IHcs. assumption.
Qed.

Lemma fold_addNode_colors nodes : forall styles,
  StyleTokens.colors (fold_left StyleTokens.addNode nodes styles)
  = fold_left addColour (flat_map tokensOf nodes) (StyleTokens.colors styles).
Proof.
  induction nodes as [|n nodes IHn]; intros styles; [reflexivity|].
  cbn [fold_left flat_map]. now rewrite IHn, addNode_colors, fold_left_app.
Qed.

Lemma fold_addColour_spec cols : forall set,
  NoDup set ->
  NoDup (fold_left addColour cols set) /\
  forall t, List.In t (fold_left addColour cols set) <->
            List.In t set \/
            exists color, List.In color cols /\ t = StyleTokens.hexColor color.
Proof.
  induction cols as [|c cols IHc]; intros set Hset; cbn [fold_left].
  - split; [assumption|]. intros t. split; [tauto|].
    intros [Hin|(color & [] & _)]. assumption.
  - destruct (IHc (addColour set c)) as (Hnd & Hin).
    { now apply setAdd_NoDup. }
    split; [assumption|]. intros t. rewrite Hin. unfold addColour at 1.
    rewrite setAdd_In. split.
    + intros [[Ht| ->]|(color & Hcol & ->)]; [tauto| |].
      * right. exists c. split; [now left|reflexivity].
      * right. exists color. split; [now right|reflexivity].
    + intros [Ht|(color & [<-|Hcol] & ->)]; [tauto|tauto|].
      right. now exists color.
Qed.

(** X30: the colour tokens extracted from a tree are pairwise different,
    and a token is among them exactly when some node of the tree has a
    solid fill whose colour has an alpha channel above zero and prints as
    that token.  A solid fill without an alpha channel, or with alpha
    zero, contributes nothing. *)
Theorem X30_extracted_colour_tokens node :
  let result := StyleTokens.extractStyles node StyleTokens.noStyles in
  NoDup (StyleTokens.colors result) /\
  forall t,
    List.In t (StyleTokens.colors result) <->
    exists n fs fill color alpha,
      List.In n (preorder node) /\ fills n = Some fs /\ List.In fill fs /\
      paint_type fill = "SOLID" /\ paint_color fill = Some color /\
      a color = Some alpha /\ (0 < alpha)%Q /\
      t = StyleTokens.hexColor color.
Proof.
  cbn zeta. rewrite extractStyles_fold, fold_addNode_colors.
  cbn [StyleTokens.noStyles StyleTokens.colors].
  destruct (fold_addColour_spec (flat_map tokensOf (preorder node)) [])
    as (Hnd & Hin); [apply NoDup_nil_2|].
  split; [assumption|]. intros t. rewrite Hin. split.
  - intros [[]|(color & Hcol & ->)].
    apply List.in_flat_map in Hcol. destruct Hcol as (n & Hn & Hcol).
    unfold tokensOf in Hcol. destruct (fills n) as [fs|] eqn:Hf; [|destruct Hcol].
    apply list_elem_of_In, list_elem_of_omap in Hcol.
    destruct Hcol as (fill & Hfill & Hvis).
    apply list_elem_of_In in Hfill.
    apply visibleSolid_Some in Hvis.
    destruct Hvis as (Ht & Hc & alpha & Ha & Hpos).
    exists n, fs, fill, color, alpha. repeat split; assumption.
  - intros (n & fs & fill & color & alpha & Hn & Hf & Hfill & Ht & Hc & Ha
            & Hpos & ->).
    right. exists color. split; [|reflexivity].
    apply List.in_flat_map. exists n. split; [assumption|].
    unfold tokensOf. rewrite Hf.
    apply list_elem_of_In, list_elem_of_omap. exists fill.
    split; [now apply list_elem_of_In|].
    apply visibleSolid_Some. repeat split; try assumption.
    now exists alpha.
Qed.

End TokenProperties.
